(** * MCP servers factory: tool dispatch and upstream-request contract

    A shallow embedding of the five server modules of the repository
    (GitHub [server.py], [sample.py], [oauth.py]; GitLab [main.py];
    Confluence [main.py]) and the properties their specification states.

    Every tool is a Python function that builds REST requests, hands them
    to [requests.request] and post-processes the decoded JSON.  The model
    threads the list of issued requests through a small state-and-exception
    monad; the upstream service is an arbitrary deterministic function of
    the request history. *)

From Stdlib Require Import ZArith Lia Ascii String.
From stdpp Require Import base option list strings gmap pretty.

Set Warnings "-register-all".
Local Open Scope Z_scope.

(** ** Python values

    Decoded JSON bodies and request payloads.  Numbers are integers; dicts
    keep insertion order (an association list whose first binding of a key
    is the live one). *)

Inductive value : Type :=
| VNone
| VBool (b : bool)
| VInt (n : Z)
| VStr (s : string)
| VList (l : list value)
| VDict (d : list (string * value)).

(** Exceptions the modelled code can raise. *)
Inductive exn : Type :=
| HTTPException (status : Z) (detail : string)
| RuntimeError (msg : string)
| NameError (name : string)
| AttributeError (attr : string)
| KeyError (key : string)
| TypeError
| JSONDecodeError
| RequestException (msg : string).

Inductive result (A : Type) : Type :=
| Ok (a : A)
| Raise (e : exn).
Arguments Ok {A} a.
Arguments Raise {A} e.

Definition is_ok {A} (r : result A) : bool :=
  match r with Ok _ => true | Raise _ => false end.

(** ** Built-ins used by the tools *)

Module Py.

(** [bool(v)] *)
Definition truthy (v : value) : bool :=
  match v with
  | VNone => false
  | VBool b => b
  | VInt n => negb (n =? 0)
  | VStr s => negb (String.eqb s "")
  | VList l => match l with [] => false | _ => true end
  | VDict d => match d with [] => false | _ => true end
  end.

Fixpoint assoc {A} (k : string) (d : list (string * A)) : option A :=
  match d with
  | [] => None
  | (k', v) :: d' => if String.eqb k k' then Some v else assoc k d'
  end.

(** [d[k] = v] on a dict: replaces a live binding, else appends. *)
Fixpoint dict_set {A} (k : string) (v : A) (d : list (string * A))
  : list (string * A) :=
  match d with
  | [] => [(k, v)]
  | (k', v') :: d' =>
      if String.eqb k k' then (k, v) :: d' else (k', v') :: dict_set k v d'
  end.

(** [o.get(k, default)]: only dicts have the method. *)
Definition get (o : value) (k : string) (default : value) : result value :=
  match o with
  | VDict d => Ok (match assoc k d with Some v => v | None => default end)
  | _ => Raise (AttributeError "get")
  end.

(** [o[k]] with a string key. *)
Definition getitem (o : value) (k : string) : result value :=
  match o with
  | VDict d =>
      match assoc k d with Some v => Ok v | None => Raise (KeyError k) end
  | _ => Raise TypeError
  end.

(** [a + b] *)
Definition int_of_bool (b : bool) : Z := if b then 1 else 0.

Definition add (a b : value) : result value :=
  match a, b with
  | VInt x, VInt y => Ok (VInt (x + y))
  | VBool x, VInt y => Ok (VInt (int_of_bool x + y))
  | VInt x, VBool y => Ok (VInt (x + int_of_bool y))
  | VBool x, VBool y => Ok (VInt (int_of_bool x + int_of_bool y))
  | VStr x, VStr y => Ok (VStr (x +:+ y))
  | VList x, VList y => Ok (VList (x ++ y))
  | _, _ => Raise TypeError
  end.

(** [str.lower()] on the ASCII range. *)
Definition lower_ascii (c : ascii) : ascii :=
  let n := Ascii.nat_of_ascii c in
  if ((65 <=? n)%nat && (n <=? 90)%nat)%bool
  then Ascii.ascii_of_nat (n + 32) else c.

Fixpoint lower (s : string) : string :=
  match s with
  | EmptyString => EmptyString
  | String c s' => String (lower_ascii c) (lower s')
  end.

(** [needle in haystack] for strings. *)
Fixpoint contains (needle haystack : string) : bool :=
  String.prefix needle haystack ||
  match haystack with
  | EmptyString => false
  | String _ h' => contains needle h'
  end.

(** [sep.join(parts)] *)
Fixpoint join (sep : string) (parts : list string) : string :=
  match parts with
  | [] => ""
  | [p] => p
  | p :: ps => p +:+ sep +:+ join sep ps
  end.

(** [s.rstrip('/')] *)
Fixpoint rstrip_slash (s : string) : string :=
  match s with
  | EmptyString => EmptyString
  | String c s' =>
      match rstrip_slash s' with
      | EmptyString => if Ascii.eqb c "/" then EmptyString else String c EmptyString
      | t => String c t
      end
  end.

(** Iterating a value in a comprehension: lists yield their items, dicts
    their keys, strings their characters; other values are not iterable. *)
Fixpoint chars (s : string) : list value :=
  match s with
  | EmptyString => []
  | String c s' => VStr (String c EmptyString) :: chars s'
  end.

Definition iter (v : value) : result (list value) :=
  match v with
  | VList l => Ok l
  | VDict d => Ok (map (fun kv => VStr (fst kv)) d)
  | VStr s => Ok (chars s)
  | _ => Raise TypeError
  end.

End Py.

(** Library functions the tools call whose code lives outside the
    repository: [repr] of containers, [requests.utils.quote] and base64. *)
Class PyLib := {
  repr_container : value -> string;
  quote : string -> string -> string;   (* quote(s, safe) *)
  b64encode : string -> string
}.

Section Format.
Context `{PyLib}.

(** [str(v)], as an f-string replacement field renders it. *)
Definition str_of (v : value) : string :=
  match v with
  | VNone => "None"
  | VBool true => "True"
  | VBool false => "False"
  | VInt n => pretty n
  | VStr s => s
  | VList _ | VDict _ => repr_container v
  end.
End Format.

(** ** Upstream HTTP

    [requests.request(method, url, headers=..., json=...)].  The call is
    recorded, then the upstream answers or the transport raises. *)

Record Req := {
  method : string;
  url : string;
  headers : list (string * string);
  json_kw : option value
}.

(** What the code reads from a [requests.Response]: [ok], [status_code],
    [text] and [json()], which raises when the body does not parse. *)
Record Response := {
  ok : bool;
  status_code : Z;
  text : string;
  json : option value
}.

(** The upstream as the tools see it: the answer to a request may depend on
    all the requests issued before it. *)
Definition Upstream := list Req -> Req -> result Response.

(** The tool monad: reads the upstream, appends to the request log, may
    raise. *)
Definition M (A : Type) : Type := Upstream -> list Req -> result A * list Req.

Definition ret {A} (a : A) : M A := fun _ log => (Ok a, log).
Definition raise {A} (e : exn) : M A := fun _ log => (Raise e, log).
Definition bind {A B} (m : M A) (k : A -> M B) : M B :=
  fun up log =>
    match m up log with
    | (Ok a, log') => k a up log'
    | (Raise e, log') => (Raise e, log')
    end.
Definition lift {A} (r : result A) : M A := fun _ log => (r, log).

Notation "x <- m ;; k" := (bind m (fun x => k))
  (at level 100, m at next level, right associativity).
Notation "m ;;; k" := (bind m (fun _ => k))
  (at level 100, right associativity).

Definition requests_request (r : Req) : M Response :=
  fun up log => (up log r, log ++ [r]).

Definition resp_json (resp : Response) : result value :=
  match json resp with Some v => Ok v | None => Raise JSONDecodeError end.

(** The requests a computation adds to the log. *)
Definition issued {A} (m : M A) (up : Upstream) (log : list Req) : list Req :=
  drop (length log) (snd (m up log)).

(** The inbound request object of a tool call, through the one thing the
    code reads from it: [request.headers.get(name)]. *)
Record Request := { headers_get : string -> option string }.

(** The characters a Rocq string literal cannot hold directly. *)
Definition dq : string := String (Ascii.ascii_of_nat 34) EmptyString.
Definition nl : string := String (Ascii.ascii_of_nat 10) EmptyString.

(** Truth value of an [Optional[str]] argument. *)
Definition opt_truthy (s : option string) : bool :=
  match s with Some t => negb (String.eqb t "") | None => false end.

(** [len(xs)] rendered in an f-string. *)
Definition str_len {A} (xs : list A) : string := pretty (length xs).

(** [f[k]] on a [Dict[str, str]] argument. *)
Definition file_getitem (f : gmap string string) (k : string) : result string :=
  match f !! k with Some v => Ok v | None => Raise (KeyError k) end.

(** ** Observations on the upstream and on the inbound request *)

(** The readonly marker as the servers read it: the [X-MCP-Readonly]
    header, missing read as the empty string, lower-cased, equal to
    ["true"]. *)
Definition readonly_marker (r : Request) : bool :=
  String.eqb (Py.lower (default "" (headers_get r "X-MCP-Readonly"))) "true".

(** The upstream answers request [q], after history [log], with a success
    status and a non-empty body that decodes to [v]. *)
Definition answered (up : Upstream) (log : list Req) (q : Req) (v : value)
  : Prop :=
  exists resp, up log q = Ok resp /\ ok resp = true /\
               text resp <> "" /\ json resp = Some v.

(** The call fails: the transport raises or the status is not a success. *)
Definition failed (a : result Response) : bool :=
  match a with
  | Ok resp => negb (ok resp)
  | Raise _ => true
  end.

(** A computation is fail-stop when a failed upstream call is always the
    last request it issues, and makes it raise. *)
Definition fail_stop {A} (m : M A) : Prop :=
  forall up log,
    exists tr, snd (m up log) = log ++ tr /\
      forall i q, tr !! i = Some q ->
        failed (up (log ++ take i tr) q) = true ->
        length tr = S i /\ is_ok (fst (m up log)) = false.

(** [page.get("version", {}).get("number")]: the version number of a page
    representation, as [confluence_update_page] reads it. *)
Definition version_number (page : value) : result value :=
  match Py.get page "version" (VDict []) with
  | Ok v => Py.get v "number" VNone
  | Raise e => Raise e
  end.

(** The version number a request submits: [json["version"]["number"]]. *)
Definition submitted_version (q : Req) : result value :=
  match json_kw q with
  | Some body =>
      match Py.getitem body "version" with
      | Ok v => Py.getitem v "number"
      | Raise e => Raise e
      end
  | None => Raise TypeError
  end.

(** ** GitHub server ([github-mcp-server/server.py]) *)

Module GithubServer.
Section Server.
Context `{PyLib}.
(** [os.getenv("GITHUB_TOKEN")]; the module refuses to load without it. *)
Variable GITHUB_TOKEN : string.

Definition BASE_URL : string := "https://api.github.com".

Definition HEADERS : list (string * string) :=
  [("Authorization", "Bearer " +:+ GITHUB_TOKEN);
   ("Accept", "application/vnd.github.v3+json")].

Definition github_request (method url : string) (json_kw : option value)
  : M value :=
  resp <- requests_request
            {| method := method; url := url; headers := HEADERS;
               json_kw := json_kw |} ;;
  if negb (ok resp) then
    raise (RuntimeError ("GitHub API error " +:+ pretty (status_code resp)
                           +:+ ": " +:+ text resp))
  else if negb (String.eqb (text resp) "") then lift (resp_json resp)
  else ret (VDict []).

Definition check_readonly (request : option Request) : M unit :=
  match request with
  | None => raise (AttributeError "headers")
  | Some r =>
      if String.eqb
           (Py.lower (default "" (headers_get r "X-MCP-Readonly"))) "true"
      then raise (HTTPException 403 "Readonly mode enforced")
      else ret tt
  end.

Definition create_branch (owner repo new_branch base_branch : string)
    (request : option Request) : M value :=
  check_readonly request ;;;
  let ref_url := BASE_URL +:+ "/repos/" +:+ owner +:+ "/" +:+ repo
                   +:+ "/git/ref/heads/" +:+ base_branch in
  ref_data <- github_request "GET" ref_url None ;;
  obj <- lift (Py.getitem ref_data "object") ;;
  sha <- lift (Py.getitem obj "sha") ;;
  let create_url := BASE_URL +:+ "/repos/" +:+ owner +:+ "/" +:+ repo
                      +:+ "/git/refs" in
  resp <- github_request "POST" create_url
            (Some (VDict [("ref", VStr ("refs/heads/" +:+ new_branch));
                          ("sha", sha)])) ;;
  ret (VDict [("message", VStr ("Branch '" +:+ new_branch +:+ "' created"));
              ("ref", resp)]).

Definition create_or_update_file
    (owner repo branch path content message : string) (sha : option string)
    (request : option Request) : M value :=
  check_readonly request ;;;
  let encoded := b64encode content in
  let url := BASE_URL +:+ "/repos/" +:+ owner +:+ "/" +:+ repo
               +:+ "/contents/" +:+ path in
  let payload := [("message", VStr message); ("content", VStr encoded);
                  ("branch", VStr branch)] in
  let payload := if opt_truthy sha
                 then Py.dict_set "sha" (VStr (default "" sha)) payload
                 else payload in
  resp <- github_request "PUT" url (Some (VDict payload)) ;;
  commit <- lift (Py.get resp "commit" VNone) ;;
  ret (VDict [("message", VStr ("File '" +:+ path +:+ "' updated"));
              ("commit", commit)]).

Definition get_contents (owner repo path ref : string) : M value :=
  let url := BASE_URL +:+ "/repos/" +:+ owner +:+ "/" +:+ repo
               +:+ "/contents/" +:+ path +:+ "?ref=" +:+ ref in
  github_request "GET" url None.

Definition create_pull_request (owner repo title head base body : string)
    (request : option Request) : M value :=
  check_readonly request ;;;
  let url := BASE_URL +:+ "/repos/" +:+ owner +:+ "/" +:+ repo +:+ "/pulls" in
  resp <- github_request "POST" url
            (Some (VDict [("title", VStr title); ("head", VStr head);
                          ("base", VStr base); ("body", VStr body)])) ;;
  html_url <- lift (Py.get resp "html_url" VNone) ;;
  number <- lift (Py.get resp "number" VNone) ;;
  ret (VDict [("message", VStr "PR created"); ("url", html_url);
              ("number", number)]).

Definition merge_pull_request (owner repo : string) (pr_number : Z)
    (commit_message : string) (request : option Request) : M value :=
  check_readonly request ;;;
  let url := BASE_URL +:+ "/repos/" +:+ owner +:+ "/" +:+ repo
               +:+ "/pulls/" +:+ pretty pr_number +:+ "/merge" in
  resp <- github_request "PUT" url
            (Some (VDict [("commit_message", VStr commit_message)])) ;;
  sha <- lift (Py.get resp "sha" VNone) ;;
  ret (VDict [("message", VStr ("PR #" +:+ pretty pr_number +:+ " merged"));
              ("sha", sha)]).

(** The [for f in files] loop of [push_multiple_files]: one blob per
    file, accumulating [tree_entries]. *)
Fixpoint create_blobs (owner repo : string)
    (files : list (gmap string string)) (tree_entries : list value)
  : M (list value) :=
  match files with
  | [] => ret tree_entries
  | f :: files' =>
      content <- lift (file_getitem f "content") ;;
      blob <- github_request "POST"
                (BASE_URL +:+ "/repos/" +:+ owner +:+ "/" +:+ repo
                   +:+ "/git/blobs")
                (Some (VDict [("content", VStr content);
                              ("encoding", VStr "utf-8")])) ;;
      path <- lift (file_getitem f "path") ;;
      blob_sha <- lift (Py.getitem blob "sha") ;;
      create_blobs owner repo files'
        (tree_entries ++
           [VDict [("path", VStr path); ("mode", VStr "100644");
                   ("type", VStr "blob"); ("sha", blob_sha)]])
  end.

Definition push_multiple_files (owner repo branch : string)
    (files : list (gmap string string)) (message : string)
    (request : option Request) : M value :=
  check_readonly request ;;;
  let ref_url := BASE_URL +:+ "/repos/" +:+ owner +:+ "/" +:+ repo
                   +:+ "/git/ref/heads/" +:+ branch in
  ref_data <- github_request "GET" ref_url None ;;
  obj <- lift (Py.getitem ref_data "object") ;;
  latest_commit_sha <- lift (Py.getitem obj "sha") ;;
  let commit_url := BASE_URL +:+ "/repos/" +:+ owner +:+ "/" +:+ repo
                      +:+ "/git/commits/" +:+ str_of latest_commit_sha in
  commit_data <- github_request "GET" commit_url None ;;
  tree0 <- lift (Py.getitem commit_data "tree") ;;
  base_tree <- lift (Py.getitem tree0 "sha") ;;
  tree_entries <- create_blobs owner repo files [] ;;
  tree <- github_request "POST"
            (BASE_URL +:+ "/repos/" +:+ owner +:+ "/" +:+ repo
               +:+ "/git/trees")
            (Some (VDict [("base_tree", base_tree);
                          ("tree", VList tree_entries)])) ;;
  tree_sha <- lift (Py.getitem tree "sha") ;;
  commit <- github_request "POST"
              (BASE_URL +:+ "/repos/" +:+ owner +:+ "/" +:+ repo
                 +:+ "/git/commits")
              (Some (VDict [("message", VStr message); ("tree", tree_sha);
                            ("parents", VList [latest_commit_sha])])) ;;
  commit_sha <- lift (Py.getitem commit "sha") ;;
  github_request "PATCH" ref_url (Some (VDict [("sha", commit_sha)])) ;;;
  ret (VDict [("message", VStr ("Committed " +:+ str_len files +:+ " files"));
              ("commit", commit)]).

(** The six kinds of request [push_multiple_files] builds, by name. *)
Definition ref_fetch (owner repo branch : string) : Req :=
  {| method := "GET";
     url := BASE_URL +:+ "/repos/" +:+ owner +:+ "/" +:+ repo
              +:+ "/git/ref/heads/" +:+ branch;
     headers := HEADERS; json_kw := None |}.

Definition commit_fetch (owner repo : string) (sha : value) : Req :=
  {| method := "GET";
     url := BASE_URL +:+ "/repos/" +:+ owner +:+ "/" +:+ repo
              +:+ "/git/commits/" +:+ str_of sha;
     headers := HEADERS; json_kw := None |}.

Definition blob_create (owner repo content : string) : Req :=
  {| method := "POST";
     url := BASE_URL +:+ "/repos/" +:+ owner +:+ "/" +:+ repo
              +:+ "/git/blobs";
     headers := HEADERS;
     json_kw := Some (VDict [("content", VStr content);
                             ("encoding", VStr "utf-8")]) |}.

Definition tree_entry (path : string) (blob_sha : value) : value :=
  VDict [("path", VStr path); ("mode", VStr "100644");
         ("type", VStr "blob"); ("sha", blob_sha)].

Definition tree_create (owner repo : string) (base_tree : value)
    (tree_entries : list value) : Req :=
  {| method := "POST";
     url := BASE_URL +:+ "/repos/" +:+ owner +:+ "/" +:+ repo
              +:+ "/git/trees";
     headers := HEADERS;
     json_kw := Some (VDict [("base_tree", base_tree);
                             ("tree", VList tree_entries)]) |}.

Definition commit_create (owner repo message : string)
    (tree_sha parent : value) : Req :=
  {| method := "POST";
     url := BASE_URL +:+ "/repos/" +:+ owner +:+ "/" +:+ repo
              +:+ "/git/commits";
     headers := HEADERS;
     json_kw := Some (VDict [("message", VStr message); ("tree", tree_sha);
                             ("parents", VList [parent])]) |}.

Definition ref_update (owner repo branch : string) (commit_sha : value)
  : Req :=
  {| method := "PATCH";
     url := BASE_URL +:+ "/repos/" +:+ owner +:+ "/" +:+ repo
              +:+ "/git/ref/heads/" +:+ branch;
     headers := HEADERS;
     json_kw := Some (VDict [("sha", commit_sha)]) |}.

Definition update_pr_branch (owner repo : string) (pr_number : Z)
    (request : option Request) : M value :=
  check_readonly request ;;;
  let url := BASE_URL +:+ "/repos/" +:+ owner +:+ "/" +:+ repo
               +:+ "/pulls/" +:+ pretty pr_number +:+ "/update-branch" in
  resp <- github_request "PUT" url (Some (VDict [])) ;;
  ret (VDict [("message",
               VStr ("PR #" +:+ pretty pr_number +:+ " branch update requested"));
              ("response", resp)]).

End Server.
End GithubServer.

(** ** GitLab server ([gitlab-mcp-server/main.py]) *)

Module Gitlab.
Section Server.
Context `{PyLib}.
Variable GITLAB_TOKEN : string.
(** [os.getenv("GITLAB_BASE_URL", "https://code.lioncloud.net/api/v4")] *)
Variable GITLAB_BASE_URL : string.

Definition HEADERS : list (string * string) :=
  [("PRIVATE-TOKEN", GITLAB_TOKEN); ("Accept", "application/json")].

Definition gitlab_request (method url : string) (json_kw : option value)
  : M value :=
  resp <- requests_request
            {| method := method; url := url; headers := HEADERS;
               json_kw := json_kw |} ;;
  if negb (ok resp) then
    raise (RuntimeError ("GitLab API error " +:+ pretty (status_code resp)
                           +:+ ": " +:+ text resp))
  else if negb (String.eqb (text resp) "") then lift (resp_json resp)
  else ret (VDict []).

Definition check_readonly (request : option Request) : M unit :=
  match request with
  | None => raise (AttributeError "headers")
  | Some r =>
      if String.eqb
           (Py.lower (default "" (headers_get r "X-MCP-Readonly"))) "true"
      then raise (HTTPException 403 "Readonly mode enforced")
      else ret tt
  end.

(** The tools of this module evaluate the name [request], which neither
    their signatures nor the module bind: the lookup raises. *)
Definition request : M (option Request) := raise (NameError "request").

Definition create_branch (project_id new_branch base_branch : string)
  : M value :=
  r <- request ;; check_readonly r ;;;
  let url := GITLAB_BASE_URL +:+ "/projects/" +:+ project_id
               +:+ "/repository/branches" in
  resp <- gitlab_request "POST" url
            (Some (VDict [("branch", VStr new_branch);
                          ("ref", VStr base_branch)])) ;;
  ret (VDict [("message", VStr ("Branch '" +:+ new_branch +:+ "' created"));
              ("branch", resp)]).

Definition create_or_update_file
    (project_id branch path content message : string) (sha : option string)
  : M value :=
  r <- request ;; check_readonly r ;;;
  let url := GITLAB_BASE_URL +:+ "/projects/" +:+ project_id
               +:+ "/repository/files/" +:+ quote path "" in
  let payload := [("branch", VStr branch); ("content", VStr content);
                  ("commit_message", VStr message)] in
  let method := if opt_truthy sha then "PUT" else "POST" in
  resp <- gitlab_request method url (Some (VDict payload)) ;;
  ret (VDict [("message", VStr ("File '" +:+ path +:+ "' updated"));
              ("response", resp)]).

Definition get_contents (project_id path ref : string) : M value :=
  let url := GITLAB_BASE_URL +:+ "/projects/" +:+ project_id
               +:+ "/repository/files/" +:+ quote path ""
               +:+ "?ref=" +:+ ref in
  gitlab_request "GET" url None.

Definition create_merge_request
    (project_id title source_branch target_branch description : string)
  : M value :=
  r <- request ;; check_readonly r ;;;
  let url := GITLAB_BASE_URL +:+ "/projects/" +:+ project_id
               +:+ "/merge_requests" in
  let payload := [("title", VStr title);
                  ("source_branch", VStr source_branch);
                  ("target_branch", VStr target_branch);
                  ("description", VStr description)] in
  resp <- gitlab_request "POST" url (Some (VDict payload)) ;;
  web_url <- lift (Py.get resp "web_url" VNone) ;;
  iid <- lift (Py.get resp "iid" VNone) ;;
  ret (VDict [("message", VStr "Merge request created"); ("url", web_url);
              ("iid", iid)]).

Definition merge_merge_request (project_id : string) (mr_iid : Z)
    (merge_commit_message : string) : M value :=
  r <- request ;; check_readonly r ;;;
  let url := GITLAB_BASE_URL +:+ "/projects/" +:+ project_id
               +:+ "/merge_requests/" +:+ pretty mr_iid +:+ "/merge" in
  resp <- gitlab_request "PUT" url
            (Some (VDict [("merge_commit_message",
                           VStr merge_commit_message)])) ;;
  sha <- lift (Py.get resp "sha" VNone) ;;
  ret (VDict [("message", VStr ("MR !" +:+ pretty mr_iid +:+ " merged"));
              ("sha", sha)]).

(** The comprehension building [actions]. *)
Fixpoint actions_of (files : list (gmap string string))
  : result (list value) :=
  match files with
  | [] => Ok []
  | f :: files' =>
      match file_getitem f "path" with
      | Raise e => Raise e
      | Ok path =>
          match file_getitem f "content" with
          | Raise e => Raise e
          | Ok content =>
              match actions_of files' with
              | Raise e => Raise e
              | Ok rest =>
                  Ok (VDict [("action", VStr "create");
                             ("file_path", VStr path);
                             ("content", VStr content)] :: rest)
              end
          end
      end
  end.

Definition push_multiple_files (project_id branch : string)
    (files : list (gmap string string)) (message : string) : M value :=
  r <- request ;; check_readonly r ;;;
  let url := GITLAB_BASE_URL +:+ "/projects/" +:+ project_id
               +:+ "/repository/commits" in
  actions <- lift (actions_of files) ;;
  let payload := [("branch", VStr branch); ("commit_message", VStr message);
                  ("actions", VList actions)] in
  resp <- gitlab_request "POST" url (Some (VDict payload)) ;;
  ret (VDict [("message", VStr ("Committed " +:+ str_len files +:+ " files"));
              ("commit", resp)]).

Definition update_mr_branch (project_id : string) (mr_iid : Z) : M value :=
  r <- request ;; check_readonly r ;;;
  let url := GITLAB_BASE_URL +:+ "/projects/" +:+ project_id
               +:+ "/merge_requests/" +:+ pretty mr_iid +:+ "/rebase" in
  resp <- gitlab_request "PUT" url None ;;
  ret (VDict [("message",
               VStr ("MR !" +:+ pretty mr_iid +:+ " rebase requested"));
              ("response", resp)]).

End Server.
End Gitlab.

(** [v[0]], as [confluence_get_page] applies it to a truthy value. *)
Definition getitem0 (v : value) : result value :=
  match v with
  | VList (x :: _) => Ok x
  | VList [] => Raise (KeyError "0")   (* IndexError; not reached: [] is falsy *)
  | VStr (String c _) => Ok (VStr (String c EmptyString))
  | VStr EmptyString => Raise (KeyError "0")
  | VDict _ => Raise (KeyError "0")
  | _ => Raise TypeError
  end.

(** ** Confluence server ([confluence-mcp-server/main.py]) *)

Module Confluence.
Section Server.
Context `{PyLib}.
Variable CONFLUENCE_BASE_URL : string.
Variable CONFLUENCE_PAT : string.

Definition API_BASE : string :=
  Py.rstrip_slash CONFLUENCE_BASE_URL +:+ "/rest/api".

Definition HEADERS : list (string * string) :=
  [("Accept", "application/json");
   ("Content-Type", "application/json");
   ("Authorization", "Bearer " +:+ CONFLUENCE_PAT)].

Definition cf_request (method url : string) (json_kw : option value)
  : M value :=
  resp <- requests_request
            {| method := method; url := url; headers := HEADERS;
               json_kw := json_kw |} ;;
  if negb (ok resp) then
    let detail := match json resp with
                  | Some j => j
                  | None => VStr (text resp)
                  end in
    raise (RuntimeError ("Confluence API error "
                           +:+ pretty (status_code resp) +:+ ": "
                           +:+ str_of detail))
  else if negb (String.eqb (text resp) "") then
    match json resp with
    | Some j => ret j
    | None => ret (VDict [("raw", VStr (text resp))])
    end
  else ret (VDict []).

Definition storage_body_html (html : string) : value :=
  VDict [("storage", VDict [("value", VStr html);
                            ("representation", VStr "storage")])].

Definition confluence_create_page (space_key title html_content : string)
    (parent_page_id : option string) : M value :=
  let data := [("type", VStr "page"); ("title", VStr title);
               ("space", VDict [("key", VStr space_key)]);
               ("body", storage_body_html html_content)] in
  let data :=
    if opt_truthy parent_page_id
    then Py.dict_set "ancestors"
           (VList [VDict [("id", VStr (default "" parent_page_id))]]) data
    else data in
  let url := API_BASE +:+ "/content" in
  created <- cf_request "POST" url (Some (VDict data)) ;;
  id <- lift (Py.get created "id" VNone) ;;
  title' <- lift (Py.get created "title" VNone) ;;
  links <- lift (Py.get created "_links" (VDict [])) ;;
  base <- lift (Py.get links "base" (VStr "")) ;;
  links' <- lift (Py.get created "_links" (VDict [])) ;;
  webui <- lift (Py.get links' "webui" (VStr "")) ;;
  link <- lift (Py.add base webui) ;;
  ret (VDict [("message", VStr "Page created"); ("id", id);
              ("title", title'); ("link", link)]).

Definition confluence_get_page (page_id title space_key : option string)
    (expand_body : bool) : M value :=
  let expand := if expand_body then "body.storage,version" else "version" in
  if opt_truthy page_id then
    let url := API_BASE +:+ "/content/" +:+ default "" page_id
                 +:+ "?expand=" +:+ expand in
    cf_request "GET" url None
  else if negb (opt_truthy title) || negb (opt_truthy space_key) then
    raise (RuntimeError "Provide either page_id OR (title and space_key).")
  else
    let url := API_BASE +:+ "/content?title=" +:+ quote (default "" title) "/"
                 +:+ "&spaceKey=" +:+ quote (default "" space_key) "/"
                 +:+ "&expand=" +:+ expand in
    result <- cf_request "GET" url None ;;
    results <- lift (Py.get result "results" (VList [])) ;;
    if negb (Py.truthy results) then
      ret (VDict [("message", VStr "No page found"); ("results", VList [])])
    else lift (getitem0 results).

Definition confluence_update_page (page_id : string)
    (new_title new_html_content : option string) (minor_edit : bool)
  : M value :=
  current <- cf_request "GET"
               (API_BASE +:+ "/content/" +:+ page_id +:+ "?expand=version")
               None ;;
  version_obj <- lift (Py.get current "version" (VDict [])) ;;
  version <- lift (Py.get version_obj "number" VNone) ;;
  if negb (Py.truthy version) then
    raise (RuntimeError
             "Could not determine current version number for the page.")
  else
    title <- (if opt_truthy new_title then ret (VStr (default "" new_title))
              else lift (Py.get current "title" VNone)) ;;
    next <- lift (Py.add version (VInt 1)) ;;
    let payload := [("id", VStr page_id); ("type", VStr "page");
                    ("title", title);
                    ("version", VDict [("number", next);
                                       ("minorEdit", VBool minor_edit)])] in
    let payload :=
      match new_html_content with
      | Some html => Py.dict_set "body" (storage_body_html html) payload
      | None => payload
      end in
    updated <- cf_request "PUT" (API_BASE +:+ "/content/" +:+ page_id)
                 (Some (VDict payload)) ;;
    id <- lift (Py.get updated "id" VNone) ;;
    title' <- lift (Py.get updated "title" VNone) ;;
    uversion <- lift (Py.get updated "version" (VDict [])) ;;
    number <- lift (Py.get uversion "number" VNone) ;;
    ret (VDict [("message", VStr "Page updated"); ("id", id);
                ("title", title'); ("version", number)]).

(** The two requests of [confluence_update_page], by name, and the
    version number as the tool reads it from a page representation. *)
Definition version_fetch (page_id : string) : Req :=
  {| method := "GET";
     url := API_BASE +:+ "/content/" +:+ page_id +:+ "?expand=version";
     headers := HEADERS; json_kw := None |}.

Definition page_put (page_id : string) (payload : list (string * value))
  : Req :=
  {| method := "PUT";
     url := API_BASE +:+ "/content/" +:+ page_id;
     headers := HEADERS; json_kw := Some (VDict payload) |}.

Definition confluence_delete_page (page_id status : string) : M value :=
  let url := API_BASE +:+ "/content/" +:+ page_id +:+ "?status="
               +:+ quote status "/" in
  cf_request "DELETE" url None ;;;
  ret (VDict [("message", VStr ("Page " +:+ page_id +:+ " deleted"));
              ("status", VStr status)]).

Definition confluence_add_comment (page_id html_content : string) : M value :=
  let url := API_BASE +:+ "/content/" +:+ page_id +:+ "/child/comment" in
  let data := [("type", VStr "comment");
               ("container", VDict [("id", VStr page_id);
                                    ("type", VStr "page")]);
               ("body", storage_body_html html_content)] in
  created <- cf_request "POST" url (Some (VDict data)) ;;
  id <- lift (Py.get created "id" VNone) ;;
  ret (VDict [("message", VStr "Comment added"); ("id", id)]).

Definition confluence_get_comments (page_id : string) (limit start : Z)
  : M value :=
  let url := API_BASE +:+ "/content/" +:+ page_id
               +:+ "/child/comment?expand=body.storage,version&limit="
               +:+ pretty limit +:+ "&start=" +:+ pretty start in
  cf_request "GET" url None.

Definition confluence_add_label (page_id : string) (labels : list string)
  : M value :=
  let url := API_BASE +:+ "/content/" +:+ page_id +:+ "/label" in
  let payload :=
    map (fun name => VDict [("prefix", VStr "global"); ("name", VStr name)])
        labels in
  resp <- cf_request "POST" url (Some (VList payload)) ;;
  ret (VDict [("message", VStr ("Added " +:+ str_len labels +:+ " label(s)"));
              ("labels", resp)]).

Definition confluence_get_labels (page_id : string) (limit start : Z)
  : M value :=
  let url := API_BASE +:+ "/content/" +:+ page_id +:+ "/label?limit="
               +:+ pretty limit +:+ "&start=" +:+ pretty start in
  cf_request "GET" url None.

Definition confluence_get_page_children (page_id : string) (limit start : Z)
    (expand_body : bool) : M value :=
  let expand := if expand_body then "body.storage,version" else "version" in
  let url := API_BASE +:+ "/content/" +:+ page_id +:+ "/child/page?expand="
               +:+ expand +:+ "&limit=" +:+ pretty limit
               +:+ "&start=" +:+ pretty start in
  cf_request "GET" url None.

Definition confluence_search (query cql : option string) (limit start : Z)
    (expand_body : bool) : M value :=
  if opt_truthy cql then
    let expand := if expand_body then Some "body.storage" else None in
    let url := API_BASE +:+ "/search?cql=" +:+ quote (default "" cql) "/"
                 +:+ "&limit=" +:+ pretty limit
                 +:+ "&start=" +:+ pretty start in
    let url := if opt_truthy expand
               then url +:+ "&expand=" +:+ default "" expand else url in
    cf_request "GET" url None
  else if opt_truthy query then
    let safe := quote (default "" query) "/" in
    let cql_expr := "text ~ " +:+ dq +:+ safe +:+ dq +:+ " OR title ~ "
                      +:+ dq +:+ safe +:+ dq in
    let url := API_BASE +:+ "/search?cql=" +:+ cql_expr
                 +:+ "&limit=" +:+ pretty limit
                 +:+ "&start=" +:+ pretty start in
    let url := if expand_body then url +:+ "&expand=body.storage" else url in
    cf_request "GET" url None
  else raise (RuntimeError "Provide either 'query' or 'cql' for search.").

End Server.
End Confluence.

(** The list comprehension of [weekly_digest]:
    [[f"- {x['title']} (#{x['number']})" for x in items]]. *)
Section Digest.
Context `{PyLib}.

Fixpoint digest_lines (items : list value) : result (list string) :=
  match items with
  | [] => Ok []
  | x :: items' =>
      match Py.getitem x "title" with
      | Raise e => Raise e
      | Ok title =>
          match Py.getitem x "number" with
          | Raise e => Raise e
          | Ok number =>
              match digest_lines items' with
              | Raise e => Raise e
              | Ok rest =>
                  Ok (("- " +:+ str_of title +:+ " (#" +:+ str_of number
                         +:+ ")") :: rest)
              end
          end
      end
  end.

Definition digest_section (v : value) (empty : string) : result string :=
  match Py.iter v with
  | Raise e => Raise e
  | Ok items =>
      match digest_lines items with
      | Raise e => Raise e
      | Ok lines =>
          let joined := Py.join nl lines in
          Ok (if String.eqb joined "" then empty else joined)
      end
  end.
End Digest.

(** ** GitHub server with per-user tokens ([github-mcp-server/sample.py]) *)

Module GithubSample.
Section Server.
Context `{PyLib}.
(** [os.getenv("GITHUB_TOKEN")], the fallback global token. *)
Variable GITHUB_TOKEN : option string.
(** [os.getenv("GITHUB_API_URL", "https://api.github.com")] *)
Variable BASE_URL : string.
(** The per-user token store at the time of the call. *)
Variable user_tokens : gmap string string.

Definition get_auth_header (user : option string)
  : result (list (string * string)) :=
  let token :=
    if opt_truthy user && bool_decide (is_Some (user_tokens !! default "" user))
    then user_tokens !! default "" user
    else if opt_truthy GITHUB_TOKEN then GITHUB_TOKEN
    else None in
  if negb (opt_truthy token) then
    Raise (HTTPException 401 "No GitHub token available")
  else
    Ok [("Authorization", "Bearer " +:+ default "" token);
        ("Accept", "application/vnd.github.v3+json")].

Definition github_request (method url : string) (user : option string)
    (json_kw : option value) : M value :=
  hdrs <- lift (get_auth_header user) ;;
  resp <- requests_request
            {| method := method; url := url; headers := hdrs;
               json_kw := json_kw |} ;;
  if negb (ok resp) then
    raise (HTTPException (status_code resp) (text resp))
  else if negb (String.eqb (text resp) "") then lift (resp_json resp)
  else ret (VDict []).

Definition check_readonly (request : option Request) : M unit :=
  match request with
  | None => raise (AttributeError "headers")
  | Some r =>
      if String.eqb
           (Py.lower (default "" (headers_get r "X-MCP-Readonly"))) "true"
      then raise (HTTPException 403 "Readonly mode enforced")
      else ret tt
  end.

Definition create_branch (owner repo new_branch base_branch : string)
    (user : option string) (request : option Request) : M value :=
  check_readonly request ;;;
  let ref_url := BASE_URL +:+ "/repos/" +:+ owner +:+ "/" +:+ repo
                   +:+ "/git/ref/heads/" +:+ base_branch in
  ref_data <- github_request "GET" ref_url user None ;;
  obj <- lift (Py.getitem ref_data "object") ;;
  sha <- lift (Py.getitem obj "sha") ;;
  let create_url := BASE_URL +:+ "/repos/" +:+ owner +:+ "/" +:+ repo
                      +:+ "/git/refs" in
  resp <- github_request "POST" create_url user
            (Some (VDict [("ref", VStr ("refs/heads/" +:+ new_branch));
                          ("sha", sha)])) ;;
  ret (VDict [("message", VStr ("Branch '" +:+ new_branch +:+ "' created"));
              ("ref", resp)]).

Definition create_or_update_file
    (owner repo branch path content message : string) (sha : option string)
    (user : option string) (request : option Request) : M value :=
  check_readonly request ;;;
  let encoded := b64encode content in
  let url := BASE_URL +:+ "/repos/" +:+ owner +:+ "/" +:+ repo
               +:+ "/contents/" +:+ path in
  let payload := [("message", VStr message); ("content", VStr encoded);
                  ("branch", VStr branch)] in
  let payload := if opt_truthy sha
                 then Py.dict_set "sha" (VStr (default "" sha)) payload
                 else payload in
  resp <- github_request "PUT" url user (Some (VDict payload)) ;;
  commit <- lift (Py.get resp "commit" VNone) ;;
  ret (VDict [("message", VStr ("File '" +:+ path +:+ "' updated"));
              ("commit", commit)]).

Definition get_contents (owner repo path ref : string)
    (user : option string) : M value :=
  let url := BASE_URL +:+ "/repos/" +:+ owner +:+ "/" +:+ repo
               +:+ "/contents/" +:+ path +:+ "?ref=" +:+ ref in
  github_request "GET" url user None.

Definition create_pull_request (owner repo title head base body : string)
    (user : option string) (request : option Request) : M value :=
  check_readonly request ;;;
  let url := BASE_URL +:+ "/repos/" +:+ owner +:+ "/" +:+ repo +:+ "/pulls" in
  resp <- github_request "POST" url user
            (Some (VDict [("title", VStr title); ("head", VStr head);
                          ("base", VStr base); ("body", VStr body)])) ;;
  html_url <- lift (Py.get resp "html_url" VNone) ;;
  number <- lift (Py.get resp "number" VNone) ;;
  ret (VDict [("message", VStr "PR created"); ("url", html_url);
              ("number", number)]).

Definition merge_pull_request (owner repo : string) (pr_number : Z)
    (commit_message : string) (user : option string)
    (request : option Request) : M value :=
  check_readonly request ;;;
  let url := BASE_URL +:+ "/repos/" +:+ owner +:+ "/" +:+ repo
               +:+ "/pulls/" +:+ pretty pr_number +:+ "/merge" in
  resp <- github_request "PUT" url user
            (Some (VDict [("commit_message", VStr commit_message)])) ;;
  sha <- lift (Py.get resp "sha" VNone) ;;
  ret (VDict [("message", VStr ("PR #" +:+ pretty pr_number +:+ " merged"));
              ("sha", sha)]).

Definition query_github (query : string) (user : option string) : M value :=
  if Py.contains "pull" (Py.lower query) then
    github_request "GET" "/repos/org/repo/pulls?state=open" user None
  else if Py.contains "issue" (Py.lower query) then
    github_request "GET" "/repos/org/repo/issues?state=open" user None
  else if Py.contains "release" (Py.lower query) then
    github_request "GET" "/repos/org/repo/releases" user None
  else ret (VDict [("message", VStr ("Query not understood: " +:+ query))]).

(** [week_ago] is
    [(datetime.datetime.utcnow() - datetime.timedelta(days=7)).isoformat()]
    as read from the clock at the call. *)
Definition weekly_digest (week_ago : string) (user : option string)
  : M value :=
  let since := week_ago +:+ "Z" in
  prs <- github_request "GET"
           "/repos/org/repo/pulls?state=all&sort=updated&direction=desc"
           user None ;;
  issues <- github_request "GET" ("/repos/org/repo/issues?since=" +:+ since)
              user None ;;
  let md := "# Weekly Digest" +:+ nl +:+ nl in
  let md := md +:+ "## Pull Requests" +:+ nl in
  pr_part <- lift (digest_section prs ("No PRs" +:+ nl)) ;;
  let md := md +:+ pr_part in
  let md := md +:+ nl +:+ nl +:+ "## Issues" +:+ nl in
  issue_part <- lift (digest_section issues ("No issues" +:+ nl)) ;;
  let md := md +:+ issue_part in
  ret (VDict [("digest", VStr md)]).

End Server.
End GithubSample.

(** ** GitHub OAuth server ([github-mcp-server/oauth.py]) *)

Module GithubOauth.
Section Server.
Context `{PyLib}.
Variable BASE_URL : string.
(** The in-memory token store at the time of the call. *)
Variable user_tokens : gmap string string.

Definition github_request (user method path : string)
    (json_kw : option value) : M value :=
  let token := user_tokens !! user in
  if negb (opt_truthy token) then
    raise (HTTPException 401 "User not authenticated")
  else
    let url := BASE_URL +:+ path in
    resp <- requests_request
              {| method := method; url := url;
                 headers := [("Authorization", "Bearer " +:+ default "" token);
                             ("Accept", "application/vnd.github.v3+json")];
                 json_kw := json_kw |} ;;
    if negb (ok resp) then
      raise (HTTPException (status_code resp) (text resp))
    else lift (resp_json resp).

Definition query_github (query user : string) : M value :=
  if Py.contains "pull" (Py.lower query) then
    github_request user "GET" "/repos/org/repo/pulls?state=open" None
  else if Py.contains "issue" (Py.lower query) then
    github_request user "GET" "/repos/org/repo/issues?state=open" None
  else if Py.contains "release" (Py.lower query) then
    github_request user "GET" "/repos/org/repo/releases" None
  else ret (VDict [("message", VStr ("Query not understood: " +:+ query))]).

Definition weekly_digest (week_ago user : string) : M value :=
  let since := week_ago +:+ "Z" in
  prs <- github_request user "GET"
           "/repos/org/repo/pulls?state=all&sort=updated&direction=desc"
           None ;;
  issues <- github_request user "GET"
              ("/repos/org/repo/issues?since=" +:+ since) None ;;
  let md := "# Weekly Digest" +:+ nl +:+ nl in
  let md := md +:+ "## Pull Requests" +:+ nl in
  pr_part <- lift (digest_section prs ("No PRs" +:+ nl)) ;;
  let md := md +:+ pr_part in
  let md := md +:+ nl +:+ nl +:+ "## Issues" +:+ nl in
  issue_part <- lift (digest_section issues ("No issues" +:+ nl)) ;;
  let md := md +:+ issue_part in
  ret (VDict [("digest", VStr md)]).

End Server.
End GithubOauth.

(** ** Tool invocations

    One constructor per registered tool, carrying the arguments of the
    call.  The inbound request is handed to the tools that declare a
    [request] parameter. *)

Inductive ToolCall : Type :=
(* server.py *)
| GH_create_branch (owner repo new_branch base_branch : string)
| GH_create_or_update_file (owner repo branch path content message : string)
    (sha : option string)
| GH_get_contents (owner repo path ref : string)
| GH_create_pull_request (owner repo title head base body : string)
| GH_merge_pull_request (owner repo : string) (pr_number : Z)
    (commit_message : string)
| GH_push_multiple_files (owner repo branch : string)
    (files : list (gmap string string)) (message : string)
| GH_update_pr_branch (owner repo : string) (pr_number : Z)
(* gitlab main.py *)
| GL_create_branch (project_id new_branch base_branch : string)
| GL_create_or_update_file (project_id branch path content message : string)
    (sha : option string)
| GL_get_contents (project_id path ref : string)
| GL_create_merge_request
    (project_id title source_branch target_branch description : string)
| GL_merge_merge_request (project_id : string) (mr_iid : Z)
    (merge_commit_message : string)
| GL_push_multiple_files (project_id branch : string)
    (files : list (gmap string string)) (message : string)
| GL_update_mr_branch (project_id : string) (mr_iid : Z)
(* confluence main.py *)
| CF_create_page (space_key title html_content : string)
    (parent_page_id : option string)
| CF_get_page (page_id title space_key : option string) (expand_body : bool)
| CF_update_page (page_id : string) (new_title new_html_content : option string)
    (minor_edit : bool)
| CF_delete_page (page_id status : string)
| CF_add_comment (page_id html_content : string)
| CF_get_comments (page_id : string) (limit start : Z)
| CF_add_label (page_id : string) (labels : list string)
| CF_get_labels (page_id : string) (limit start : Z)
| CF_get_page_children (page_id : string) (limit start : Z)
    (expand_body : bool)
| CF_search (query cql : option string) (limit start : Z) (expand_body : bool)
(* sample.py *)
| GS_create_branch (owner repo new_branch base_branch : string)
    (user : option string)
| GS_create_or_update_file (owner repo branch path content message : string)
    (sha : option string) (user : option string)
| GS_get_contents (owner repo path ref : string) (user : option string)
| GS_create_pull_request (owner repo title head base body : string)
    (user : option string)
| GS_merge_pull_request (owner repo : string) (pr_number : Z)
    (commit_message : string) (user : option string)
| GS_query_github (query : string) (user : option string)
| GS_weekly_digest (week_ago : string) (user : option string)
(* oauth.py *)
| GO_query_github (query user : string)
| GO_weekly_digest (week_ago user : string).

(** The configuration and token stores of the five server processes. *)
Record Env := {
  gh_token : string;
  gl_token : string;
  gl_base_url : string;
  cf_base_url : string;
  cf_pat : string;
  gs_token : option string;
  gs_base_url : string;
  gs_user_tokens : gmap string string;
  go_base_url : string;
  go_user_tokens : gmap string string
}.

Section Invoke.
Context `{PyLib}.
Variable env : Env.

Definition invoke (request : option Request) (c : ToolCall) : M value :=
  match c with
  | GH_create_branch o r nb bb =>
      GithubServer.create_branch (gh_token env) o r nb bb request
  | GH_create_or_update_file o r b p c m sha =>
      GithubServer.create_or_update_file (gh_token env) o r b p c m sha
        request
  | GH_get_contents o r p ref =>
      GithubServer.get_contents (gh_token env) o r p ref
  | GH_create_pull_request o r t h b body =>
      GithubServer.create_pull_request (gh_token env) o r t h b body request
  | GH_merge_pull_request o r n m =>
      GithubServer.merge_pull_request (gh_token env) o r n m request
  | GH_push_multiple_files o r b fs m =>
      GithubServer.push_multiple_files (gh_token env) o r b fs m request
  | GH_update_pr_branch o r n =>
      GithubServer.update_pr_branch (gh_token env) o r n request
  | GL_create_branch p nb bb =>
      Gitlab.create_branch (gl_token env) (gl_base_url env) p nb bb
  | GL_create_or_update_file p b path c m sha =>
      Gitlab.create_or_update_file (gl_token env) (gl_base_url env)
        p b path c m sha
  | GL_get_contents p path ref =>
      Gitlab.get_contents (gl_token env) (gl_base_url env) p path ref
  | GL_create_merge_request p t s tg d =>
      Gitlab.create_merge_request (gl_token env) (gl_base_url env) p t s tg d
  | GL_merge_merge_request p i m =>
      Gitlab.merge_merge_request (gl_token env) (gl_base_url env) p i m
  | GL_push_multiple_files p b fs m =>
      Gitlab.push_multiple_files (gl_token env) (gl_base_url env) p b fs m
  | GL_update_mr_branch p i =>
      Gitlab.update_mr_branch (gl_token env) (gl_base_url env) p i
  | CF_create_page sk t html parent =>
      Confluence.confluence_create_page (cf_base_url env) (cf_pat env)
        sk t html parent
  | CF_get_page pid t sk e =>
      Confluence.confluence_get_page (cf_base_url env) (cf_pat env) pid t sk e
  | CF_update_page pid nt html minor =>
      Confluence.confluence_update_page (cf_base_url env) (cf_pat env)
        pid nt html minor
  | CF_delete_page pid st =>
      Confluence.confluence_delete_page (cf_base_url env) (cf_pat env) pid st
  | CF_add_comment pid html =>
      Confluence.confluence_add_comment (cf_base_url env) (cf_pat env)
        pid html
  | CF_get_comments pid l s =>
      Confluence.confluence_get_comments (cf_base_url env) (cf_pat env)
        pid l s
  | CF_add_label pid labels =>
      Confluence.confluence_add_label (cf_base_url env) (cf_pat env)
        pid labels
  | CF_get_labels pid l s =>
      Confluence.confluence_get_labels (cf_base_url env) (cf_pat env) pid l s
  | CF_get_page_children pid l s e =>
      Confluence.confluence_get_page_children (cf_base_url env) (cf_pat env)
        pid l s e
  | CF_search q cql l s e =>
      Confluence.confluence_search (cf_base_url env) (cf_pat env) q cql l s e
  | GS_create_branch o r nb bb u =>
      GithubSample.create_branch (gs_token env) (gs_base_url env)
        (gs_user_tokens env) o r nb bb u request
  | GS_create_or_update_file o r b p c m sha u =>
      GithubSample.create_or_update_file (gs_token env) (gs_base_url env)
        (gs_user_tokens env) o r b p c m sha u request
  | GS_get_contents o r p ref u =>
      GithubSample.get_contents (gs_token env) (gs_base_url env)
        (gs_user_tokens env) o r p ref u
  | GS_create_pull_request o r t h b body u =>
      GithubSample.create_pull_request (gs_token env) (gs_base_url env)
        (gs_user_tokens env) o r t h b body u request
  | GS_merge_pull_request o r n m u =>
      GithubSample.merge_pull_request (gs_token env) (gs_base_url env)
        (gs_user_tokens env) o r n m u request
  | GS_query_github q u =>
      GithubSample.query_github (gs_token env) (gs_user_tokens env) q u
  | GS_weekly_digest w u =>
      GithubSample.weekly_digest (gs_token env) (gs_user_tokens env) w u
  | GO_query_github q u =>
      GithubOauth.query_github (go_base_url env) (go_user_tokens env) q u
  | GO_weekly_digest w u =>
      GithubOauth.weekly_digest (go_base_url env) (go_user_tokens env) w u
  end.
End Invoke.

(** Which server a tool belongs to. *)
Inductive Server := GithubServerPy | GitlabPy | ConfluencePy | GithubSamplePy
                  | GithubOauthPy.

Definition server_of (c : ToolCall) : Server :=
  match c with
  | GH_create_branch _ _ _ _ | GH_create_or_update_file _ _ _ _ _ _ _
  | GH_get_contents _ _ _ _ | GH_create_pull_request _ _ _ _ _ _
  | GH_merge_pull_request _ _ _ _ | GH_push_multiple_files _ _ _ _ _
  | GH_update_pr_branch _ _ _ => GithubServerPy
  | GL_create_branch _ _ _ | GL_create_or_update_file _ _ _ _ _ _
  | GL_get_contents _ _ _ | GL_create_merge_request _ _ _ _ _
  | GL_merge_merge_request _ _ _ | GL_push_multiple_files _ _ _ _
  | GL_update_mr_branch _ _ => GitlabPy
  | CF_create_page _ _ _ _ | CF_get_page _ _ _ _ | CF_update_page _ _ _ _
  | CF_delete_page _ _ | CF_add_comment _ _ | CF_get_comments _ _ _
  | CF_add_label _ _ | CF_get_labels _ _ _ | CF_get_page_children _ _ _ _
  | CF_search _ _ _ _ _ => ConfluencePy
  | GS_create_branch _ _ _ _ _ | GS_create_or_update_file _ _ _ _ _ _ _ _
  | GS_get_contents _ _ _ _ _ | GS_create_pull_request _ _ _ _ _ _ _
  | GS_merge_pull_request _ _ _ _ _ | GS_query_github _ _
  | GS_weekly_digest _ _ => GithubSamplePy
  | GO_query_github _ _ | GO_weekly_digest _ _ => GithubOauthPy
  end.

(** Tools that change upstream state (create, update, delete, merge, push,
    add); the others only get, list or search. *)
Definition mutating (c : ToolCall) : bool :=
  match c with
  | GH_create_branch _ _ _ _ | GH_create_or_update_file _ _ _ _ _ _ _
  | GH_create_pull_request _ _ _ _ _ _ | GH_merge_pull_request _ _ _ _
  | GH_push_multiple_files _ _ _ _ _ | GH_update_pr_branch _ _ _
  | GL_create_branch _ _ _ | GL_create_or_update_file _ _ _ _ _ _
  | GL_create_merge_request _ _ _ _ _ | GL_merge_merge_request _ _ _
  | GL_push_multiple_files _ _ _ _ | GL_update_mr_branch _ _
  | CF_create_page _ _ _ _ | CF_update_page _ _ _ _ | CF_delete_page _ _
  | CF_add_comment _ _ | CF_add_label _ _
  | GS_create_branch _ _ _ _ _ | GS_create_or_update_file _ _ _ _ _ _ _ _
  | GS_create_pull_request _ _ _ _ _ _ _ | GS_merge_pull_request _ _ _ _ _
      => true
  | _ => false
  end.

(** The "push multiple files" family. *)
Definition push_family (c : ToolCall) : bool :=
  match c with
  | GH_push_multiple_files _ _ _ _ _ | GL_push_multiple_files _ _ _ _ => true
  | _ => false
  end.

(** A query the keyword matcher of [query_github] recognises. *)
Definition recognised (query : string) : bool :=
  Py.contains "pull" (Py.lower query)
  || Py.contains "issue" (Py.lower query)
  || Py.contains "release" (Py.lower query).

(** The number of upstream requests a successful call of a tool outside
    the push family issues. *)
Definition requests_on_success (c : ToolCall) : nat :=
  match c with
  | GH_create_branch _ _ _ _ | GS_create_branch _ _ _ _ _
  | CF_update_page _ _ _ _
  | GS_weekly_digest _ _ | GO_weekly_digest _ _ => 2
  | GS_query_github q _ | GO_query_github q _ => if recognised q then 1 else 0
  | _ => 1
  end.

(** The mutating tools whose module passes them the inbound request and
    calls [check_readonly] on it: those of [server.py] and [sample.py]. *)
Definition readonly_guarded (c : ToolCall) : bool :=
  mutating c &&
  match server_of c with
  | GithubServerPy | GithubSamplePy => true
  | _ => false
  end.

(** The calls that ask the per-user request helper for a token: the tools
    of [sample.py] and [oauth.py], except [query_github] on a query it
    does not recognise. *)
Definition needs_token (c : ToolCall) : bool :=
  match c with
  | GS_query_github q _ | GO_query_github q _ => recognised q
  | _ => match server_of c with
         | GithubSamplePy | GithubOauthPy => true
         | _ => false
         end
  end.

(** The credential stored for the principal of a call. *)
Definition stored_credential (env : Env) (c : ToolCall) : option string :=
  let sample (user : option string) :=
    if opt_truthy user then gs_user_tokens env !! default "" user else None in
  match c with
  | GS_create_branch _ _ _ _ u | GS_create_or_update_file _ _ _ _ _ _ _ u
  | GS_get_contents _ _ _ _ u | GS_create_pull_request _ _ _ _ _ _ u
  | GS_merge_pull_request _ _ _ _ u | GS_query_github _ u
  | GS_weekly_digest _ u => sample u
  | GO_query_github _ u | GO_weekly_digest _ u => go_user_tokens env !! u
  | _ => None
  end.

(** The global token a call falls back on: only [sample.py] has one. *)
Definition fallback_token (env : Env) (c : ToolCall) : option string :=
  match server_of c with
  | GithubSamplePy => gs_token env
  | _ => None
  end.

(** The 401 each of the two modules raises. *)
Definition unauthenticated (c : ToolCall) : exn :=
  match server_of c with
  | GithubSamplePy => HTTPException 401 "No GitHub token available"
  | _ => HTTPException 401 "User not authenticated"
  end.

(** A computation that issues no request. *)
Definition pure {A} (m : M A) : Prop := forall up log, snd (m up log) = log.

(** [costs n m]: [m] only appends to the request log, never more than [n]
    requests, and exactly [n] when it returns normally. *)
Definition costs {A} (n : nat) (m : M A) : Prop :=
  forall up log,
    exists tr, snd (m up log) = log ++ tr /\ (length tr <= n)%nat /\
               (is_ok (fst (m up log)) = true -> length tr = n).

(** ** Concrete inputs for closed examples *)

(** An instance of the library functions for closed examples: [repr] as
    Python prints containers of integers and of strings free of quotes,
    backslashes and control characters; [quote] and [b64encode] are not
    exercised by the examples. *)
Fixpoint repr_simple (v : value) : string :=
  match v with
  | VNone => "None"
  | VBool true => "True"
  | VBool false => "False"
  | VInt n => pretty n
  | VStr s => "'" +:+ s +:+ "'"
  | VList l => "[" +:+ Py.join ", " (map repr_simple l) +:+ "]"
  | VDict d =>
      "{" +:+ Py.join ", "
                (map (fun kv => "'" +:+ fst kv +:+ "': " +:+ repr_simple (snd kv))
                     d)
          +:+ "}"
  end.

Definition example_lib : PyLib :=
  {| repr_container := repr_simple;
     quote := fun s _ => s;
     b64encode := fun s => s |}.

Definition example_env : Env :=
  {| gh_token := "ghp_token";
     gl_token := "glpat_token";
     gl_base_url := "https://code.lioncloud.net/api/v4";
     cf_base_url := "https://wiki.example.net/wiki/";
     cf_pat := "cf_token";
     gs_token := Some "ghp_global";
     gs_base_url := "https://api.github.com";
     gs_user_tokens := {[ "demo_user" := "gho_demo" ]};
     go_base_url := "https://api.github.com";
     go_user_tokens := {[ "demo_user" := "gho_demo" ]} |}.

(** The same deployment without the global fallback token. *)
Definition example_env_no_fallback : Env :=
  {| gh_token := "ghp_token";
     gl_token := "glpat_token";
     gl_base_url := "https://code.lioncloud.net/api/v4";
     cf_base_url := "https://wiki.example.net/wiki/";
     cf_pat := "cf_token";
     gs_token := None;
     gs_base_url := "https://api.github.com";
     gs_user_tokens := {[ "demo_user" := "gho_demo" ]};
     go_base_url := "https://api.github.com";
     go_user_tokens := {[ "demo_user" := "gho_demo" ]} |}.

(** Inbound requests with and without the readonly marker. *)
Definition readonly_request : Request :=
  {| headers_get := fun name =>
       if String.eqb name "X-MCP-Readonly" then Some "True" else None |}.
Definition plain_request : Request := {| headers_get := fun _ => None |}.

(** An upstream that answers every request with the same response. *)
Definition always (resp : Response) : Upstream := fun _ _ => Ok resp.

(** An upstream that answers the request number [i] (counting from 0 on
    an empty log) with the [i]-th response of a script, and with [last]
    once the script is exhausted. *)
Definition scripted (answers : list Response) (last : Response) : Upstream :=
  fun log _ => Ok (nth (length log) answers last).

(** An upstream that answers the request number [n] (counting from 0 on an
    empty log) with [bad] and every other one with [good]. *)
Definition failing_at (n : nat) (good bad : Response) : Upstream :=
  fun log _ => if Nat.eqb (length log) n then Ok bad else Ok good.

(** A success answer whose body has the fields every step of the Git data
    pipeline reads. *)
Definition git_object : value :=
  VDict [("sha", VStr "abc123");
         ("object", VDict [("sha", VStr "abc123")]);
         ("tree", VDict [("sha", VStr "abc123")])].

Definition git_ok : Response :=
  {| ok := true; status_code := 200; text := "{...}"; json := Some git_object |}.

Definition server_error : Response :=
  {| ok := false; status_code := 500; text := "Internal Server Error";
     json := None |}.

Definition no_content : Response :=
  {| ok := true; status_code := 204; text := ""; json := None |}.

(** A 404 whose body is the JSON object [{"message": "Not Found"}]. *)
Definition not_found : Response :=
  {| ok := false; status_code := 404;
     text := "{" +:+ dq +:+ "message" +:+ dq +:+ ": " +:+ dq +:+ "Not Found"
               +:+ dq +:+ "}";
     json := Some (VDict [("message", VStr "Not Found")]) |}.

(** A page at version 3, and two answers to its update: one that echoes
    the stored page, one with an identifier only. *)
Definition page_v3 : Response :=
  {| ok := true; status_code := 200; text := "{...}";
     json := Some (VDict [("id", VStr "42"); ("title", VStr "Home");
                          ("version", VDict [("number", VInt 3)])]) |}.

Definition page_v4 : Response :=
  {| ok := true; status_code := 200; text := "{...}";
     json := Some (VDict [("id", VStr "42"); ("title", VStr "Home");
                          ("version", VDict [("number", VInt 4)])]) |}.

Definition page_id_only : Response :=
  {| ok := true; status_code := 200; text := "{...}";
     json := Some (VDict [("id", VStr "42")]) |}.

(** A page representation without a version. *)
Definition page_unversioned : Response :=
  {| ok := true; status_code := 200; text := "{...}";
     json := Some (VDict [("id", VStr "42"); ("title", VStr "Home")]) |}.

Definition file_a : gmap string string :=
  {[ "path" := "a.txt"; "content" := "alpha" ]}.
Definition file_b : gmap string string :=
  {[ "path" := "b.txt"; "content" := "beta" ]}.
Definition file_c : gmap string string :=
  {[ "path" := "c.txt"; "content" := "gamma" ]}.

(** ** Further observations on runs *)

(** Every request a computation issues satisfies [P]. *)
Definition emits {A} (P : Req -> Prop) (m : M A) : Prop :=
  forall up log, exists tr, snd (m up log) = log ++ tr /\ Forall P tr.

(** The headers the per-user helpers of [sample.py] and [oauth.py] build
    from a token. *)
Definition bearer_headers (token : string) : list (string * string) :=
  [("Authorization", "Bearer " +:+ token);
   ("Accept", "application/vnd.github.v3+json")].

(** The base every URL of a module with a static token is built on. *)
Definition url_base (env : Env) (s : Server) : string :=
  match s with
  | GithubServerPy => GithubServer.BASE_URL +:+ "/repos/"
  | GitlabPy => gl_base_url env +:+ "/projects/"
  | ConfluencePy => Confluence.API_BASE (cf_base_url env)
  | GithubSamplePy => gs_base_url env +:+ "/repos/"
  | GithubOauthPy => go_base_url env
  end.

(** The headers of a module with a static token. *)
Definition static_headers (env : Env) (s : Server) : list (string * string) :=
  match s with
  | GithubServerPy => GithubServer.HEADERS (gh_token env)
  | GitlabPy => Gitlab.HEADERS (gl_token env)
  | _ => Confluence.HEADERS (cf_pat env)
  end.

Definition static_token (s : Server) : bool :=
  match s with
  | GithubServerPy | GitlabPy | ConfluencePy => true
  | _ => false
  end.

(** The conversational tools: [query_github] and [weekly_digest]. *)
Definition conversational (c : ToolCall) : bool :=
  match c with
  | GS_query_github _ _ | GS_weekly_digest _ _
  | GO_query_github _ _ | GO_weekly_digest _ _ => true
  | _ => false
  end.

(** ** OAuth routes ([sample.py], [oauth.py])

    [callback] exchanges the authorisation code for a token with a form
    POST ([data=...], not JSON) to GitHub's token endpoint and records the
    token for the static principal; [me] reads it back. *)

Record FormPost := {
  post_url : string;
  post_headers : list (string * string);
  post_data : list (string * option string)
}.

(** The token endpoint: its answer to the form POST, or a transport
    error. *)
Definition TokenEndpoint := FormPost -> result Response.

Module OauthRoutes.
Section Routes.
Context `{PyLib}.
(** [os.getenv("GITHUB_CLIENT_ID")], [os.getenv("GITHUB_CLIENT_SECRET")] *)
Variable GITHUB_CLIENT_ID : option string.
Variable GITHUB_CLIENT_SECRET : option string.
(** [os.getenv("REDIRECT_URI", "http://localhost:8080/callback")] *)
Variable REDIRECT_URI : string.
Variable BASE_URL : string.

(** [callback(code)], the same in both modules.  It returns the response
    and the token store it leaves.  The store holds strings: the token
    GitHub returns is one and is kept as it is; any other true JSON value
    is kept by the text [f"Bearer {token}"] would show for it. *)
Definition callback (code : string) (endpoint : TokenEndpoint)
    (user_tokens : gmap string string)
  : result value * gmap string string :=
  match endpoint
          {| post_url := "https://github.com/login/oauth/access_token";
             post_headers := [("Accept", "application/json")];
             post_data := [("client_id", GITHUB_CLIENT_ID);
                           ("client_secret", GITHUB_CLIENT_SECRET);
                           ("code", Some code);
                           ("redirect_uri", Some REDIRECT_URI)] |} with
  | Raise e => (Raise e, user_tokens)
  | Ok resp =>
      match resp_json resp with
      | Raise e => (Raise e, user_tokens)
      | Ok body =>
          match Py.get body "access_token" VNone with
          | Raise e => (Raise e, user_tokens)
          | Ok token =>
              if negb (Py.truthy token) then
                (Raise (HTTPException 400 "OAuth failed"), user_tokens)
              else
                (Ok (VDict [("access_token", token)]),
                 <["demo_user" := str_of token]> user_tokens)
          end
      end
  end.

(** [me()] of [oauth.py]: no status check on the answer. *)
Definition me (user_tokens : gmap string string) : M value :=
  let token := user_tokens !! "demo_user" in
  if negb (opt_truthy token) then raise (HTTPException 401 "Login first")
  else
    resp <- requests_request
              {| method := "GET"; url := BASE_URL +:+ "/user";
                 headers := [("Authorization",
                              "Bearer " +:+ default "" token)];
                 json_kw := None |} ;;
    lift (resp_json resp).

(** [me()] of [sample.py]: through the request helper. *)
Definition me_sample (GITHUB_TOKEN : option string)
    (user_tokens : gmap string string) : M value :=
  GithubSample.github_request GITHUB_TOKEN user_tokens "GET"
    (BASE_URL +:+ "/user") (Some "demo_user") None.

End Routes.
End OauthRoutes.

(** A token endpoint that grants the token [t], and one that answers with
    an error document. *)
Definition granting (t : string) : TokenEndpoint :=
  fun _ => Ok {| ok := true; status_code := 200; text := "{...}";
                 json := Some (VDict [("access_token", VStr t);
                                      ("token_type", VStr "bearer")]) |}.

Definition refusing : TokenEndpoint :=
  fun _ => Ok {| ok := true; status_code := 200; text := "{...}";
                 json := Some (VDict [("error",
                                       VStr "bad_verification_code")]) |}.

(** An upstream 401 with a JSON error document. *)
Definition bad_credentials : Response :=
  {| ok := false; status_code := 401; text := "{...}";
     json := Some (VDict [("message", VStr "Bad credentials")]) |}.

(** The fields the Git data pipeline reads from an answer: [sha],
    [object.sha] and [tree.sha]. *)
Definition git_fields (v : value) : Prop :=
  (exists s, Py.getitem v "sha" = Ok s) /\
  (exists o s, Py.getitem v "object" = Ok o /\ Py.getitem o "sha" = Ok s) /\
  (exists t s, Py.getitem v "tree" = Ok t /\ Py.getitem t "sha" = Ok s).

(** An upstream that answers every request with a success carrying those
    fields. *)
Definition git_compliant (up : Upstream) : Prop :=
  forall log q, exists v, answered up log q v /\ git_fields v.

(** A file argument with both keys the pipeline reads. *)
Definition complete_file (f : gmap string string) : Prop :=
  is_Some (f !! "content") /\ is_Some (f !! "path").

(** One section of the digest: the placeholder for no items, else the
    lines joined by newlines. *)
Definition digest_part (items : list value) (lines : list string)
    (placeholder : string) : string :=
  match items with
  | [] => placeholder
  | _ => Py.join nl lines
  end.

(** * Properties *)

(** ** The built-ins on small inputs *)

Example lower_mixed_case : Py.lower "TrUe" = "true".
Proof. reflexivity. Qed.

Example contains_any_case :
  Py.contains "issue" (Py.lower "Open ISSUES, please") = true
  /\ Py.contains "pull" (Py.lower "Open ISSUES, please") = false.
Proof. split; reflexivity. Qed.

Example rstrip_slash_trailing :
  Py.rstrip_slash "https://wiki.example.net/wiki//"
  = "https://wiki.example.net/wiki"
  /\ Py.rstrip_slash "https://wiki.example.net/wiki"
     = "https://wiki.example.net/wiki".
Proof. split; reflexivity. Qed.

Example join_three : Py.join ", " ["a"; "b"; "c"] = "a, b, c".
Proof. reflexivity. Qed.

Example truthy_values :
  map Py.truthy [VNone; VInt 0; VInt 3; VStr ""; VStr "0"; VList []; VDict []]
  = [false; false; true; false; true; false; false].
Proof. reflexivity. Qed.

Example add_values :
  Py.add (VInt 3) (VInt 1) = Ok (VInt 4)
  /\ Py.add (VStr "3") (VInt 1) = Raise TypeError
  /\ Py.add (VStr "https://x") (VStr "/y") = Ok (VStr "https://x/y").
Proof. repeat split; reflexivity. Qed.

Example readonly_marker_values :
  readonly_marker readonly_request = true
  /\ readonly_marker plain_request = false
  /\ readonly_marker {| headers_get := fun _ => Some "1" |} = false.
Proof. repeat split; reflexivity. Qed.

Example weekly_digest_renders :
  GithubOauth.weekly_digest (H := example_lib) "https://api.github.com"
    {[ "demo_user" := "gho_demo" ]} "2025-01-01T00:00:00" "demo_user"
    (scripted
       [{| ok := true; status_code := 200; text := "[...]";
           json := Some (VList [VDict [("title", VStr "Fix login");
                                       ("number", VInt 7)];
                                VDict [("title", VStr "Docs");
                                       ("number", VInt 8)]]) |}]
       {| ok := true; status_code := 200; text := "[]";
          json := Some (VList []) |}) []
  = (Ok (VDict [("digest",
                 VStr ("# Weekly Digest" +:+ nl +:+ nl
                       +:+ "## Pull Requests" +:+ nl
                       +:+ "- Fix login (#7)" +:+ nl +:+ "- Docs (#8)"
                       +:+ nl +:+ nl +:+ "## Issues" +:+ nl
                       +:+ "No issues" +:+ nl))]),
     [{| method := "GET";
         url := "https://api.github.com/repos/org/repo/pulls?state=all&sort=updated&direction=desc";
         headers := [("Authorization", "Bearer gho_demo");
                     ("Accept", "application/vnd.github.v3+json")];
         json_kw := None |};
      {| method := "GET";
         url := "https://api.github.com/repos/org/repo/issues?since=2025-01-01T00:00:00Z";
         headers := [("Authorization", "Bearer gho_demo");
                     ("Accept", "application/vnd.github.v3+json")];
         json_kw := None |}]).
Proof. reflexivity. Qed.

(** ** The tool monad *)

Lemma bind_ok {A B} (m : M A) (k : A -> M B) up log a log' :
  m up log = (Ok a, log') -> bind m k up log = k a up log'.
Proof. intros E. unfold bind. now rewrite E. Qed.

Lemma bind_raise {A B} (m : M A) (k : A -> M B) up log e log' :
  m up log = (Raise e, log') -> bind m k up log = (Raise e, log').
Proof. intros E. unfold bind. now rewrite E. Qed.

Lemma lift_ok {A} (r : result A) a up log :
  r = Ok a -> lift r up log = (Ok a, log).
Proof. now intros ->. Qed.

(** Run the next statement of a tool body, given its outcome. *)
Ltac step tac := erewrite bind_ok; [| solve [tac]].
Ltac step_raise tac := erewrite bind_raise; [| solve [tac]].
Ltac norm_log := rewrite <- ?app_assoc; cbn [app].

(** ** Fail-stop computations *)

Lemma fail_stop_pure {A} (m : M A) :
  (forall up log, snd (m up log) = log) -> fail_stop m.
Proof.
  intros E up log. exists []. rewrite E, app_nil_r. split; [done|].
  intros i q Hq. now rewrite lookup_nil in Hq.
Qed.

Lemma fail_stop_ret {A} (a : A) : fail_stop (ret a).
Proof. now apply fail_stop_pure. Qed.

Lemma fail_stop_lift {A} (r : result A) : fail_stop (lift r).
Proof. now apply fail_stop_pure. Qed.

Lemma fail_stop_bind {A B} (m : M A) (k : A -> M B) :
  fail_stop m -> (forall a, fail_stop (k a)) -> fail_stop (bind m k).
Proof.
  intros Hm Hk up log.
  destruct (Hm up log) as (tr1 & E1 & F1).
  unfold bind. destruct (m up log) as [[a|e] log1] eqn:Em; cbn [fst snd] in *.
  - subst log1. destruct (Hk a up (log ++ tr1)) as (tr2 & E2 & F2).
    exists (tr1 ++ tr2). rewrite E2, app_assoc. split; [done|].
    intros i q Hq Hf.
    destruct (decide (i < length tr1)%nat) as [Hlt|Hge].
    + rewrite lookup_app_l in Hq by done.
      rewrite take_app_le in Hf by lia.
      destruct (F1 i q Hq Hf) as [_ ?]. discriminate.
    + rewrite lookup_app_r in Hq by lia.
      rewrite take_app_ge in Hf by lia.
      rewrite app_assoc in Hf.
      destruct (F2 _ q Hq Hf) as [Hlen Hres].
      split; [|done]. rewrite length_app. lia.
  - exists tr1. split; [done|]. intros i q Hq Hf.
    destruct (F1 i q Hq Hf) as [? _]. done.
Qed.

(** One upstream call followed by local post-processing that raises on a
    non-success status: the shape of all five request helpers. *)
Lemma fail_stop_request {A} (k : Response -> M A) q :
  (forall resp up log, snd (k resp up log) = log) ->
  (forall resp up log, ok resp = false -> is_ok (fst (k resp up log)) = false) ->
  fail_stop (bind (requests_request q) k).
Proof.
  intros Hpure Hbad up log. exists [q].
  unfold bind, requests_request.
  destruct (up log q) as [resp|e] eqn:Eq.
  - split; [apply Hpure|]. intros [|i] q' Hq Hf; [|done].
    cbn in Hq. injection Hq as <-. rewrite take_0, app_nil_r, Eq in Hf.
    cbn in Hf. split; [done|]. apply Hbad. now destruct (ok resp).
  - split; [done|]. intros [|i] q' Hq Hf; [|done]. done.
Qed.

Module GithubServerProps.
Section Props.
Context `{PyLib}.
Variable GITHUB_TOKEN : string.

Local Abbreviation github_request :=
  (GithubServer.github_request GITHUB_TOKEN).
Local Abbreviation HEADERS := (GithubServer.HEADERS GITHUB_TOKEN).
Local Abbreviation ref_fetch := (GithubServer.ref_fetch GITHUB_TOKEN).
Local Abbreviation commit_fetch := (GithubServer.commit_fetch GITHUB_TOKEN).
Local Abbreviation blob_create := (GithubServer.blob_create GITHUB_TOKEN).
Local Abbreviation tree_create := (GithubServer.tree_create GITHUB_TOKEN).
Local Abbreviation commit_create :=
  (GithubServer.commit_create GITHUB_TOKEN).
Local Abbreviation ref_update := (GithubServer.ref_update GITHUB_TOKEN).
Local Abbreviation push_multiple_files :=
  (GithubServer.push_multiple_files GITHUB_TOKEN).

Lemma github_request_answered method url kw up log v :
  answered up log
    {| method := method; url := url; headers := HEADERS; json_kw := kw |} v ->
  github_request method url kw up log
  = (Ok v, log ++ [{| method := method; url := url; headers := HEADERS;
                       json_kw := kw |}]).
Proof.
  intros (resp & E & Hok & Htxt & Hjs).
  unfold GithubServer.github_request, bind, requests_request.
  rewrite E, Hok. cbn [negb].
  destruct (String.eqb_spec (text resp) ""); [done|]. cbn [negb].
  unfold lift, resp_json. now rewrite Hjs.
Qed.

Lemma github_request_failed method url kw up log :
  failed (up log {| method := method; url := url; headers := HEADERS;
                    json_kw := kw |}) = true ->
  exists e,
    github_request method url kw up log
    = (Raise e, log ++ [{| method := method; url := url; headers := HEADERS;
                           json_kw := kw |}]).
Proof.
  intros Hf.
  unfold GithubServer.github_request, bind, requests_request.
  destruct (up log _) as [resp|e]; [|by eexists].
  cbn in Hf. rewrite Hf. by eexists.
Qed.

Lemma github_request_fail_stop method url kw :
  fail_stop (github_request method url kw).
Proof.
  apply fail_stop_request.
  - intros resp up log. destruct (ok resp); [|done]. cbn [negb].
    now destruct (negb _).
  - intros resp up log ->. done.
Qed.

Lemma check_readonly_fail_stop request :
  fail_stop (GithubServer.check_readonly request).
Proof.
  apply fail_stop_pure. intros up log.
  destruct request as [r|]; [|done]. cbn. now destruct (String.eqb _ _).
Qed.

Lemma check_readonly_pass r up log :
  readonly_marker r = false ->
  GithubServer.check_readonly (Some r) up log = (Ok tt, log).
Proof. unfold readonly_marker. cbn. now intros ->. Qed.

Local Abbreviation create_blobs := (GithubServer.create_blobs GITHUB_TOKEN).
Local Abbreviation tree_entry := GithubServer.tree_entry.

Lemma file_getitem_ok (f : gmap string string) k v :
  f !! k = Some v -> file_getitem f k = Ok v.
Proof. unfold file_getitem. now intros ->. Qed.

(** One iteration of the blob loop. *)
Lemma create_blobs_cons_ok up log owner repo
    (f : gmap string string) fs acc c p blob blob_sha :
  f !! "content" = Some c ->
  answered up log (blob_create owner repo c) blob ->
  f !! "path" = Some p ->
  Py.getitem blob "sha" = Ok blob_sha ->
  create_blobs owner repo (f :: fs) acc up log
  = create_blobs owner repo fs (acc ++ [tree_entry p blob_sha]) up
      (log ++ [blob_create owner repo c]).
Proof.
  intros Hc A Hp Hs. cbn [GithubServer.create_blobs].
  step ltac:(apply lift_ok, file_getitem_ok; exact Hc).
  step ltac:(apply github_request_answered; exact A).
  step ltac:(apply lift_ok, file_getitem_ok; exact Hp).
  step ltac:(apply lift_ok; exact Hs).
  reflexivity.
Qed.

Lemma create_blobs_cons_failed up log owner repo
    (f : gmap string string) fs acc c :
  f !! "content" = Some c ->
  failed (up log (blob_create owner repo c)) = true ->
  exists e,
    create_blobs owner repo (f :: fs) acc up log
    = (Raise e, log ++ [blob_create owner repo c]).
Proof.
  intros Hc Hf. cbn [GithubServer.create_blobs].
  step ltac:(apply lift_ok, file_getitem_ok; exact Hc).
  destruct (github_request_failed _ _ _ _ _ Hf) as [e E].
  exists e. now step_raise ltac:(exact E).
Qed.

Lemma create_blobs_fail_stop owner repo files acc :
  fail_stop (create_blobs owner repo files acc).
Proof.
  revert acc. induction files as [|f fs IH]; intros acc;
    cbn [GithubServer.create_blobs].
  - apply fail_stop_ret.
  - apply fail_stop_bind; [apply fail_stop_lift|]. intros c.
    apply fail_stop_bind; [apply github_request_fail_stop|]. intros blob.
    apply fail_stop_bind; [apply fail_stop_lift|]. intros p.
    apply fail_stop_bind; [apply fail_stop_lift|]. intros s.
    apply IH.
Qed.

Lemma push_multiple_files_fail_stop owner repo branch files message request :
  fail_stop (push_multiple_files owner repo branch files message request).
Proof.
  unfold GithubServer.push_multiple_files. cbv zeta.
  repeat first
    [ apply fail_stop_ret
    | apply check_readonly_fail_stop
    | apply fail_stop_lift
    | apply github_request_fail_stop
    | apply create_blobs_fail_stop
    | apply fail_stop_bind; [|intros ?] ].
Qed.


(** C10. With an empty [files] list the GitHub [push_multiple_files]
    still fetches the branch ref and its commit, creates a tree (with no
    entries) and a commit on it and moves the ref: five requests, no blob
    create; it returns the message "Committed 0 files". *)
Theorem push_multiple_files_empty
    up log owner repo branch message r
    ref_data obj sha commit_data tree0 base_tree tree tree_sha
    commit commit_sha ref :
  readonly_marker r = false ->
  answered up log (ref_fetch owner repo branch) ref_data ->
  Py.getitem ref_data "object" = Ok obj ->
  Py.getitem obj "sha" = Ok sha ->
  answered up (log ++ [ref_fetch owner repo branch])
    (commit_fetch owner repo sha) commit_data ->
  Py.getitem commit_data "tree" = Ok tree0 ->
  Py.getitem tree0 "sha" = Ok base_tree ->
  answered up
    (log ++ [ref_fetch owner repo branch; commit_fetch owner repo sha])
    (tree_create owner repo base_tree []) tree ->
  Py.getitem tree "sha" = Ok tree_sha ->
  answered up
    (log ++ [ref_fetch owner repo branch; commit_fetch owner repo sha;
             tree_create owner repo base_tree []])
    (commit_create owner repo message tree_sha sha) commit ->
  Py.getitem commit "sha" = Ok commit_sha ->
  answered up
    (log ++ [ref_fetch owner repo branch; commit_fetch owner repo sha;
             tree_create owner repo base_tree [];
             commit_create owner repo message tree_sha sha])
    (ref_update owner repo branch commit_sha) ref ->
  push_multiple_files owner repo branch [] message (Some r) up log
  = (Ok (VDict [("message", VStr "Committed 0 files"); ("commit", commit)]),
     log ++ [ref_fetch owner repo branch;
             commit_fetch owner repo sha;
             tree_create owner repo base_tree [];
             commit_create owner repo message tree_sha sha;
             ref_update owner repo branch commit_sha]).
Proof.
  intros Hro A1 G1 G1' A2 G2 G2' A3 G3 A4 G4 A5.
  unfold GithubServer.push_multiple_files. cbv zeta.
  step ltac:(apply check_readonly_pass; exact Hro).
  step ltac:(apply github_request_answered; exact A1).
  step ltac:(apply lift_ok; exact G1).
  step ltac:(apply lift_ok; exact G1').
  step ltac:(apply github_request_answered; norm_log; exact A2).
  step ltac:(apply lift_ok; exact G2).
  step ltac:(apply lift_ok; exact G2').
  step ltac:(reflexivity).
  step ltac:(apply github_request_answered; norm_log; exact A3).
  step ltac:(apply lift_ok; exact G3).
  step ltac:(apply github_request_answered; norm_log; exact A4).
  step ltac:(apply lift_ok; exact G4).
  step ltac:(apply github_request_answered; norm_log; exact A5).
  norm_log. reflexivity.
Qed.

End Props.

(** Discharge the premises of the pipeline theorems on a concrete run. *)
Ltac concrete_run :=
  repeat first
    [ reflexivity
    | discriminate
    | (eexists; split; [reflexivity|]; split; [reflexivity|]; split) ].

Lemma push_multiple_files_empty_witness :
  readonly_marker plain_request = false /\
  GithubServer.push_multiple_files (H := example_lib) "ghp_token"
    "octo" "site" "main" [] "empty commit" (Some plain_request)
    (always git_ok) []
  = (Ok (VDict [("message", VStr "Committed 0 files");
                ("commit", git_object)]),
     [GithubServer.ref_fetch "ghp_token" "octo" "site" "main";
      GithubServer.commit_fetch (H := example_lib) "ghp_token" "octo" "site"
        (VStr "abc123");
      GithubServer.tree_create "ghp_token" "octo" "site" (VStr "abc123") [];
      GithubServer.commit_create "ghp_token" "octo" "site" "empty commit"
        (VStr "abc123") (VStr "abc123");
      GithubServer.ref_update "ghp_token" "octo" "site" "main"
        (VStr "abc123")]).
Proof.
  split; [reflexivity|].
  eapply (@push_multiple_files_empty example_lib "ghp_token"
            (always git_ok) [] "octo" "site" "main" "empty commit"
            plain_request); concrete_run.
Defined.


End GithubServerProps.

(** ** Confluence *)

Module ConfluenceProps.
Section Props.
Context `{PyLib}.
Variable CONFLUENCE_BASE_URL : string.
Variable CONFLUENCE_PAT : string.

Local Abbreviation cf_request := (Confluence.cf_request CONFLUENCE_PAT).
Local Abbreviation HEADERS := (Confluence.HEADERS CONFLUENCE_PAT).
Local Abbreviation API_BASE := (Confluence.API_BASE CONFLUENCE_BASE_URL).
Local Abbreviation confluence_update_page :=
  (Confluence.confluence_update_page CONFLUENCE_BASE_URL CONFLUENCE_PAT).
Local Abbreviation confluence_search :=
  (Confluence.confluence_search CONFLUENCE_BASE_URL CONFLUENCE_PAT).
Local Abbreviation version_fetch :=
  (Confluence.version_fetch CONFLUENCE_BASE_URL CONFLUENCE_PAT).
Local Abbreviation page_put :=
  (Confluence.page_put CONFLUENCE_BASE_URL CONFLUENCE_PAT).

Lemma cf_request_log method url kw up log :
  snd (cf_request method url kw up log)
  = log ++ [{| method := method; url := url; headers := HEADERS;
               json_kw := kw |}].
Proof.
  unfold Confluence.cf_request, bind, requests_request.
  destruct (up log _) as [resp|e]; [|done].
  destruct (ok resp); cbn [negb]; [|done].
  destruct (negb _); [|done]. now destruct (json resp).
Qed.

Lemma cf_request_eq method url kw up log r log' :
  cf_request method url kw up log = (r, log') ->
  log' = log ++ [{| method := method; url := url; headers := HEADERS;
                    json_kw := kw |}].
Proof. intros E. rewrite <- cf_request_log with (up := up). now rewrite E. Qed.

(** C9. A search with neither [query] nor [cql] (absent, or empty, which
    Python also reads as false) raises the "Provide either 'query' or
    'cql'" error and issues no request. *)
Theorem confluence_search_needs_query
    query cql limit start expand_body up log :
  opt_truthy query = false -> opt_truthy cql = false ->
  confluence_search query cql limit start expand_body up log
  = (Raise (RuntimeError "Provide either 'query' or 'cql' for search."),
     log) /\
  issued (confluence_search query cql limit start expand_body) up log = [].
Proof.
  intros Hq Hc. unfold issued, Confluence.confluence_search.
  rewrite Hc, Hq. cbn [snd raise]. split; [reflexivity|].
  apply drop_all.
Qed.

(** C5 (as the code has it). When the page that the initial fetch
    returns has no usable version number (the lookup yields a false value: missing, [None] or
    0), [confluence_update_page] raises "Could not determine current
    version number" and the fetch is the only request issued; and in any
    run, a PUT is issued only after a fetch that returned a page with a
    true version number. *)
Theorem update_page_needs_version
    page_id new_title new_html_content minor_edit up log :
  (forall current log' version,
      cf_request "GET"
        (API_BASE +:+ "/content/" +:+ page_id +:+ "?expand=version") None
        up log = (Ok current, log') ->
      version_number current = Ok version ->
      Py.truthy version = false ->
      confluence_update_page page_id new_title new_html_content minor_edit
        up log
      = (Raise (RuntimeError
                  "Could not determine current version number for the page."),
         log ++ [version_fetch page_id]))
  /\ (forall q,
        q ∈ issued (confluence_update_page page_id new_title
                      new_html_content minor_edit) up log ->
        method q = "PUT" ->
        exists current version,
          fst (cf_request "GET"
                 (API_BASE +:+ "/content/" +:+ page_id +:+ "?expand=version")
                 None up log) = Ok current /\
          version_number current = Ok version /\
          Py.truthy version = true).
Proof.
  split.
  - intros current log' version E Hv Ht.
    pose proof (cf_request_eq _ _ _ _ _ _ _ E) as ->.
    unfold Confluence.confluence_update_page.
    step ltac:(exact E).
    unfold version_number in Hv.
    destruct (Py.get current "version" (VDict [])) as [vo|e] eqn:E1; [|done].
    step ltac:(apply lift_ok; reflexivity).
    step ltac:(apply lift_ok; exact Hv).
    now rewrite Ht.
  - intros q Hq Hm.
    unfold issued, Confluence.confluence_update_page in Hq.
    unfold bind at 1 in Hq.
    destruct (cf_request "GET" _ None up log) as [[current|e] log'] eqn:E.
    2:{ apply cf_request_eq in E as ->. cbn [snd] in Hq.
        rewrite drop_app_length in Hq.
        apply list_elem_of_singleton in Hq as ->. done. }
    pose proof (cf_request_eq _ _ _ _ _ _ _ E) as ->.
    exists current. unfold version_number.
    unfold bind at 1 in Hq. unfold lift at 1 in Hq.
    destruct (Py.get current "version" (VDict [])) as [vo|e] eqn:E1.
    2:{ cbn [snd] in Hq. rewrite drop_app_length in Hq.
        apply list_elem_of_singleton in Hq as ->. done. }
    unfold bind at 1 in Hq. unfold lift at 1 in Hq.
    destruct (Py.get vo "number" VNone) as [version|e] eqn:E2.
    2:{ cbn [snd] in Hq. rewrite drop_app_length in Hq.
        apply list_elem_of_singleton in Hq as ->. done. }
    exists version. split; [done|]. split; [done|].
    destruct (Py.truthy version); [done|]. cbn [negb] in Hq.
    cbn [snd raise] in Hq. rewrite drop_app_length in Hq.
    apply list_elem_of_singleton in Hq as ->. done.
Qed.

Lemma add_one_int version next n :
  Py.add version (VInt 1) = Ok next -> version = VInt n ->
  next = VInt (n + 1).
Proof. intros E ->. cbn in E. congruence. Qed.

(** C4 (as the code has it). Every successful [confluence_update_page]
    fetches the page, reads its version number, and submits exactly that
    number plus 1 in the PUT that follows; the version it returns is the
    one the upstream reports in its answer to the PUT, so it is the
    submitted one whenever the upstream echoes what it stored. *)
Theorem update_page_submits_next_version
    page_id new_title new_html_content minor_edit up log result log' :
  confluence_update_page page_id new_title new_html_content minor_edit
    up log = (Ok result, log') ->
  exists current version next payload updated,
    cf_request "GET"
      (API_BASE +:+ "/content/" +:+ page_id +:+ "?expand=version") None
      up log = (Ok current, log ++ [version_fetch page_id]) /\
    version_number current = Ok version /\
    Py.add version (VInt 1) = Ok next /\
    (forall n, version = VInt n -> next = VInt (n + 1)) /\
    log' = log ++ [version_fetch page_id; page_put page_id payload] /\
    submitted_version (page_put page_id payload) = Ok next /\
    cf_request "PUT" (API_BASE +:+ "/content/" +:+ page_id)
      (Some (VDict payload)) up (log ++ [version_fetch page_id])
    = (Ok updated, log') /\
    Py.getitem result "version" = version_number updated /\
    (version_number updated = Ok next ->
     Py.getitem result "version" = Ok next).
Proof.
  unfold Confluence.confluence_update_page. intros E.
  unfold bind at 1 in E.
  destruct (cf_request "GET" _ None up log) as [[current|e] log1] eqn:E0;
    [|done].
  pose proof (cf_request_eq _ _ _ _ _ _ _ E0) as ->.
  unfold bind at 1 in E. unfold lift at 1 in E.
  destruct (Py.get current "version" (VDict [])) as [vo|e] eqn:E1; [|done].
  unfold bind at 1 in E. unfold lift at 1 in E.
  destruct (Py.get vo "number" VNone) as [version|e] eqn:E2; [|done].
  destruct (Py.truthy version) eqn:Ht; [|done]. cbn [negb] in E.
  assert (Hm : (if opt_truthy new_title
                then ret (VStr (default "" new_title))
                else lift (Py.get current "title" VNone))
               = lift (if opt_truthy new_title
                       then Ok (VStr (default "" new_title))
                       else Py.get current "title" VNone))
    by (now destruct (opt_truthy new_title)).
  rewrite Hm in E. clear Hm.
  unfold bind at 1 in E. unfold lift at 1 in E.
  destruct (if opt_truthy new_title then _ else _) as [title|e] eqn:E3;
    [|done].
  unfold bind at 1 in E. unfold lift at 1 in E.
  destruct (Py.add version (VInt 1)) as [next|e] eqn:E4; [|done].
  cbv zeta in E. unfold bind at 1 in E.
  match type of E with
  | context [cf_request "PUT" _ (Some (VDict ?p))] => set (payload := p) in *
  end.
  destruct (cf_request "PUT" _ (Some (VDict payload)) up _)
    as [[updated|e] log3] eqn:E5; [|done].
  pose proof (cf_request_eq _ _ _ _ _ _ _ E5) as ->.
  unfold bind at 1 in E. unfold lift at 1 in E.
  destruct (Py.get updated "id" VNone) as [id|e] eqn:E6; [|done].
  unfold bind at 1 in E. unfold lift at 1 in E.
  destruct (Py.get updated "title" VNone) as [title'|e] eqn:E7; [|done].
  unfold bind at 1 in E. unfold lift at 1 in E.
  destruct (Py.get updated "version" (VDict [])) as [uv|e] eqn:E8; [|done].
  unfold bind at 1 in E. unfold lift at 1 in E.
  destruct (Py.get uv "number" VNone) as [number|e] eqn:E9; [|done].
  unfold ret in E. injection E as <- <-.
  assert (Hret : Py.getitem
                   (VDict [("message", VStr "Page updated"); ("id", id);
                           ("title", title'); ("version", number)])
                   "version" = version_number updated).
  { unfold version_number. rewrite E8, E9. reflexivity. }
  exists current, version, next, payload, updated.
  split; [done|]. split; [unfold version_number; now rewrite E1|].
  split; [done|]. split; [intros n; now apply add_one_int|].
  split; [norm_log; reflexivity|].
  split.
  { subst payload. destruct new_html_content; reflexivity. }
  split; [exact E5|]. split; [exact Hret|].
  intros Hecho. now rewrite Hret.
Qed.

End Props.

Lemma confluence_search_needs_query_witness :
  Confluence.confluence_search (H := example_lib)
    "https://wiki.example.net/wiki/" "cf_token" None None 25 0 false
    (always git_ok) []
  = (Raise (RuntimeError "Provide either 'query' or 'cql' for search."), [])
  /\ issued (Confluence.confluence_search (H := example_lib)
               "https://wiki.example.net/wiki/" "cf_token" None None 25 0
               false) (always git_ok) [] = [].
Proof.
  apply (@confluence_search_needs_query example_lib
           "https://wiki.example.net/wiki/" "cf_token" None None 25 0 false
           (always git_ok) [] eq_refl eq_refl).
Defined.

Lemma update_page_needs_version_witness :
  Confluence.confluence_update_page (H := example_lib)
    "https://wiki.example.net/wiki/" "cf_token"
    "42" (Some "Home") (Some "<p>new</p>") false (always page_unversioned) []
  = (Raise (RuntimeError
              "Could not determine current version number for the page."),
     [Confluence.version_fetch "https://wiki.example.net/wiki/" "cf_token"
        "42"]).
Proof.
  eapply (proj1 (@update_page_needs_version example_lib
                   "https://wiki.example.net/wiki/" "cf_token"
                   "42" (Some "Home") (Some "<p>new</p>") false
                   (always page_unversioned) [])); reflexivity.
Defined.

Lemma update_page_submits_next_version_witness :
  exists current version next payload updated,
    Confluence.cf_request (H := example_lib) "cf_token" "GET"
      (Confluence.API_BASE "https://wiki.example.net/wiki/"
         +:+ "/content/" +:+ "42" +:+ "?expand=version") None
      (scripted [page_v3] page_v4) []
    = (Ok current,
       [] ++ [Confluence.version_fetch "https://wiki.example.net/wiki/"
                "cf_token" "42"]) /\
    version_number current = Ok version /\
    Py.add version (VInt 1) = Ok next /\
    (forall n, version = VInt n -> next = VInt (n + 1)) /\
    [Confluence.version_fetch "https://wiki.example.net/wiki/" "cf_token" "42";
     Confluence.page_put "https://wiki.example.net/wiki/" "cf_token" "42"
       [("id", VStr "42"); ("type", VStr "page"); ("title", VStr "Home");
        ("version", VDict [("number", VInt 4); ("minorEdit", VBool false)])]]
    = [] ++ [Confluence.version_fetch "https://wiki.example.net/wiki/"
               "cf_token" "42";
             Confluence.page_put "https://wiki.example.net/wiki/" "cf_token"
               "42" payload] /\
    submitted_version
      (Confluence.page_put "https://wiki.example.net/wiki/" "cf_token" "42"
         payload) = Ok next /\
    Confluence.cf_request (H := example_lib) "cf_token" "PUT"
      (Confluence.API_BASE "https://wiki.example.net/wiki/"
         +:+ "/content/" +:+ "42")
      (Some (VDict payload)) (scripted [page_v3] page_v4)
      ([] ++ [Confluence.version_fetch "https://wiki.example.net/wiki/"
                "cf_token" "42"])
    = (Ok updated,
       [Confluence.version_fetch "https://wiki.example.net/wiki/" "cf_token"
          "42";
        Confluence.page_put "https://wiki.example.net/wiki/" "cf_token" "42"
          [("id", VStr "42"); ("type", VStr "page"); ("title", VStr "Home");
           ("version", VDict [("number", VInt 4);
                              ("minorEdit", VBool false)])]]) /\
    Py.getitem
      (VDict [("message", VStr "Page updated"); ("id", VStr "42");
              ("title", VStr "Home"); ("version", VInt 4)]) "version"
    = version_number updated /\
    (version_number updated = Ok next ->
     Py.getitem
       (VDict [("message", VStr "Page updated"); ("id", VStr "42");
               ("title", VStr "Home"); ("version", VInt 4)]) "version"
     = Ok next).
Proof.
  apply (@update_page_submits_next_version example_lib
           "https://wiki.example.net/wiki/" "cf_token"
           "42" None None false (scripted [page_v3] page_v4) []).
  reflexivity.
Defined.

(** C4 does not hold as the specification states it: the page is observed at
    version 3 and the update submits 4, but the upstream's answer to the PUT
    carries no version, and the tool returns [None] as the version, not 4. *)
Lemma update_page_returned_version_not_computed :
  version_number (default VNone (json page_v3)) = Ok (VInt 3) /\
  Confluence.confluence_update_page (H := example_lib)
    "https://wiki.example.net/wiki/" "cf_token"
    "42" None None false (scripted [page_v3] page_id_only) []
  = (Ok (VDict [("message", VStr "Page updated"); ("id", VStr "42");
                ("title", VNone); ("version", VNone)]),
     [Confluence.version_fetch "https://wiki.example.net/wiki/" "cf_token"
        "42";
      Confluence.page_put "https://wiki.example.net/wiki/" "cf_token" "42"
        [("id", VStr "42"); ("type", VStr "page"); ("title", VStr "Home");
         ("version", VDict [("number", VInt 4); ("minorEdit", VBool false)])]])
  /\ VNone <> VInt (3 + 1).
Proof. split; [reflexivity|]. split; [reflexivity|]. discriminate. Qed.

End ConfluenceProps.

(** ** Error normalization in the request helpers *)

Section ErrorNormalization.
Context `{PyLib}.

(** C6 (as the code has it). A response whose status is not a success
    always makes the request helper raise, after that single request.
    The Confluence helper raises a [RuntimeError] whose message carries
    the status code and the decoded body: the parsed JSON when the body
    parses, else the raw text.  The GitHub and GitLab helpers never
    decode the body: [server.py] and GitLab raise a [RuntimeError] with
    the status code and the raw text, [sample.py] and [oauth.py] an
    [HTTPException] with the upstream status code and the raw text. *)
Theorem not_ok_raises up log method url kw resp :
  ok resp = false ->
  (forall pat,
      up log {| method := method; url := url;
                headers := Confluence.HEADERS pat; json_kw := kw |}
      = Ok resp ->
      Confluence.cf_request pat method url kw up log
      = (Raise (RuntimeError
                  ("Confluence API error " +:+ pretty (status_code resp)
                     +:+ ": "
                     +:+ str_of (match json resp with
                                 | Some j => j
                                 | None => VStr (text resp)
                                 end))),
         log ++ [{| method := method; url := url;
                    headers := Confluence.HEADERS pat; json_kw := kw |}]))
  /\ (forall token,
        up log {| method := method; url := url;
                  headers := GithubServer.HEADERS token; json_kw := kw |}
        = Ok resp ->
        GithubServer.github_request token method url kw up log
        = (Raise (RuntimeError
                    ("GitHub API error " +:+ pretty (status_code resp)
                       +:+ ": " +:+ text resp)),
           log ++ [{| method := method; url := url;
                      headers := GithubServer.HEADERS token;
                      json_kw := kw |}]))
  /\ (forall token,
        up log {| method := method; url := url;
                  headers := Gitlab.HEADERS token; json_kw := kw |}
        = Ok resp ->
        Gitlab.gitlab_request token method url kw up log
        = (Raise (RuntimeError
                    ("GitLab API error " +:+ pretty (status_code resp)
                       +:+ ": " +:+ text resp)),
           log ++ [{| method := method; url := url;
                      headers := Gitlab.HEADERS token; json_kw := kw |}]))
  /\ (forall global tokens user hdrs,
        GithubSample.get_auth_header global tokens user = Ok hdrs ->
        up log {| method := method; url := url; headers := hdrs;
                  json_kw := kw |} = Ok resp ->
        GithubSample.github_request global tokens method url user kw up log
        = (Raise (HTTPException (status_code resp) (text resp)),
           log ++ [{| method := method; url := url; headers := hdrs;
                      json_kw := kw |}]))
  /\ (forall base (tokens : gmap string string) user token,
        tokens !! user = Some token -> token <> "" ->
        up log {| method := method; url := base +:+ url;
                  headers := [("Authorization", "Bearer " +:+ token);
                              ("Accept", "application/vnd.github.v3+json")];
                  json_kw := kw |} = Ok resp ->
        GithubOauth.github_request base tokens user method url kw up log
        = (Raise (HTTPException (status_code resp) (text resp)),
           log ++ [{| method := method; url := base +:+ url;
                      headers := [("Authorization", "Bearer " +:+ token);
                                  ("Accept",
                                   "application/vnd.github.v3+json")];
                      json_kw := kw |}])).
Proof.
  intros Hbad. repeat split.
  - intros pat E. unfold Confluence.cf_request, bind, requests_request.
    now rewrite E, Hbad.
  - intros token E.
    unfold GithubServer.github_request, bind, requests_request.
    now rewrite E, Hbad.
  - intros token E. unfold Gitlab.gitlab_request, bind, requests_request.
    now rewrite E, Hbad.
  - intros global tokens user hdrs Ha E.
    unfold GithubSample.github_request.
    step ltac:(apply lift_ok; exact Ha).
    unfold bind, requests_request. now rewrite E, Hbad.
  - intros base tokens user token Ht Hne E.
    unfold GithubOauth.github_request. rewrite Ht.
    cbn [opt_truthy from_option id].
    destruct (String.eqb_spec token ""); [done|]. cbn [negb].
    unfold bind, requests_request. now rewrite E, Hbad.
Qed.

End ErrorNormalization.

Lemma not_ok_raises_witness :
  Confluence.cf_request (H := example_lib) "cf_token" "GET"
    "https://wiki.example.net/wiki/rest/api/content/42" None
    (always not_found) []
  = (Raise (RuntimeError
              "Confluence API error 404: {'message': 'Not Found'}"),
     [{| method := "GET";
         url := "https://wiki.example.net/wiki/rest/api/content/42";
         headers := Confluence.HEADERS "cf_token"; json_kw := None |}]).
Proof.
  apply (proj1 (@not_ok_raises example_lib (always not_found) [] "GET"
                  "https://wiki.example.net/wiki/rest/api/content/42" None
                  not_found eq_refl) "cf_token" eq_refl).
Defined.

(** C6 does not hold as the specification states it: on a 404 whose body is
    a JSON object, the GitHub helper of [server.py] reports the raw text of
    the body, not the decoded object the Confluence helper would report. *)
Lemma github_request_error_keeps_raw_text :
  json not_found = Some (VDict [("message", VStr "Not Found")]) /\
  GithubServer.github_request "ghp_token" "GET"
    "https://api.github.com/repos/octo/site/contents/README.md?ref=main" None
    (always not_found) []
  = (Raise (RuntimeError ("GitHub API error 404: " +:+ text not_found)),
     [{| method := "GET";
         url := "https://api.github.com/repos/octo/site/contents/README.md?ref=main";
         headers := GithubServer.HEADERS "ghp_token"; json_kw := None |}]) /\
  "GitHub API error 404: " +:+ text not_found
  <> "GitHub API error 404: "
       +:+ str_of (H := example_lib) (VDict [("message", VStr "Not Found")]).
Proof. split; [reflexivity|]. split; [reflexivity|]. discriminate. Qed.

(** ** Counting upstream requests *)

Lemma pure_ret {A} (a : A) : pure (ret a).
Proof. done. Qed.

Lemma pure_raise {A} e : pure (@raise A e).
Proof. done. Qed.

Lemma pure_lift {A} (r : result A) : pure (lift r).
Proof. done. Qed.

Lemma pure_if {A} (b : bool) (m1 m2 : M A) :
  pure m1 -> pure m2 -> pure (if b then m1 else m2).
Proof. now destruct b. Qed.

Lemma costs_pure {A} (m : M A) : pure m -> costs 0 m.
Proof.
  intros Hp up log. exists []. rewrite Hp, app_nil_r. cbn. auto with lia.
Qed.

Lemma costs_ret {A} (a : A) : costs 0 (ret a).
Proof. now apply costs_pure. Qed.

Lemma costs_raise {A} n e : costs n (@raise A e).
Proof.
  intros up log. exists []. cbn. rewrite app_nil_r.
  split; [done|]. split; [lia|done].
Qed.

Lemma costs_bind {A B} a b (m : M A) (k : A -> M B) :
  costs a m -> (forall x, costs b (k x)) -> costs (a + b) (bind m k).
Proof.
  intros Hm Hk up log. destruct (Hm up log) as (tr1 & E1 & L1 & X1).
  unfold bind. destruct (m up log) as [[x|e] log1]; cbn [fst snd] in *.
  - subst log1. destruct (Hk x up (log ++ tr1)) as (tr2 & E2 & L2 & X2).
    exists (tr1 ++ tr2). rewrite E2, app_assoc, length_app.
    split; [done|]. split; [lia|]. intros Hok.
    rewrite X1, X2; auto.
  - exists tr1. split; [done|]. split; [lia|done].
Qed.

Lemma costs_bind_pure {A B} n (m : M A) (k : A -> M B) :
  pure m -> (forall x, costs n (k x)) -> costs n (bind m k).
Proof. intros Hp Hk. apply (costs_bind 0 n); [now apply costs_pure|done]. Qed.

Lemma costs_bind_call {A B} n (m : M A) (k : A -> M B) :
  costs 1 m -> (forall x, costs n (k x)) -> costs (S n) (bind m k).
Proof. intros Hm Hk. now apply (costs_bind 1 n). Qed.

Lemma costs_bind_raise {A B} n e (k : A -> M B) : costs n (bind (raise e) k).
Proof. apply costs_raise. Qed.

(** One upstream call with local post-processing costs one request. *)
Lemma costs_request {A} (k : Response -> M A) q :
  (forall resp, pure (k resp)) -> costs 1 (bind (requests_request q) k).
Proof.
  intros Hp up log. exists [q]. unfold bind, requests_request.
  destruct (up log q) as [resp|e]; cbn [fst snd].
  - rewrite Hp. auto.
  - split; [done|]. split; [done|]. done.
Qed.

Lemma costs_issued {A} n (m : M A) up log :
  costs n m ->
  snd (m up log) = log ++ issued m up log /\
  (length (issued m up log) <= n)%nat /\
  (is_ok (fst (m up log)) = true -> length (issued m up log) = n).
Proof.
  intros Hc. destruct (Hc up log) as (tr & E & L & X).
  unfold issued. rewrite E, drop_app_length. auto.
Qed.

Section Helpers.
Context `{PyLib}.

Lemma costs_github_request token method url kw :
  costs 1 (GithubServer.github_request token method url kw).
Proof.
  apply costs_request. intros resp up log.
  destruct (ok resp); [|done]. cbn [negb]. now destruct (negb _).
Qed.

Lemma costs_gitlab_request token method url kw :
  costs 1 (Gitlab.gitlab_request token method url kw).
Proof.
  apply costs_request. intros resp up log.
  destruct (ok resp); [|done]. cbn [negb]. now destruct (negb _).
Qed.

Lemma costs_cf_request pat method url kw :
  costs 1 (Confluence.cf_request pat method url kw).
Proof.
  apply costs_request. intros resp up log.
  destruct (ok resp); [|done]. cbn [negb].
  destruct (negb _); [|done]. now destruct (json resp).
Qed.

Lemma costs_sample_request global tokens method url user kw :
  costs 1 (GithubSample.github_request global tokens method url user kw).
Proof.
  apply costs_bind_pure; [apply pure_lift|]. intros hdrs.
  apply costs_request. intros resp up log.
  destruct (ok resp); [|done]. cbn [negb]. now destruct (negb _).
Qed.

Lemma costs_oauth_request base tokens user method path kw :
  costs 1 (GithubOauth.github_request base tokens user method path kw).
Proof.
  unfold GithubOauth.github_request.
  destruct (negb _); [apply costs_raise|].
  apply costs_request. intros resp up log. now destruct (ok resp).
Qed.

Lemma pure_check_readonly_server request :
  pure (GithubServer.check_readonly request).
Proof.
  intros up log. destruct request; [|done]. cbn. now destruct (String.eqb _ _).
Qed.

Lemma pure_check_readonly_sample request :
  pure (GithubSample.check_readonly request).
Proof.
  intros up log. destruct request; [|done]. cbn. now destruct (String.eqb _ _).
Qed.

End Helpers.

(** Count the requests of a tool body statement by statement. *)
Ltac count_requests :=
  repeat first
    [ apply costs_ret
    | apply costs_raise
    | apply costs_bind_raise
    | apply costs_github_request
    | apply costs_gitlab_request
    | apply costs_cf_request
    | apply costs_sample_request
    | apply costs_oauth_request
    | apply costs_pure; apply pure_lift
    | apply costs_bind_call;
        [ first [ apply costs_github_request | apply costs_gitlab_request
                | apply costs_cf_request | apply costs_sample_request
                | apply costs_oauth_request ] | intros ? ]
    | apply costs_bind_pure;
        [ first [ apply pure_lift | apply pure_ret | apply pure_raise
                | apply pure_check_readonly_server
                | apply pure_check_readonly_sample
                | apply pure_if; first [apply pure_ret | apply pure_lift] ]
        | intros ? ]
    | match goal with
      | |- costs _ (if ?b then _ else _) => destruct b
      end ].

Section Invocations.
Context `{PyLib}.
Variable env : Env.

Lemma costs_invoke request c :
  push_family c = false ->
  costs (requests_on_success c) (invoke env request c).
Proof.
  intros Hp. destruct c; try discriminate Hp;
    cbn [invoke requests_on_success];
    unfold GithubServer.create_branch, GithubServer.create_or_update_file,
      GithubServer.get_contents, GithubServer.create_pull_request,
      GithubServer.merge_pull_request, GithubServer.update_pr_branch,
      Gitlab.create_branch, Gitlab.create_or_update_file,
      Gitlab.get_contents, Gitlab.create_merge_request,
      Gitlab.merge_merge_request, Gitlab.update_mr_branch, Gitlab.request,
      Confluence.confluence_create_page, Confluence.confluence_get_page,
      Confluence.confluence_update_page, Confluence.confluence_delete_page,
      Confluence.confluence_add_comment, Confluence.confluence_get_comments,
      Confluence.confluence_add_label, Confluence.confluence_get_labels,
      Confluence.confluence_get_page_children, Confluence.confluence_search,
      GithubSample.create_branch, GithubSample.create_or_update_file,
      GithubSample.get_contents, GithubSample.create_pull_request,
      GithubSample.merge_pull_request, GithubSample.query_github,
      GithubSample.weekly_digest,
      GithubOauth.query_github, GithubOauth.weekly_digest, recognised;
    cbv zeta; count_requests.
Qed.

(** C3 (as the code has it). A tool outside the "push multiple files"
    family only appends requests to the log, and a call that returns
    normally has issued exactly [requests_on_success]: one request, except
    two for [create_branch] of the GitHub servers, for
    [confluence_update_page] and for [weekly_digest], and none for
    [query_github] on a query it does not recognise.  A call that raises
    has issued at most that many. *)
Theorem requests_per_invocation request c up log :
  push_family c = false ->
  snd (invoke env request c up log)
  = log ++ issued (invoke env request c) up log /\
  (length (issued (invoke env request c) up log)
   <= requests_on_success c)%nat /\
  (is_ok (fst (invoke env request c up log)) = true ->
   length (issued (invoke env request c) up log) = requests_on_success c).
Proof. intros Hp. apply costs_issued. now apply costs_invoke. Qed.

(** Every GitLab tool that checks the readonly marker raises [NameError]
    before anything else, whatever the inbound request. *)
Lemma gitlab_guarded_tools_raise_name_error c up log request :
  server_of c = GitlabPy -> mutating c = true ->
  invoke env request c up log = (Raise (NameError "request"), log).
Proof. intros Hs Hm. destruct c; try discriminate; reflexivity. Qed.

(** C1 (as the code has it). With the [X-MCP-Readonly] header equal to
    "true" up to case, every mutating tool of the GitHub servers
    ([server.py], [sample.py]) raises [HTTPException] 403 "Readonly mode
    enforced" and leaves the request log as it was.  The read-only tools
    do not look at the inbound request, and neither do the Confluence
    tools, which have no readonly check: with or without the marker they
    behave the same. *)
Theorem readonly_blocks_guarded_tools r c up log :
  readonly_marker r = true ->
  (readonly_guarded c = true ->
   invoke env (Some r) c up log
   = (Raise (HTTPException 403 "Readonly mode enforced"), log))
  /\ (mutating c = false ->
      forall request', invoke env (Some r) c = invoke env request' c)
  /\ (server_of c = ConfluencePy ->
      forall request', invoke env (Some r) c = invoke env request' c).
Proof.
  intros Hro. repeat split.
  - intros Hg. unfold readonly_marker in Hro.
    destruct c; try discriminate Hg; cbn [invoke];
      unfold GithubServer.create_branch, GithubServer.create_or_update_file,
        GithubServer.create_pull_request, GithubServer.merge_pull_request,
        GithubServer.push_multiple_files, GithubServer.update_pr_branch,
        GithubSample.create_branch, GithubSample.create_or_update_file,
        GithubSample.create_pull_request, GithubSample.merge_pull_request;
      (erewrite bind_raise; [reflexivity|]);
      cbn [GithubServer.check_readonly GithubSample.check_readonly];
      now rewrite Hro.
  - intros Hm request'. destruct c; try discriminate Hm; reflexivity.
  - intros Hs request'. destruct c; try discriminate Hs; reflexivity.
Qed.

(** C7 (as the code has it). A call that asks the per-user request helper
    for a token, on behalf of a principal with no stored credential and
    with no global fallback token configured, raises [HTTPException] 401
    and leaves the request log as it was.  ([sample.py] is the only module
    with a fallback; its mutating tools run the readonly check first, so
    the inbound request must be present and unmarked.) *)
Theorem no_credential_unauthenticated request c up log :
  needs_token c = true ->
  stored_credential env c = None ->
  opt_truthy (fallback_token env c) = false ->
  (mutating c = true ->
   exists r, request = Some r /\ readonly_marker r = false) ->
  invoke env request c up log = (Raise (unauthenticated c), log).
Proof.
  intros Hn Hs Hf Hr.
  assert (Hsample : forall user,
             (if opt_truthy user
              then gs_user_tokens env !! default "" user else None) = None ->
             opt_truthy (gs_token env) = false ->
             GithubSample.get_auth_header (gs_token env)
               (gs_user_tokens env) user
             = Raise (HTTPException 401 "No GitHub token available")).
  { intros user Hu Hg. unfold GithubSample.get_auth_header.
    destruct (opt_truthy user); cbn [andb].
    - rewrite Hu. rewrite bool_decide_eq_false_2 by (intros [? ?]; done).
      now rewrite Hg.
    - now rewrite Hg. }
  assert (Hreq : forall user method url kw,
             (if opt_truthy user
              then gs_user_tokens env !! default "" user else None) = None ->
             opt_truthy (gs_token env) = false ->
             GithubSample.github_request (gs_token env) (gs_user_tokens env)
               method url user kw up log
             = (Raise (HTTPException 401 "No GitHub token available"), log)).
  { intros user method url kw Hu Hg. unfold GithubSample.github_request.
    erewrite bind_raise; [reflexivity|]. unfold lift.
    now rewrite Hsample. }
  assert (Hoauth : forall user method path kw,
             go_user_tokens env !! user = None ->
             GithubOauth.github_request (go_base_url env)
               (go_user_tokens env) user method path kw up log
             = (Raise (HTTPException 401 "User not authenticated"), log)).
  { intros user method path kw Hu. unfold GithubOauth.github_request.
    now rewrite Hu. }
  destruct c; try discriminate Hn;
    cbn [stored_credential fallback_token server_of] in Hs, Hf;
    cbn [invoke unauthenticated server_of needs_token] in *.
  all: try (destruct (Hr eq_refl) as (r & -> & Hro);
            unfold readonly_marker in Hro).
  all: unfold GithubSample.create_branch,
         GithubSample.create_or_update_file, GithubSample.get_contents,
         GithubSample.create_pull_request, GithubSample.merge_pull_request,
         GithubSample.query_github, GithubSample.weekly_digest,
         GithubOauth.query_github, GithubOauth.weekly_digest; cbv zeta.
  all: try (erewrite bind_ok;
            [|cbn [GithubSample.check_readonly]; rewrite Hro; reflexivity]).
  all: try (unfold recognised in Hn).
  all: repeat match goal with
         | |- context [if ?b then _ else _] =>
             destruct b eqn:?; cbn [orb] in Hn; try discriminate Hn
         end.
  all: try (erewrite bind_raise; [reflexivity|]).
  all: first [ now apply Hreq | now apply Hoauth ].
Qed.

End Invocations.

Lemma requests_per_invocation_witness :
  length (issued (invoke (H := example_lib) example_env None
                    (CF_update_page "42" None (Some "<p>new</p>") false))
            (scripted [page_v3] page_v4) []) = 2%nat
  /\ length (issued (invoke (H := example_lib) example_env None
                       (GH_get_contents "octo" "site" "README.md" "main"))
               (always git_ok) []) = 1%nat.
Proof.
  split.
  - apply (proj2 (proj2 (@requests_per_invocation example_lib example_env None
                           (CF_update_page "42" None (Some "<p>new</p>") false)
                           (scripted [page_v3] page_v4) [] eq_refl)) eq_refl).
  - apply (proj2 (proj2 (@requests_per_invocation example_lib example_env None
                           (GH_get_contents "octo" "site" "README.md" "main")
                           (always git_ok) [] eq_refl)) eq_refl).
Defined.

(** C3 does not hold as the specification states it: [create_branch] of
    [server.py] is not in the push family and a successful call issues two
    requests, the fetch of the base ref and the creation of the new one. *)
Lemma create_branch_issues_two_requests :
  push_family (GH_create_branch "octo" "site" "feature" "main") = false /\
  invoke (H := example_lib) example_env (Some plain_request)
    (GH_create_branch "octo" "site" "feature" "main") (always git_ok) []
  = (Ok (VDict [("message", VStr "Branch 'feature' created");
                ("ref", git_object)]),
     [{| method := "GET";
         url := "https://api.github.com/repos/octo/site/git/ref/heads/main";
         headers := GithubServer.HEADERS "ghp_token"; json_kw := None |};
      {| method := "POST";
         url := "https://api.github.com/repos/octo/site/git/refs";
         headers := GithubServer.HEADERS "ghp_token";
         json_kw := Some (VDict [("ref", VStr "refs/heads/feature");
                                 ("sha", VStr "abc123")]) |}]) /\
  length (issued (invoke (H := example_lib) example_env (Some plain_request)
                    (GH_create_branch "octo" "site" "feature" "main"))
            (always git_ok) []) <> 1%nat.
Proof. split; [reflexivity|]. split; [reflexivity|]. discriminate. Qed.

Lemma readonly_blocks_guarded_tools_witness :
  readonly_marker readonly_request = true /\
  invoke (H := example_lib) example_env (Some readonly_request)
    (GH_merge_pull_request "octo" "site" 7 "Merging via MCP")
    (always git_ok) []
  = (Raise (HTTPException 403 "Readonly mode enforced"), []) /\
  invoke (H := example_lib) example_env (Some readonly_request)
    (GS_create_pull_request "octo" "site" "Fix" "feature" "main" ""
       (Some "demo_user"))
    (always git_ok) []
  = (Raise (HTTPException 403 "Readonly mode enforced"), []).
Proof.
  split; [reflexivity|]. split.
  - apply (proj1 (@readonly_blocks_guarded_tools example_lib example_env
                    readonly_request
                    (GH_merge_pull_request "octo" "site" 7 "Merging via MCP")
                    (always git_ok) [] eq_refl) eq_refl).
  - apply (proj1 (@readonly_blocks_guarded_tools example_lib example_env
                    readonly_request
                    (GS_create_pull_request "octo" "site" "Fix" "feature"
                       "main" "" (Some "demo_user"))
                    (always git_ok) [] eq_refl) eq_refl).
Defined.

(** C1 does not hold as the specification states it:
    [confluence_delete_page] is a mutating tool, and with the readonly
    marker on the inbound request it still issues its DELETE and succeeds. *)
Lemma readonly_marker_ignored_by_confluence_delete :
  readonly_marker readonly_request = true /\
  mutating (CF_delete_page "42" "current") = true /\
  invoke (H := example_lib) example_env (Some readonly_request)
    (CF_delete_page "42" "current") (always no_content) []
  = (Ok (VDict [("message", VStr "Page 42 deleted");
                ("status", VStr "current")]),
     [{| method := "DELETE";
         url := "https://wiki.example.net/wiki/rest/api/content/42?status=current";
         headers := Confluence.HEADERS "cf_token"; json_kw := None |}]).
Proof. split; [reflexivity|]. split; reflexivity. Qed.

Lemma no_credential_unauthenticated_witness :
  invoke (H := example_lib) example_env None
    (GO_query_github "open issues" "mallory") (always git_ok) []
  = (Raise (HTTPException 401 "User not authenticated"), []) /\
  invoke (H := example_lib) example_env_no_fallback (Some plain_request)
    (GS_create_branch "octo" "site" "feature" "main" (Some "mallory"))
    (always git_ok) []
  = (Raise (HTTPException 401 "No GitHub token available"), []).
Proof.
  split.
  - apply (@no_credential_unauthenticated example_lib example_env None
             (GO_query_github "open issues" "mallory") (always git_ok) []
             eq_refl eq_refl eq_refl).
    discriminate.
  - apply (@no_credential_unauthenticated example_lib example_env_no_fallback
             (Some plain_request)
             (GS_create_branch "octo" "site" "feature" "main" (Some "mallory"))
             (always git_ok) [] eq_refl eq_refl eq_refl).
    intros _. exists plain_request. split; reflexivity.
Defined.

(** C7 does not hold as the specification states it: for a principal with no
    stored credential, [query_github] of [oauth.py] on a query it does not
    recognise returns its "Query not understood" message, not a 401; and in
    [sample.py] such a principal is served with the global [GITHUB_TOKEN]
    when one is configured, and the upstream call is issued. *)
Lemma unknown_principal_not_always_unauthenticated :
  go_user_tokens example_env !! "mallory" = None /\
  invoke (H := example_lib) example_env None
    (GO_query_github "what is the weather" "mallory") (always git_ok) []
  = (Ok (VDict [("message",
                 VStr "Query not understood: what is the weather")]), []) /\
  gs_user_tokens example_env !! "mallory" = None /\
  invoke (H := example_lib) example_env None
    (GS_get_contents "octo" "site" "README.md" "main" (Some "mallory"))
    (always git_ok) []
  = (Ok git_object,
     [{| method := "GET";
         url := "https://api.github.com/repos/octo/site/contents/README.md?ref=main";
         headers := [("Authorization", "Bearer ghp_global");
                     ("Accept", "application/vnd.github.v3+json")];
         json_kw := None |}]).
Proof. repeat split; reflexivity. Qed.

(** ** The keyword matcher of [query_github] *)

Section QueryGithub.

(** C8 (as the code has it). [query_github] tries "pull" first: a query
    containing "issue" in any case and not "pull" is answered by the
    issues listing, one containing "pull" by the pull-request listing;
    a query matching none of "pull", "issue", "release" returns the
    "Query not understood" message, normally, and leaves the request log
    as it was.  Both modules behave so. *)
Theorem query_github_dispatch base global tokens query :
  (Py.contains "pull" (Py.lower query) = false ->
   Py.contains "issue" (Py.lower query) = true ->
   (forall user,
       GithubOauth.query_github base tokens query user
       = GithubOauth.github_request base tokens user "GET"
           "/repos/org/repo/issues?state=open" None) /\
   (forall user,
       GithubSample.query_github global tokens query user
       = GithubSample.github_request global tokens "GET"
           "/repos/org/repo/issues?state=open" user None))
  /\ (Py.contains "pull" (Py.lower query) = true ->
      (forall user,
          GithubOauth.query_github base tokens query user
          = GithubOauth.github_request base tokens user "GET"
              "/repos/org/repo/pulls?state=open" None) /\
      (forall user,
          GithubSample.query_github global tokens query user
          = GithubSample.github_request global tokens "GET"
              "/repos/org/repo/pulls?state=open" user None))
  /\ (recognised query = false ->
      (forall user up log,
          GithubOauth.query_github base tokens query user up log
          = (Ok (VDict [("message",
                         VStr ("Query not understood: " +:+ query))]),
             log)) /\
      (forall user up log,
          GithubSample.query_github global tokens query user up log
          = (Ok (VDict [("message",
                         VStr ("Query not understood: " +:+ query))]),
             log))).
Proof.
  unfold GithubOauth.query_github, GithubSample.query_github, recognised.
  split; [|split].
  - intros Hpull Hissue. split; intros user; now rewrite Hpull, Hissue.
  - intros Hpull. split; intros user; now rewrite Hpull.
  - intros Hnone.
    apply orb_false_elim in Hnone as [Hnone ->].
    apply orb_false_elim in Hnone as [-> ->]. split; reflexivity.
Qed.

End QueryGithub.

Lemma query_github_dispatch_witness :
  GithubOauth.query_github "https://api.github.com"
    {[ "demo_user" := "gho_demo" ]} "List open ISSUES" "demo_user"
  = GithubOauth.github_request "https://api.github.com"
      {[ "demo_user" := "gho_demo" ]} "demo_user" "GET"
      "/repos/org/repo/issues?state=open" None
  /\ GithubSample.query_github None {[ "demo_user" := "gho_demo" ]}
       "what is the weather" (Some "demo_user") (always git_ok) []
     = (Ok (VDict [("message",
                    VStr "Query not understood: what is the weather")]), []).
Proof.
  split.
  - apply (proj1 (@query_github_dispatch "https://api.github.com" None
                    {[ "demo_user" := "gho_demo" ]} "List open ISSUES")
             eq_refl eq_refl).
  - apply (proj2 (proj2 (@query_github_dispatch "https://api.github.com" None
                           {[ "demo_user" := "gho_demo" ]}
                           "what is the weather")) eq_refl).
Defined.

(** C8 does not hold as the specification states it: a query that contains
    "issue" and also "pull" is sent to the pull-request listing, not the
    issues listing. *)
Lemma query_with_issue_and_pull_lists_pulls :
  Py.contains "issue" (Py.lower "Issues linked to open pull requests") = true /\
  GithubOauth.query_github "https://api.github.com"
    {[ "demo_user" := "gho_demo" ]}
    "Issues linked to open pull requests" "demo_user" (always git_ok) []
  = (Ok git_object,
     [{| method := "GET";
         url := "https://api.github.com/repos/org/repo/pulls?state=open";
         headers := [("Authorization", "Bearer gho_demo");
                     ("Accept", "application/vnd.github.v3+json")];
         json_kw := None |}]) /\
  GithubOauth.query_github "https://api.github.com"
    {[ "demo_user" := "gho_demo" ]}
    "Issues linked to open pull requests" "demo_user" (always git_ok) []
  <> GithubOauth.github_request "https://api.github.com"
       {[ "demo_user" := "gho_demo" ]} "demo_user" "GET"
       "/repos/org/repo/issues?state=open" None (always git_ok) [].
Proof. split; [reflexivity|]. split; [reflexivity|]. discriminate. Qed.

(** * Further properties of the tools *)

(** ** Every tool is fail-stop *)

Lemma fail_stop_raise {A} e : fail_stop (@raise A e).
Proof. now apply fail_stop_pure. Qed.

Section FailStopHelpers.
Context `{PyLib}.

Lemma gitlab_request_fail_stop token method url kw :
  fail_stop (Gitlab.gitlab_request token method url kw).
Proof.
  apply fail_stop_request.
  - intros resp up log. destruct (ok resp); [|done]. cbn [negb].
    now destruct (negb _).
  - now intros resp up log ->.
Qed.

Lemma cf_request_is_fail_stop pat method url kw :
  fail_stop (Confluence.cf_request pat method url kw).
Proof.
  apply fail_stop_request.
  - intros resp up log. destruct (ok resp); [|done]. cbn [negb].
    destruct (negb _); [|done]. now destruct (json resp).
  - now intros resp up log ->.
Qed.

Lemma sample_request_fail_stop global tokens method url user kw :
  fail_stop (GithubSample.github_request global tokens method url user kw).
Proof.
  apply fail_stop_bind; [apply fail_stop_lift|]. intros hdrs.
  apply fail_stop_request.
  - intros resp up log. destruct (ok resp); [|done]. cbn [negb].
    now destruct (negb _).
  - now intros resp up log ->.
Qed.

Lemma oauth_request_fail_stop base tokens user method path kw :
  fail_stop (GithubOauth.github_request base tokens user method path kw).
Proof.
  unfold GithubOauth.github_request.
  destruct (negb _); [apply fail_stop_raise|].
  apply fail_stop_request.
  - intros resp up log. now destruct (ok resp).
  - now intros resp up log ->.
Qed.

End FailStopHelpers.

(** Unfold the body of every tool. *)
Ltac unfold_tools :=
  unfold GithubServer.create_branch, GithubServer.create_or_update_file,
    GithubServer.get_contents, GithubServer.create_pull_request,
    GithubServer.merge_pull_request, GithubServer.update_pr_branch,
    GithubServer.push_multiple_files,
    Gitlab.create_branch, Gitlab.create_or_update_file,
    Gitlab.get_contents, Gitlab.create_merge_request,
    Gitlab.merge_merge_request, Gitlab.update_mr_branch,
    Gitlab.push_multiple_files, Gitlab.request,
    Confluence.confluence_create_page, Confluence.confluence_get_page,
    Confluence.confluence_update_page, Confluence.confluence_delete_page,
    Confluence.confluence_add_comment, Confluence.confluence_get_comments,
    Confluence.confluence_add_label, Confluence.confluence_get_labels,
    Confluence.confluence_get_page_children, Confluence.confluence_search,
    GithubSample.create_branch, GithubSample.create_or_update_file,
    GithubSample.get_contents, GithubSample.create_pull_request,
    GithubSample.merge_pull_request, GithubSample.query_github,
    GithubSample.weekly_digest,
    GithubOauth.query_github, GithubOauth.weekly_digest;
  cbv zeta.

Ltac fail_stop_steps :=
  repeat first
    [ apply fail_stop_ret
    | apply fail_stop_raise
    | apply fail_stop_lift
    | apply GithubServerProps.github_request_fail_stop
    | apply GithubServerProps.create_blobs_fail_stop
    | apply gitlab_request_fail_stop
    | apply cf_request_is_fail_stop
    | apply sample_request_fail_stop
    | apply oauth_request_fail_stop
    | apply fail_stop_pure; apply pure_check_readonly_server
    | apply fail_stop_pure; apply pure_check_readonly_sample
    | apply fail_stop_pure; apply pure_if; first [apply pure_ret | apply pure_lift]
    | apply fail_stop_bind; [|intros ?]
    | match goal with
      | |- fail_stop (if ?b then _ else _) => destruct b
      end ].

Section FailStop.
Context `{PyLib}.
Variable env : Env.

Lemma invoke_fail_stop request c : fail_stop (invoke env request c).
Proof. destruct c; cbn [invoke]; unfold_tools; fail_stop_steps. Qed.

(** X1. Whatever the tool, a failed upstream call (the transport raises,
    or the status is not a success) is the last request the call issues,
    and the call raises: no tool retries, and no tool goes on to a later
    request after a failed one. *)
Theorem failed_call_is_last request c up log i q :
  issued (invoke env request c) up log !! i = Some q ->
  failed (up (log ++ take i (issued (invoke env request c) up log)) q) = true ->
  length (issued (invoke env request c) up log) = S i /\
  is_ok (fst (invoke env request c up log)) = false.
Proof.
  destruct (invoke_fail_stop request c up log) as (tr & E & F).
  unfold issued. rewrite E, drop_app_length. apply F.
Qed.

End FailStop.

Lemma failed_call_is_last_witness :
  length (issued (invoke (H := example_lib) example_env (Some plain_request)
                    (GH_create_branch "octo" "site" "feature" "main"))
            (failing_at 0 git_ok server_error) []) = 1%nat /\
  is_ok (fst (invoke (H := example_lib) example_env (Some plain_request)
                (GH_create_branch "octo" "site" "feature" "main")
                (failing_at 0 git_ok server_error) [])) = false.
Proof.
  apply (@failed_call_is_last example_lib example_env (Some plain_request)
           (GH_create_branch "octo" "site" "feature" "main")
           (failing_at 0 git_ok server_error) [] 0%nat
           (GithubServer.ref_fetch "ghp_token" "octo" "site" "main")
           eq_refl eq_refl).
Defined.

(** ** What the requests of a tool look like *)

Lemma append_cons (x : ascii) (a b : string) :
  String x a +:+ b = String x (a +:+ b).
Proof. reflexivity. Qed.

Lemma append_assoc (a b c : string) : (a +:+ b) +:+ c = a +:+ (b +:+ c).
Proof.
  induction a as [|x a IH]; [done|]. rewrite !append_cons. now f_equal.
Qed.

Lemma prefix_append (a b : string) : String.prefix a (a +:+ b) = true.
Proof.
  induction a as [|x a IH]; [now destruct b|]. rewrite append_cons. cbn.
  now destruct (ascii_dec x x).
Qed.

Lemma prefix_append2 (a b c : string) :
  String.prefix (a +:+ b) (a +:+ (b +:+ c)) = true.
Proof. rewrite <- append_assoc. apply prefix_append. Qed.

Lemma emits_pure {A} (P : Req -> Prop) (m : M A) : pure m -> emits P m.
Proof. intros Hp up log. exists []. now rewrite Hp, app_nil_r. Qed.

Lemma emits_bind {A B} (P : Req -> Prop) (m : M A) (k : A -> M B) :
  emits P m -> (forall x, emits P (k x)) -> emits P (bind m k).
Proof.
  intros Hm Hk up log. destruct (Hm up log) as (tr1 & E1 & F1).
  unfold bind. destruct (m up log) as [[x|e] log1]; cbn [snd] in *.
  - subst log1. destruct (Hk x up (log ++ tr1)) as (tr2 & E2 & F2).
    exists (tr1 ++ tr2). rewrite E2, app_assoc. split; [done|].
    now apply Forall_app.
  - now exists tr1.
Qed.

Lemma emits_request {A} (P : Req -> Prop) (k : Response -> M A) q :
  P q -> (forall resp, pure (k resp)) -> emits P (bind (requests_request q) k).
Proof.
  intros HP Hp up log. exists [q]. unfold bind, requests_request.
  destruct (up log q) as [resp|e]; cbn [snd].
  - rewrite Hp. split; [done|]. now constructor.
  - split; [done|]. now constructor.
Qed.

Lemma emits_issued {A} (P : Req -> Prop) (m : M A) up log q :
  emits P m -> q ∈ issued m up log -> P q.
Proof.
  intros Hm Hq. destruct (Hm up log) as (tr & E & F).
  unfold issued in Hq. rewrite E, drop_app_length in Hq.
  rewrite Forall_forall in F. now apply F.
Qed.

Section EmitsHelpers.
Context `{PyLib}.
Variable P : Req -> Prop.

Lemma emits_github_request token method url kw :
  P {| method := method; url := url;
       headers := GithubServer.HEADERS token; json_kw := kw |} ->
  emits P (GithubServer.github_request token method url kw).
Proof.
  intros HP. apply emits_request; [done|]. intros resp up log.
  destruct (ok resp); [|done]. cbn [negb]. now destruct (negb _).
Qed.

Lemma emits_gitlab_request token method url kw :
  P {| method := method; url := url;
       headers := Gitlab.HEADERS token; json_kw := kw |} ->
  emits P (Gitlab.gitlab_request token method url kw).
Proof.
  intros HP. apply emits_request; [done|]. intros resp up log.
  destruct (ok resp); [|done]. cbn [negb]. now destruct (negb _).
Qed.

Lemma emits_cf_request pat method url kw :
  P {| method := method; url := url;
       headers := Confluence.HEADERS pat; json_kw := kw |} ->
  emits P (Confluence.cf_request pat method url kw).
Proof.
  intros HP. apply emits_request; [done|]. intros resp up log.
  destruct (ok resp); [|done]. cbn [negb].
  destruct (negb _); [|done]. now destruct (json resp).
Qed.

Lemma emits_sample_request global tokens method url user kw :
  (forall hdrs,
      GithubSample.get_auth_header global tokens user = Ok hdrs ->
      P {| method := method; url := url; headers := hdrs; json_kw := kw |}) ->
  emits P (GithubSample.github_request global tokens method url user kw).
Proof.
  intros HP up log. unfold GithubSample.github_request.
  unfold bind at 1. unfold lift.
  destruct (GithubSample.get_auth_header global tokens user) as [hdrs|e] eqn:E.
  - apply emits_request; [now apply HP|]. intros resp u l.
    destruct (ok resp); [|done]. cbn [negb]. now destruct (negb _).
  - exists []. now rewrite app_nil_r.
Qed.

Lemma emits_oauth_request base (tokens : gmap string string) user method path kw :
  (forall token,
      tokens !! user = Some token -> token <> "" ->
      P {| method := method; url := base +:+ path;
           headers := bearer_headers token; json_kw := kw |}) ->
  emits P (GithubOauth.github_request base tokens user method path kw).
Proof.
  intros HP. unfold GithubOauth.github_request.
  destruct (tokens !! user) as [token|] eqn:E; cbn [opt_truthy];
    [|apply emits_pure, pure_raise].
  destruct (String.eqb_spec token ""); cbn [negb];
    [apply emits_pure, pure_raise|].
  apply emits_request; [now apply HP|]. intros resp u l.
  now destruct (ok resp).
Qed.

Lemma create_blobs_emits token owner repo files acc :
  (forall content, P (GithubServer.blob_create token owner repo content)) ->
  emits P (GithubServer.create_blobs token owner repo files acc).
Proof.
  intros HP. revert acc.
  induction files as [|f fs IH]; intros acc; cbn [GithubServer.create_blobs].
  - apply emits_pure, pure_ret.
  - apply emits_bind; [apply emits_pure, pure_lift|]. intros c.
    apply emits_bind; [apply emits_github_request, HP|]. intros blob.
    apply emits_bind; [apply emits_pure, pure_lift|]. intros p.
    apply emits_bind; [apply emits_pure, pure_lift|]. intros s.
    apply IH.
Qed.

End EmitsHelpers.

(** Check the requests of a tool body statement by statement; [tac] proves
    the property of each request built. *)
Ltac emits_steps tac :=
  repeat first
    [ apply emits_pure; first
        [ apply pure_ret | apply pure_raise | apply pure_lift
        | apply pure_check_readonly_server | apply pure_check_readonly_sample
        | apply pure_if; first [apply pure_ret | apply pure_lift] ]
    | apply emits_github_request; tac
    | apply create_blobs_emits; tac
    | apply emits_gitlab_request; tac
    | apply emits_cf_request; tac
    | apply emits_sample_request; tac
    | apply emits_oauth_request; tac
    | apply emits_bind; [|intros ?]
    | match goal with
      | |- emits _ (if ?b then _ else _) => destruct b
      end ].

Section Requests.
Context `{PyLib}.
Variable env : Env.

(** X2. A tool that only gets, lists or searches never sends anything but
    GET requests without a body: whatever the arguments and whatever the
    upstream answers, it cannot change upstream state. *)
Theorem read_only_tools_only_get request c up log q :
  mutating c = false ->
  q ∈ issued (invoke env request c) up log ->
  method q = "GET" /\ json_kw q = None.
Proof.
  intros Hm Hq.
  apply (emits_issued (fun q => method q = "GET" /\ json_kw q = None)
           (invoke env request c) up log q); [|exact Hq].
  clear up log q Hq.
  destruct c; try discriminate Hm; cbn [invoke]; unfold_tools;
    emits_steps ltac:(intros; split; reflexivity).
Qed.

(** X3. Every request of the three servers with a static token
    ([server.py], GitLab, Confluence) carries the module's configured
    headers, token included, and goes to a URL under the module's
    configured API base. *)
Theorem static_requests_use_configured_base request c up log q :
  static_token (server_of c) = true ->
  q ∈ issued (invoke env request c) up log ->
  headers q = static_headers env (server_of c) /\
  String.prefix (url_base env (server_of c)) (url q) = true.
Proof.
  intros Hs Hq.
  apply (emits_issued
           (fun q => headers q = static_headers env (server_of c) /\
                     String.prefix (url_base env (server_of c)) (url q) = true)
           (invoke env request c) up log q); [|exact Hq].
  clear up log q Hq.
  destruct c; try discriminate Hs;
    cbn [invoke server_of static_headers url_base]; unfold_tools.
  all: emits_steps ltac:(
         intros; unfold GithubServer.blob_create;
         (split; [reflexivity|]); cbn [url];
         repeat match goal with
           | |- context [if ?b then _ else _] => destruct b
           end;
         rewrite ?append_assoc;
         first [ apply prefix_append2 | apply prefix_append ]).
Qed.

End Requests.

Lemma read_only_tools_only_get_witness :
  method (Build_Req "GET"
            "https://wiki.example.net/wiki/rest/api/content/42/label?limit=200&start=0"
            (Confluence.HEADERS "cf_token") None) = "GET" /\
  json_kw (Build_Req "GET"
             "https://wiki.example.net/wiki/rest/api/content/42/label?limit=200&start=0"
             (Confluence.HEADERS "cf_token") None) = None.
Proof.
  apply (@read_only_tools_only_get example_lib example_env None
           (CF_get_labels "42" 200 0) (always git_ok) [] _ eq_refl).
  apply list_elem_of_here.
Defined.

Lemma static_requests_use_configured_base_witness :
  headers (GithubServer.ref_fetch "ghp_token" "octo" "site" "main")
  = static_headers example_env GithubServerPy /\
  String.prefix (url_base example_env GithubServerPy)
    (url (GithubServer.ref_fetch "ghp_token" "octo" "site" "main")) = true.
Proof.
  apply (@static_requests_use_configured_base example_lib example_env
           (Some plain_request)
           (GH_create_branch "octo" "site" "feature" "main")
           (always git_ok) [] _ eq_refl).
  apply list_elem_of_here.
Defined.

(** ** The token a per-user request carries *)

Section PerUser.
Context `{PyLib}.
Variable env : Env.

Lemma get_auth_header_token global (tokens : gmap string string) user hdrs :
  GithubSample.get_auth_header global tokens user = Ok hdrs ->
  exists token,
    token <> "" /\
    ((if opt_truthy user then tokens !! default "" user else None) = Some token
     \/ ((if opt_truthy user then tokens !! default "" user else None) = None
         /\ global = Some token)) /\
    hdrs = bearer_headers token.
Proof.
  assert (Hfin : forall t,
             (if negb (opt_truthy (Some t))
              then Raise (HTTPException 401 "No GitHub token available")
              else Ok (bearer_headers (default "" (Some t)))) = Ok hdrs ->
             t <> "" /\ hdrs = bearer_headers t).
  { intros t. cbn [opt_truthy from_option id].
    destruct (String.eqb_spec t ""); cbn [negb]; [done|]. now intros [= <-]. }
  unfold GithubSample.get_auth_header.
  destruct (opt_truthy user); cbn [andb].
  - destruct (tokens !! default "" user) as [t|] eqn:E.
    + rewrite bool_decide_eq_true_2 by eauto.
      intros Ht. apply Hfin in Ht as [? ?]. exists t. auto.
    + rewrite bool_decide_eq_false_2 by (intros [? ?]; done).
      destruct global as [g|]; [|done].
      destruct (opt_truthy (Some g)) eqn:Eg; [|done].
      intros Hg. apply Hfin in Hg as [? ?]. exists g. auto.
  - destruct global as [g|]; [|done].
    destruct (opt_truthy (Some g)) eqn:Eg; [|done].
    intros Hg. apply Hfin in Hg as [? ?]. exists g. auto.
Qed.

(** X4. Every request [sample.py] or [oauth.py] issues for a call carries
    a non-empty bearer token: the token stored for the call's principal
    when there is one, and only otherwise the global fallback token (which
    [oauth.py] does not have).  A stored token is never replaced by the
    global one, and no request leaves without a token. *)
Theorem per_user_requests_carry_principal_token request c up log q :
  static_token (server_of c) = false ->
  q ∈ issued (invoke env request c) up log ->
  exists token,
    token <> "" /\
    (stored_credential env c = Some token
     \/ (stored_credential env c = None /\ fallback_token env c = Some token))
    /\ headers q = bearer_headers token.
Proof.
  intros Hs Hq.
  apply (emits_issued
           (fun q => exists token,
                token <> "" /\
                (stored_credential env c = Some token
                 \/ (stored_credential env c = None
                     /\ fallback_token env c = Some token))
                /\ headers q = bearer_headers token)
           (invoke env request c) up log q); [|exact Hq].
  clear up log q Hq.
  destruct c; try discriminate Hs;
    cbn [invoke stored_credential fallback_token server_of]; unfold_tools.
  all: emits_steps ltac:(
         first
           [ intros hdrs Hh; apply get_auth_header_token in Hh;
             destruct Hh as (t & Hne & Hc & ->); exists t; auto
           | intros t Ht Hne; exists t; auto ]).
Qed.

(** X5. The conversational tools of [sample.py] hand the request helper a
    path where it expects a full URL: every request they issue goes to a
    URL that starts with "/repos/org/repo/", with no scheme or host,
    whatever [GITHUB_API_URL] is.  The same tools in [oauth.py] prefix the
    path with the API base, as the other tools of [sample.py] do. *)
Theorem conversational_urls request c up log q :
  q ∈ issued (invoke env request c) up log ->
  (server_of c = GithubSamplePy -> conversational c = true ->
   String.prefix "/repos/org/repo/" (url q) = true) /\
  (server_of c = GithubSamplePy -> conversational c = false ->
   String.prefix (gs_base_url env +:+ "/repos/") (url q) = true) /\
  (server_of c = GithubOauthPy ->
   exists path, url q = go_base_url env +:+ path /\
                String.prefix "/repos/org/repo/" path = true).
Proof.
  intros Hq.
  apply (emits_issued
           (fun q =>
              (server_of c = GithubSamplePy -> conversational c = true ->
               String.prefix "/repos/org/repo/" (url q) = true) /\
              (server_of c = GithubSamplePy -> conversational c = false ->
               String.prefix (gs_base_url env +:+ "/repos/") (url q) = true) /\
              (server_of c = GithubOauthPy ->
               exists path, url q = go_base_url env +:+ path /\
                            String.prefix "/repos/org/repo/" path = true))
           (invoke env request c) up log q); [|exact Hq].
  clear up log q Hq.
  destruct c; cbn [invoke server_of conversational]; unfold_tools.
  all: emits_steps ltac:(
         intros; unfold GithubServer.blob_create; cbn [url];
         (split; [|split]); intros; try discriminate;
         first [ apply prefix_append2
               | reflexivity
               | apply (prefix_append "/repos/org/repo/")
               | eexists; split; [reflexivity|];
                 first [reflexivity | apply (prefix_append "/repos/org/repo/")] ]).
Qed.

End PerUser.

Lemma per_user_requests_carry_principal_token_witness :
  exists token,
    token <> "" /\
    (stored_credential example_env
       (GS_get_contents "octo" "site" "README.md" "main" (Some "demo_user"))
     = Some token
     \/ (stored_credential example_env
           (GS_get_contents "octo" "site" "README.md" "main"
              (Some "demo_user")) = None
         /\ fallback_token example_env
              (GS_get_contents "octo" "site" "README.md" "main"
                 (Some "demo_user")) = Some token))
    /\ headers (Build_Req "GET"
                  "https://api.github.com/repos/octo/site/contents/README.md?ref=main"
                  (bearer_headers "gho_demo") None)
       = bearer_headers token.
Proof.
  apply (@per_user_requests_carry_principal_token example_lib example_env None
           (GS_get_contents "octo" "site" "README.md" "main" (Some "demo_user"))
           (always git_ok) [] _ eq_refl).
  apply list_elem_of_here.
Defined.

Lemma conversational_urls_witness :
  String.prefix "/repos/org/repo/"
    (url (Build_Req "GET" "/repos/org/repo/issues?state=open"
            (bearer_headers "gho_demo") None)) = true.
Proof.
  apply (proj1 (@conversational_urls example_lib example_env None
                  (GS_query_github "open issues" (Some "demo_user"))
                  (always git_ok) [] _ (list_elem_of_here _ _))
           eq_refl eq_refl).
Defined.

(** ** The readonly check *)

Lemma lower_ascii_cases (c l : ascii) :
  Py.lower_ascii c = l ->
  c = l \/ (Ascii.nat_of_ascii c + 32 = Ascii.nat_of_ascii l)%nat.
Proof.
  unfold Py.lower_ascii. destruct (_ && _)%bool eqn:E; [|now left].
  intros <-. right. rewrite Ascii.nat_ascii_embedding; [done|].
  apply andb_true_iff in E as [_ E]. apply Nat.leb_le in E. lia.
Qed.

Lemma lower_ascii_letter (c l u : ascii) :
  (Ascii.nat_of_ascii u + 32 = Ascii.nat_of_ascii l)%nat ->
  Py.lower_ascii c = l -> c = l \/ c = u.
Proof.
  intros Hu Hc. destruct (lower_ascii_cases c l Hc) as [->|Hn]; [now left|].
  right. rewrite <- (Ascii.ascii_nat_embedding c), <- (Ascii.ascii_nat_embedding u).
  f_equal. lia.
Qed.

(** X6. [check_readonly] blocks a call exactly when the [X-MCP-Readonly]
    header is one of the sixteen spellings of "true" in upper and lower
    case; a missing header, and any other value ("1", "yes", "true" with
    spaces around it), lets the call through. *)
Theorem check_readonly_blocks_exactly_true (r : Request) up log :
  GithubServer.check_readonly (Some r) up log
  = (Raise (HTTPException 403 "Readonly mode enforced"), log)
  <-> exists c1 c2 c3 c4,
        headers_get r "X-MCP-Readonly"
        = Some (String c1 (String c2 (String c3 (String c4 EmptyString)))) /\
        (c1 = "t" \/ c1 = "T")%char /\ (c2 = "r" \/ c2 = "R")%char /\
        (c3 = "u" \/ c3 = "U")%char /\ (c4 = "e" \/ c4 = "E")%char.
Proof.
  cbn [GithubServer.check_readonly].
  destruct (headers_get r "X-MCP-Readonly") as [v|] eqn:Ev;
    cbn [from_option id].
  2:{ split; [intros [=]|]. intros (c1 & c2 & c3 & c4 & [=] & _). }
  destruct (String.eqb_spec (Py.lower v) "true") as [Hl|Hl].
  - split; [intros _|done].
    destruct v as [|c1 [|c2 [|c3 [|c4 [|c5 v]]]]]; try discriminate Hl.
    cbn [Py.lower] in Hl. injection Hl as H1 H2 H3 H4.
    exists c1, c2, c3, c4. split; [done|].
    repeat split;
      match goal with
      | |- ?c = ?l \/ ?c = ?u => apply (lower_ascii_letter c l u); [reflexivity|done]
      end.
  - split; [intros [=]|].
    intros (c1 & c2 & c3 & c4 & [= ->] & H1 & H2 & H3 & H4).
    exfalso. apply Hl.
    destruct H1 as [-> | ->], H2 as [-> | ->], H3 as [-> | ->],
      H4 as [-> | ->]; reflexivity.
Qed.

(** ** Configuration of the Confluence base *)

Lemma rstrip_slash_append_slash (s : string) :
  Py.rstrip_slash (s +:+ "/") = Py.rstrip_slash s.
Proof.
  induction s as [|c s IH]; [reflexivity|].
  rewrite append_cons. cbn [Py.rstrip_slash]. now rewrite IH.
Qed.

Lemma rstrip_slash_no_trailing (s : string) c t :
  Py.rstrip_slash s = t +:+ String c EmptyString -> c <> "/"%char.
Proof.
  revert t. induction s as [|x s IH]; intros t; cbn [Py.rstrip_slash].
  - destruct t; discriminate.
  - destruct (Py.rstrip_slash s) as [|y s'] eqn:E.
    + destruct (Ascii.eqb_spec x "/"); [destruct t; discriminate|].
      destruct t as [|z [|? ?]]; cbn; intros [=]; congruence.
    + destruct t as [|z t]; [cbn; intros [=]|].
      rewrite append_cons. intros [= -> Ht]. now apply (IH t).
Qed.

(** X7. Trailing slashes of [CONFLUENCE_BASE_URL] do not matter: the API
    base is the same with one more slash at the end, and the part before
    "/rest/api" never ends in a slash, so no URL has a doubled slash
    there. *)
Theorem api_base_ignores_trailing_slash (base : string) :
  Confluence.API_BASE (base +:+ "/") = Confluence.API_BASE base /\
  (forall t, Py.rstrip_slash base <> t +:+ "/").
Proof.
  unfold Confluence.API_BASE. rewrite rstrip_slash_append_slash.
  split; [reflexivity|]. intros t Ht.
  now apply (rstrip_slash_no_trailing base "/"%char t).
Qed.

(** ** Bodies of successful responses *)

Section SuccessBodies.
Context `{PyLib}.

(** X8. A success response whose body is not empty and does not parse as
    JSON: the Confluence helper returns it wrapped as [{"raw": text}],
    while the GitHub and GitLab helpers let the decoding error escape,
    after the request was issued. *)
Theorem success_body_not_json up log method url kw resp :
  ok resp = true -> text resp <> "" -> json resp = None ->
  (forall pat,
      up log {| method := method; url := url;
                headers := Confluence.HEADERS pat; json_kw := kw |}
      = Ok resp ->
      Confluence.cf_request pat method url kw up log
      = (Ok (VDict [("raw", VStr (text resp))]),
         log ++ [{| method := method; url := url;
                    headers := Confluence.HEADERS pat; json_kw := kw |}]))
  /\ (forall token,
        up log {| method := method; url := url;
                  headers := GithubServer.HEADERS token; json_kw := kw |}
        = Ok resp ->
        GithubServer.github_request token method url kw up log
        = (Raise JSONDecodeError,
           log ++ [{| method := method; url := url;
                      headers := GithubServer.HEADERS token; json_kw := kw |}]))
  /\ (forall token,
        up log {| method := method; url := url;
                  headers := Gitlab.HEADERS token; json_kw := kw |}
        = Ok resp ->
        Gitlab.gitlab_request token method url kw up log
        = (Raise JSONDecodeError,
           log ++ [{| method := method; url := url;
                      headers := Gitlab.HEADERS token; json_kw := kw |}]))
  /\ (forall global tokens user hdrs,
        GithubSample.get_auth_header global tokens user = Ok hdrs ->
        up log {| method := method; url := url; headers := hdrs;
                  json_kw := kw |} = Ok resp ->
        GithubSample.github_request global tokens method url user kw up log
        = (Raise JSONDecodeError,
           log ++ [{| method := method; url := url; headers := hdrs;
                      json_kw := kw |}])).
Proof.
  intros Hok Htxt Hjs.
  assert (Hne : negb (String.eqb (text resp) "") = true)
    by (now destruct (String.eqb_spec (text resp) "")).
  repeat split.
  - intros pat E. unfold Confluence.cf_request, bind, requests_request.
    now rewrite E, Hok, Hne, Hjs.
  - intros token E.
    unfold GithubServer.github_request, bind, requests_request, lift, resp_json.
    now rewrite E, Hok, Hne, Hjs.
  - intros token E.
    unfold Gitlab.gitlab_request, bind, requests_request, lift, resp_json.
    now rewrite E, Hok, Hne, Hjs.
  - intros global tokens user hdrs Ha E. unfold GithubSample.github_request.
    step ltac:(apply lift_ok; exact Ha).
    unfold bind, requests_request, lift, resp_json.
    now rewrite E, Hok, Hne, Hjs.
Qed.

(** X9. A success response with an empty body (a 204, say): the helpers of
    Confluence, GitLab, [server.py] and [sample.py] return the empty dict;
    the helper of [oauth.py] decodes the body unconditionally and raises. *)
Theorem success_body_empty up log method url kw resp :
  ok resp = true -> text resp = "" -> json resp = None ->
  (forall pat,
      up log {| method := method; url := url;
                headers := Confluence.HEADERS pat; json_kw := kw |}
      = Ok resp ->
      Confluence.cf_request pat method url kw up log
      = (Ok (VDict []),
         log ++ [{| method := method; url := url;
                    headers := Confluence.HEADERS pat; json_kw := kw |}]))
  /\ (forall token,
        up log {| method := method; url := url;
                  headers := GithubServer.HEADERS token; json_kw := kw |}
        = Ok resp ->
        GithubServer.github_request token method url kw up log
        = (Ok (VDict []),
           log ++ [{| method := method; url := url;
                      headers := GithubServer.HEADERS token; json_kw := kw |}]))
  /\ (forall token,
        up log {| method := method; url := url;
                  headers := Gitlab.HEADERS token; json_kw := kw |}
        = Ok resp ->
        Gitlab.gitlab_request token method url kw up log
        = (Ok (VDict []),
           log ++ [{| method := method; url := url;
                      headers := Gitlab.HEADERS token; json_kw := kw |}]))
  /\ (forall global tokens user hdrs,
        GithubSample.get_auth_header global tokens user = Ok hdrs ->
        up log {| method := method; url := url; headers := hdrs;
                  json_kw := kw |} = Ok resp ->
        GithubSample.github_request global tokens method url user kw up log
        = (Ok (VDict []),
           log ++ [{| method := method; url := url; headers := hdrs;
                      json_kw := kw |}]))
  /\ (forall base (tokens : gmap string string) user token,
        tokens !! user = Some token -> token <> "" ->
        up log {| method := method; url := base +:+ url;
                  headers := bearer_headers token; json_kw := kw |} = Ok resp ->
        GithubOauth.github_request base tokens user method url kw up log
        = (Raise JSONDecodeError,
           log ++ [{| method := method; url := base +:+ url;
                      headers := bearer_headers token; json_kw := kw |}])).
Proof.
  intros Hok Htxt Hjs. repeat split.
  - intros pat E. unfold Confluence.cf_request, bind, requests_request.
    now rewrite E, Hok, Htxt.
  - intros token E.
    unfold GithubServer.github_request, bind, requests_request.
    now rewrite E, Hok, Htxt.
  - intros token E. unfold Gitlab.gitlab_request, bind, requests_request.
    now rewrite E, Hok, Htxt.
  - intros global tokens user hdrs Ha E. unfold GithubSample.github_request.
    step ltac:(apply lift_ok; exact Ha).
    unfold bind, requests_request. now rewrite E, Hok, Htxt.
  - intros base tokens user token Ht Hne E.
    unfold GithubOauth.github_request. rewrite Ht.
    cbn [opt_truthy from_option id].
    destruct (String.eqb_spec token ""); [done|]. cbn [negb].
    unfold bind, requests_request, lift, resp_json.
    unfold bearer_headers in E. now rewrite E, Hok, Hjs.
Qed.

End SuccessBodies.

(** ** Calls without an inbound request *)

Section NoRequest.
Context `{PyLib}.
Variable env : Env.

(** X10. The tools of [server.py] and [sample.py] that check the readonly
    marker declare [request = None] as the default; called without an
    inbound request they raise [AttributeError] on [request.headers]
    before anything else, and issue no upstream request. *)
Theorem guarded_tools_need_a_request c up log :
  readonly_guarded c = true ->
  invoke env None c up log = (Raise (AttributeError "headers"), log).
Proof.
  intros Hg. destruct c; try discriminate Hg; reflexivity.
Qed.

End NoRequest.

Lemma guarded_tools_need_a_request_witness :
  invoke (H := example_lib) example_env None
    (GS_merge_pull_request "octo" "site" 7 "Merging via MCP" (Some "demo_user"))
    (always git_ok) []
  = (Raise (AttributeError "headers"), []).
Proof.
  apply (@guarded_tools_need_a_request example_lib example_env
           (GS_merge_pull_request "octo" "site" 7 "Merging via MCP"
              (Some "demo_user"))
           (always git_ok) [] eq_refl).
Defined.

(** ** The OAuth routes *)

Section Routes.
Context `{PyLib}.
Variable client_id client_secret : option string.
Variable redirect_uri : string.

Local Abbreviation callback :=
  (OauthRoutes.callback client_id client_secret redirect_uri).

(** X11. [callback] writes at most the record of the static principal
    "demo_user": the token of every other principal is left as it was, and
    when the exchange fails (transport error, undecodable answer, no
    [access_token], an empty one) the whole store is left as it was. *)
Theorem callback_touches_only_demo_user code endpoint
    (user_tokens : gmap string string) :
  (forall user, user <> "demo_user" ->
                snd (callback code endpoint user_tokens) !! user
                = user_tokens !! user) /\
  (is_ok (fst (callback code endpoint user_tokens)) = false ->
   snd (callback code endpoint user_tokens) = user_tokens).
Proof.
  unfold OauthRoutes.callback.
  destruct (endpoint _) as [resp|e]; [|done].
  destruct (resp_json resp) as [body|e]; [|done].
  destruct (Py.get body "access_token" VNone) as [token|e]; [|done].
  destruct (Py.truthy token); cbn [negb fst snd]; [|done].
  split; [|done]. intros user Hne. now rewrite lookup_insert_ne.
Qed.

(** X12. Login, then call: when the token endpoint grants a non-empty
    string token, [callback] returns it and records it for "demo_user",
    replacing whatever was recorded before; the next call of the
    [oauth.py] request helper for "demo_user" then issues its request with
    that token as the bearer. *)
Theorem callback_then_request code endpoint (user_tokens : gmap string string)
    resp body t base method path kw up log :
  endpoint
    {| post_url := "https://github.com/login/oauth/access_token";
       post_headers := [("Accept", "application/json")];
       post_data := [("client_id", client_id);
                     ("client_secret", client_secret);
                     ("code", Some code);
                     ("redirect_uri", Some redirect_uri)] |} = Ok resp ->
  json resp = Some body ->
  Py.get body "access_token" VNone = Ok (VStr t) ->
  t <> "" ->
  callback code endpoint user_tokens
  = (Ok (VDict [("access_token", VStr t)]), <["demo_user" := t]> user_tokens)
  /\ issued (GithubOauth.github_request base
               (snd (callback code endpoint user_tokens))
               "demo_user" method path kw) up log
     = [{| method := method; url := base +:+ path;
           headers := bearer_headers t; json_kw := kw |}].
Proof.
  intros E Hjs Hget Hne.
  assert (Hcb : callback code endpoint user_tokens
                = (Ok (VDict [("access_token", VStr t)]),
                   <["demo_user" := t]> user_tokens)).
  { unfold OauthRoutes.callback, resp_json. rewrite E, Hjs, Hget.
    cbn [Py.truthy]. now destruct (String.eqb_spec t ""). }
  split; [exact Hcb|]. rewrite Hcb. cbn [snd].
  unfold issued, GithubOauth.github_request.
  rewrite lookup_insert_eq. cbn [opt_truthy from_option id].
  destruct (String.eqb_spec t ""); [done|]. cbn [negb].
  unfold bind, requests_request.
  destruct (up log _) as [r|e]; cbn [snd].
  - destruct (ok r); cbn [negb snd raise lift]; now rewrite drop_app_length.
  - now rewrite drop_app_length.
Qed.

(** X13. The [/me] route of [oauth.py]: with no token recorded for
    "demo_user" it raises 401 "Login first" and issues no request; with one
    it returns the decoded body of the upstream answer whatever its
    status, so an upstream error status comes back as a normal result. *)
Theorem me_skips_the_status_check base (user_tokens : gmap string string)
    up log :
  (user_tokens !! "demo_user" = None ->
   OauthRoutes.me base user_tokens up log
   = (Raise (HTTPException 401 "Login first"), log)) /\
  (forall t resp body,
      user_tokens !! "demo_user" = Some t -> t <> "" ->
      up log {| method := "GET"; url := base +:+ "/user";
                headers := [("Authorization", "Bearer " +:+ t)];
                json_kw := None |} = Ok resp ->
      json resp = Some body ->
      OauthRoutes.me base user_tokens up log
      = (Ok body,
         log ++ [{| method := "GET"; url := base +:+ "/user";
                    headers := [("Authorization", "Bearer " +:+ t)];
                    json_kw := None |}])).
Proof.
  unfold OauthRoutes.me. split.
  - now intros ->.
  - intros t resp body Ht Hne E Hjs. rewrite Ht.
    cbn [opt_truthy from_option id].
    destruct (String.eqb_spec t ""); [done|]. cbn [negb].
    unfold bind, requests_request, lift, resp_json. now rewrite E, Hjs.
Qed.

End Routes.

Lemma callback_touches_only_demo_user_witness :
  snd (OauthRoutes.callback (H := example_lib) (Some "client") (Some "secret")
         "http://localhost:8080/callback" "code123" refusing
         {[ "demo_user" := "gho_demo" ]})
  = {[ "demo_user" := "gho_demo" ]}.
Proof.
  apply (proj2 (@callback_touches_only_demo_user example_lib (Some "client")
                  (Some "secret") "http://localhost:8080/callback" "code123"
                  refusing {[ "demo_user" := "gho_demo" ]}) eq_refl).
Defined.

Lemma callback_then_request_witness :
  OauthRoutes.callback (H := example_lib) (Some "client") (Some "secret")
    "http://localhost:8080/callback" "code123" (granting "gho_new")
    {[ "demo_user" := "gho_demo" ]}
  = (Ok (VDict [("access_token", VStr "gho_new")]),
     <["demo_user" := "gho_new"]> {[ "demo_user" := "gho_demo" ]})
  /\ issued (GithubOauth.github_request "https://api.github.com"
               (snd (OauthRoutes.callback (H := example_lib) (Some "client")
                       (Some "secret") "http://localhost:8080/callback"
                       "code123" (granting "gho_new")
                       {[ "demo_user" := "gho_demo" ]}))
               "demo_user" "GET" "/repos/org/repo/releases" None)
       (always git_ok) []
     = [{| method := "GET";
           url := "https://api.github.com" +:+ "/repos/org/repo/releases";
           headers := bearer_headers "gho_new"; json_kw := None |}].
Proof.
  eapply (@callback_then_request example_lib (Some "client") (Some "secret")
            "http://localhost:8080/callback" "code123" (granting "gho_new")
            {[ "demo_user" := "gho_demo" ]});
    [reflexivity|reflexivity|reflexivity|discriminate].
Defined.

Lemma me_skips_the_status_check_witness :
  OauthRoutes.me "https://api.github.com" {[ "demo_user" := "gho_demo" ]}
    (always bad_credentials) []
  = (Ok (VDict [("message", VStr "Bad credentials")]),
     [] ++ [{| method := "GET"; url := "https://api.github.com" +:+ "/user";
               headers := [("Authorization", "Bearer " +:+ "gho_demo")];
               json_kw := None |}]).
Proof.
  apply (proj2 (me_skips_the_status_check "https://api.github.com"
                  {[ "demo_user" := "gho_demo" ]} (always bad_credentials) [])
           "gho_demo" bad_credentials
           (VDict [("message", VStr "Bad credentials")]));
    [reflexivity|discriminate|reflexivity|reflexivity].
Defined.

Lemma success_body_not_json_witness :
  Confluence.cf_request (H := example_lib) "cf_token" "GET"
    "https://wiki.example.net/wiki/rest/api/content/42" None
    (always {| ok := true; status_code := 200; text := "<html>ok</html>";
               json := None |}) []
  = (Ok (VDict [("raw", VStr "<html>ok</html>")]),
     [] ++ [{| method := "GET";
               url := "https://wiki.example.net/wiki/rest/api/content/42";
               headers := Confluence.HEADERS "cf_token"; json_kw := None |}]).
Proof.
  apply (proj1 (@success_body_not_json example_lib
                  (always {| ok := true; status_code := 200;
                             text := "<html>ok</html>"; json := None |})
                  [] "GET" "https://wiki.example.net/wiki/rest/api/content/42"
                  None
                  {| ok := true; status_code := 200;
                     text := "<html>ok</html>"; json := None |}
                  eq_refl ltac:(discriminate) eq_refl)
           "cf_token" eq_refl).
Defined.

Lemma success_body_empty_witness :
  GithubOauth.github_request "https://api.github.com"
    {[ "demo_user" := "gho_demo" ]} "demo_user" "GET"
    "/repos/org/repo/releases" None (always no_content) []
  = (Raise JSONDecodeError,
     [] ++ [{| method := "GET";
               url := "https://api.github.com" +:+ "/repos/org/repo/releases";
               headers := bearer_headers "gho_demo"; json_kw := None |}]).
Proof.
  apply (proj2 (proj2 (proj2 (proj2
           (@success_body_empty example_lib (always no_content) [] "GET"
              "/repos/org/repo/releases" None no_content
              eq_refl eq_refl eq_refl))))
           "https://api.github.com" {[ "demo_user" := "gho_demo" ]}
           "demo_user" "gho_demo");
    [reflexivity|discriminate|reflexivity].
Defined.

(** ** GitLab: the unbound [request] *)

Section GitlabTools.
Context `{PyLib}.
Variable env : Env.

(** X14. Every GitLab tool other than [get_contents] evaluates the name
    [request], which is bound nowhere in the module, so it raises
    [NameError] before the readonly check runs and before any request is
    built: none of these tools can reach GitLab, marker or no marker. *)
Theorem gitlab_tools_raise_name_error c request up log :
  server_of c = GitlabPy -> mutating c = true ->
  invoke env request c up log = (Raise (NameError "request"), log) /\
  issued (invoke env request c) up log = [].
Proof.
  intros Hs Hm. destruct c; try discriminate; split; try reflexivity;
    unfold issued; cbn [invoke]; unfold_tools;
    cbn [bind raise snd]; apply drop_all.
Qed.

End GitlabTools.

Lemma gitlab_tools_raise_name_error_witness :
  invoke (H := example_lib) example_env (Some plain_request)
    (GL_push_multiple_files "7" "main" [file_a; file_b] "two files")
    (always git_ok) []
  = (Raise (NameError "request"), []) /\
  issued (invoke (H := example_lib) example_env (Some plain_request)
            (GL_push_multiple_files "7" "main" [file_a; file_b] "two files"))
    (always git_ok) [] = [].
Proof.
  apply (@gitlab_tools_raise_name_error example_lib example_env
           (GL_push_multiple_files "7" "main" [file_a; file_b] "two files")
           (Some plain_request) (always git_ok) [] eq_refl eq_refl).
Defined.

(** ** Confluence pages *)

Section Pages.
Context `{PyLib}.
Variable base pat : string.

Local Abbreviation API_BASE := (Confluence.API_BASE base).
Local Abbreviation HEADERS := (Confluence.HEADERS pat).

Lemma cf_request_answered method url kw up log v :
  answered up log
    {| method := method; url := url; headers := HEADERS; json_kw := kw |} v ->
  Confluence.cf_request pat method url kw up log
  = (Ok v, log ++ [{| method := method; url := url; headers := HEADERS;
                       json_kw := kw |}]).
Proof.
  intros (resp & E & Hok & Htxt & Hjs).
  unfold Confluence.cf_request, bind, requests_request.
  rewrite E, Hok. cbn [negb].
  destruct (String.eqb_spec (text resp) ""); [done|]. cbn [negb].
  now rewrite Hjs.
Qed.

(** X15. Looking a page up by title: without a page id, a missing (or
    empty) title or space key raises "Provide either page_id OR ..." and
    issues no request; with both, the tool issues one GET and returns the
    first entry of the answer's [results], or the normal result "No page
    found" when [results] is empty or absent. *)
Theorem get_page_by_title page_id title space_key expand_body up log :
  opt_truthy page_id = false ->
  (opt_truthy title = false \/ opt_truthy space_key = false ->
   Confluence.confluence_get_page base pat page_id title space_key
     expand_body up log
   = (Raise (RuntimeError "Provide either page_id OR (title and space_key)."),
      log)) /\
  (forall result found,
      opt_truthy title = true -> opt_truthy space_key = true ->
      answered up log
        {| method := "GET";
           url := API_BASE +:+ "/content?title="
                    +:+ quote (default "" title) "/"
                    +:+ "&spaceKey=" +:+ quote (default "" space_key) "/"
                    +:+ "&expand="
                    +:+ (if expand_body then "body.storage,version"
                         else "version");
           headers := HEADERS; json_kw := None |} result ->
      Py.get result "results" (VList []) = Ok (VList found) ->
      Confluence.confluence_get_page base pat page_id title space_key
        expand_body up log
      = (Ok (match found with
             | [] => VDict [("message", VStr "No page found");
                            ("results", VList [])]
             | page :: _ => page
             end),
         log ++ [{| method := "GET";
                    url := API_BASE +:+ "/content?title="
                             +:+ quote (default "" title) "/"
                             +:+ "&spaceKey="
                             +:+ quote (default "" space_key) "/"
                             +:+ "&expand="
                             +:+ (if expand_body then "body.storage,version"
                                  else "version");
                    headers := HEADERS; json_kw := None |}])).
Proof.
  intros Hid. unfold Confluence.confluence_get_page. rewrite Hid. cbv zeta.
  split.
  - now intros [-> | ->]; cbn [negb orb]; [|rewrite orb_true_r].
  - intros result found Ht Hs A Hres. rewrite Ht, Hs. cbn [negb orb].
    step ltac:(apply cf_request_answered; exact A).
    step ltac:(apply lift_ok; exact Hres).
    now destruct found.
Qed.

(** X16. What [confluence_update_page] submits.  After a fetch that
    returned a page with integer version [n] (not 0), the PUT carries the
    page id, type "page", version [n + 1] with the [minor_edit] flag, and
    as title the new title when one is given and not empty, else the title
    just fetched; it carries a body exactly when [new_html_content] is not
    [None].  So an empty new title keeps the old title, while an empty new
    content is submitted as the page's body. *)
Theorem update_page_payload page_id new_title new_html_content minor_edit
    up log current n old_title :
  answered up log (Confluence.version_fetch base pat page_id) current ->
  version_number current = Ok (VInt n) -> n <> 0 ->
  Py.get current "title" VNone = Ok old_title ->
  issued (Confluence.confluence_update_page base pat page_id new_title
            new_html_content minor_edit) up log
  = [Confluence.version_fetch base pat page_id;
     Confluence.page_put base pat page_id
       ([("id", VStr page_id); ("type", VStr "page");
         ("title", if opt_truthy new_title
                   then VStr (default "" new_title) else old_title);
         ("version", VDict [("number", VInt (n + 1));
                            ("minorEdit", VBool minor_edit)])]
          ++ match new_html_content with
             | Some html => [("body", Confluence.storage_body_html html)]
             | None => []
             end)].
Proof.
  intros A Hv Hn Ht.
  unfold version_number in Hv.
  destruct (Py.get current "version" (VDict [])) as [vo|e] eqn:E1; [|done].
  set (payload := _ ++ _).
  unfold issued, Confluence.confluence_update_page.
  step ltac:(apply cf_request_answered; exact A).
  step ltac:(apply lift_ok; exact E1).
  step ltac:(apply lift_ok; exact Hv).
  cbn [Py.truthy]. destruct (Z.eqb_spec n 0); [done|]. cbn [negb].
  assert (Htitle : (if opt_truthy new_title
                    then ret (VStr (default "" new_title))
                    else lift (Py.get current "title" VNone)) up
                     (log ++ [Confluence.version_fetch base pat page_id])
                   = (Ok (if opt_truthy new_title
                          then VStr (default "" new_title) else old_title),
                      log ++ [Confluence.version_fetch base pat page_id])).
  { destruct (opt_truthy new_title); [reflexivity|]. now rewrite Ht. }
  step ltac:(exact Htitle).
  step ltac:(apply lift_ok; reflexivity).
  cbv zeta.
  assert (Hp : match new_html_content with
               | Some html =>
                   Py.dict_set "body" (Confluence.storage_body_html html)
                     [("id", VStr page_id); ("type", VStr "page");
                      ("title", if opt_truthy new_title
                                then VStr (default "" new_title)
                                else old_title);
                      ("version", VDict [("number", VInt (n + 1));
                                         ("minorEdit", VBool minor_edit)])]
               | None =>
                   [("id", VStr page_id); ("type", VStr "page");
                    ("title", if opt_truthy new_title
                              then VStr (default "" new_title)
                              else old_title);
                    ("version", VDict [("number", VInt (n + 1));
                                       ("minorEdit", VBool minor_edit)])]
               end = payload)
    by (subst payload; now destruct new_html_content).
  rewrite Hp. unfold bind at 1.
  destruct (Confluence.cf_request pat "PUT" _ (Some (VDict payload)) up _)
    as [[updated|e] l] eqn:E5;
    apply ConfluenceProps.cf_request_eq in E5 as ->;
    rewrite <- app_assoc; cbn [app].
  2:{ cbn [snd]. now rewrite drop_app_length. }
  assert (Hrest : forall (m : M value),
             pure m ->
             drop (length log)
               (snd (m up (log ++ [Confluence.version_fetch base pat page_id;
                                   Confluence.page_put base pat page_id
                                     payload])))
             = [Confluence.version_fetch base pat page_id;
                Confluence.page_put base pat page_id payload]).
  { intros m Hm. now rewrite Hm, drop_app_length. }
  apply Hrest.
  intros u l. unfold bind, lift, ret.
  destruct (Py.get updated "id" VNone); [|done].
  destruct (Py.get updated "title" VNone); [|done].
  destruct (Py.get updated "version" (VDict [])) as [uv|]; [|done].
  now destruct (Py.get uv "number" VNone).
Qed.

(** X17. A version that is true but not a number (a string such as "3")
    makes [version + 1] fail: [confluence_update_page] raises [TypeError]
    after the fetch, and the fetch is the only request issued. *)
Theorem update_page_version_not_a_number page_id new_title new_html_content
    minor_edit up log current version e :
  answered up log (Confluence.version_fetch base pat page_id) current ->
  version_number current = Ok version -> Py.truthy version = true ->
  Py.add version (VInt 1) = Raise e ->
  Confluence.confluence_update_page base pat page_id new_title
    new_html_content minor_edit up log
  = (Raise TypeError, log ++ [Confluence.version_fetch base pat page_id]).
Proof.
  intros A Hv Ht Hadd.
  assert (e = TypeError) as ->.
  { destruct version as [| | | | |]; cbn in Hadd; congruence. }
  unfold version_number in Hv.
  destruct (Py.get current "version" (VDict [])) as [vo|e'] eqn:E1; [|done].
  assert (Hcur : exists d, current = VDict d)
    by (destruct current; try discriminate E1; eauto).
  destruct Hcur as [d ->].
  unfold Confluence.confluence_update_page.
  step ltac:(apply cf_request_answered; exact A).
  step ltac:(apply lift_ok; exact E1).
  step ltac:(apply lift_ok; exact Hv).
  rewrite Ht. cbn [negb].
  destruct (opt_truthy new_title).
  - step ltac:(reflexivity). now step_raise ltac:(unfold lift; now rewrite Hadd).
  - step ltac:(reflexivity). now step_raise ltac:(unfold lift; now rewrite Hadd).
Qed.

(** X18. What [confluence_create_page] returns on an answer that is a
    JSON object, after its single POST.  Absent [id] and [title] come back
    as [None].  With no [_links] the link is the empty string; with
    [_links] an object, the link is its [base] followed by its [webui],
    each read as the empty string when missing, and the tool raises
    [TypeError] when the two cannot be added (a [null] part, say); with
    [_links] present but not an object ([null], say) the tool raises
    [AttributeError].  In both failures the POST has been issued: the
    page exists upstream although the tool reports an error.  The POST
    carries an [ancestors] entry exactly when a non-empty parent page id
    is given. *)
Theorem create_page_result space_key title html_content parent_page_id
    up log d :
  answered up log
    {| method := "POST"; url := API_BASE +:+ "/content"; headers := HEADERS;
       json_kw :=
         Some (VDict
                 ([("type", VStr "page"); ("title", VStr title);
                   ("space", VDict [("key", VStr space_key)]);
                   ("body", Confluence.storage_body_html html_content)]
                    ++ if opt_truthy parent_page_id
                       then [("ancestors",
                              VList [VDict [("id",
                                             VStr (default "" parent_page_id))]])]
                       else [])) |} (VDict d) ->
  issued (Confluence.confluence_create_page base pat space_key title
            html_content parent_page_id) up log
  = [{| method := "POST"; url := API_BASE +:+ "/content"; headers := HEADERS;
        json_kw :=
          Some (VDict
                  ([("type", VStr "page"); ("title", VStr title);
                    ("space", VDict [("key", VStr space_key)]);
                    ("body", Confluence.storage_body_html html_content)]
                     ++ if opt_truthy parent_page_id
                        then [("ancestors",
                               VList [VDict [("id",
                                              VStr (default ""
                                                      parent_page_id))]])]
                        else [])) |}] /\
  (Py.assoc "_links" d = None ->
   fst (Confluence.confluence_create_page base pat space_key title
          html_content parent_page_id up log)
   = Ok (VDict [("message", VStr "Page created");
                ("id", default VNone (Py.assoc "id" d));
                ("title", default VNone (Py.assoc "title" d));
                ("link", VStr "")])) /\
  (forall links,
      Py.assoc "_links" d = Some (VDict links) ->
      fst (Confluence.confluence_create_page base pat space_key title
             html_content parent_page_id up log)
      = match Py.add (default (VStr "") (Py.assoc "base" links))
                (default (VStr "") (Py.assoc "webui" links)) with
        | Ok link =>
            Ok (VDict [("message", VStr "Page created");
                       ("id", default VNone (Py.assoc "id" d));
                       ("title", default VNone (Py.assoc "title" d));
                       ("link", link)])
        | Raise _ => Raise TypeError
        end) /\
  (forall v,
      Py.assoc "_links" d = Some v -> (forall links, v <> VDict links) ->
      fst (Confluence.confluence_create_page base pat space_key title
             html_content parent_page_id up log)
      = Raise (AttributeError "get")).
Proof.
  intros A.
  assert (Hp : (if opt_truthy parent_page_id
                then Py.dict_set "ancestors"
                       (VList [VDict [("id", VStr (default "" parent_page_id))]])
                       [("type", VStr "page"); ("title", VStr title);
                        ("space", VDict [("key", VStr space_key)]);
                        ("body", Confluence.storage_body_html html_content)]
                else [("type", VStr "page"); ("title", VStr title);
                      ("space", VDict [("key", VStr space_key)]);
                      ("body", Confluence.storage_body_html html_content)])
               = [("type", VStr "page"); ("title", VStr title);
                  ("space", VDict [("key", VStr space_key)]);
                  ("body", Confluence.storage_body_html html_content)]
                   ++ if opt_truthy parent_page_id
                      then [("ancestors",
                             VList [VDict [("id",
                                            VStr (default "" parent_page_id))]])]
                      else [])
    by (now destruct (opt_truthy parent_page_id)).
  assert (Hadd : forall a b e, Py.add a b = Raise e -> e = TypeError).
  { intros a b e. destruct a, b; cbn; congruence. }
  unfold issued, Confluence.confluence_create_page. cbv zeta. rewrite Hp.
  erewrite !bind_ok by (apply cf_request_answered; exact A).
  split; [|split; [|split]].
  - match goal with
    | |- drop _ (snd (?m up ?l)) = _ =>
        assert (Hpure : pure m); [|now rewrite Hpure, drop_app_length]
    end.
    intros u l. cbn [Py.get]. unfold bind, lift, ret.
    destruct (Py.assoc "_links" d) as [[| | | | |links]|];
      cbn [Py.get snd]; try reflexivity;
      now destruct (Py.add _ _).
  - cbn [Py.get]. unfold bind, lift, ret. intros ->. reflexivity.
  - cbn [Py.get]. unfold bind, lift, ret. intros links ->. cbn [Py.get].
    destruct (Py.add _ _) as [link|e] eqn:E; [reflexivity|].
    cbn [fst]. now rewrite (Hadd _ _ _ E).
  - cbn [Py.get]. unfold bind, lift, ret. intros v -> Hv.
    destruct v as [| | | | |links]; try reflexivity. now destruct (Hv links).
Qed.

End Pages.

(** Discharge an [answered] premise on a concrete upstream. *)
Ltac answered_by resp :=
  exists resp; split; [reflexivity|]; split; [reflexivity|];
  split; [discriminate|reflexivity].

Lemma get_page_by_title_witness :
  Confluence.confluence_get_page (H := example_lib)
    "https://wiki.example.net/wiki/" "cf_token" None (Some "Home")
    (Some "DOCS") false
    (always {| ok := true; status_code := 200; text := "{...}";
               json := Some (VDict [("results", VList []);
                                    ("size", VInt 0)]) |}) []
  = (Ok (VDict [("message", VStr "No page found"); ("results", VList [])]),
     [] ++ [{| method := "GET";
               url := Confluence.API_BASE "https://wiki.example.net/wiki/"
                        +:+ "/content?title=" +:+ "Home" +:+ "&spaceKey="
                        +:+ "DOCS" +:+ "&expand=" +:+ "version";
               headers := Confluence.HEADERS "cf_token";
               json_kw := None |}]).
Proof.
  eapply (proj2 (@get_page_by_title example_lib
                   "https://wiki.example.net/wiki/" "cf_token" None
                   (Some "Home") (Some "DOCS") false _ [] eq_refl)
            _ [] eq_refl eq_refl);
    [answered_by {| ok := true; status_code := 200; text := "{...}";
                    json := Some (VDict [("results", VList []);
                                         ("size", VInt 0)]) |}
    | reflexivity].
Defined.

Lemma update_page_payload_witness :
  issued (Confluence.confluence_update_page (H := example_lib)
            "https://wiki.example.net/wiki/" "cf_token" "42" (Some "")
            (Some "") true) (scripted [page_v3] page_v4) []
  = [Confluence.version_fetch "https://wiki.example.net/wiki/" "cf_token" "42";
     Confluence.page_put "https://wiki.example.net/wiki/" "cf_token" "42"
       ([("id", VStr "42"); ("type", VStr "page");
         ("title", if opt_truthy (Some "")
                   then VStr (default "" (Some "")) else VStr "Home");
         ("version", VDict [("number", VInt (3 + 1));
                            ("minorEdit", VBool true)])]
          ++ [("body", Confluence.storage_body_html "")])].
Proof.
  eapply (@update_page_payload example_lib "https://wiki.example.net/wiki/"
            "cf_token" "42" (Some "") (Some "") true
            (scripted [page_v3] page_v4) [] _ 3 (VStr "Home"));
    [answered_by page_v3 | reflexivity | discriminate | reflexivity].
Defined.

Lemma update_page_version_not_a_number_witness :
  Confluence.confluence_update_page (H := example_lib)
    "https://wiki.example.net/wiki/" "cf_token" "42" None (Some "<p>x</p>")
    false
    (always {| ok := true; status_code := 200; text := "{...}";
               json := Some (VDict [("title", VStr "Home");
                                    ("version",
                                     VDict [("number", VStr "3")])]) |}) []
  = (Raise TypeError,
     [] ++ [Confluence.version_fetch "https://wiki.example.net/wiki/"
              "cf_token" "42"]).
Proof.
  eapply (@update_page_version_not_a_number example_lib
            "https://wiki.example.net/wiki/" "cf_token" "42" None
            (Some "<p>x</p>") false _ [] _ (VStr "3") TypeError);
    [answered_by {| ok := true; status_code := 200; text := "{...}";
                    json := Some (VDict [("title", VStr "Home");
                                         ("version",
                                          VDict [("number", VStr "3")])]) |}
    | reflexivity | reflexivity | reflexivity].
Defined.

Lemma create_page_result_witness :
  fst (Confluence.confluence_create_page (H := example_lib)
         "https://wiki.example.net/wiki/" "cf_token" "DOCS" "Home" "<p>hi</p>"
         (Some "7")
         (always {| ok := true; status_code := 200; text := "{...}";
                    json := Some (VDict [("id", VStr "99");
                                         ("_links", VNone)]) |}) [])
  = Raise (AttributeError "get") /\
  issued (Confluence.confluence_create_page (H := example_lib)
            "https://wiki.example.net/wiki/" "cf_token" "DOCS" "Home"
            "<p>hi</p>" (Some "7"))
    (always {| ok := true; status_code := 200; text := "{...}";
               json := Some (VDict [("id", VStr "99");
                                    ("_links", VNone)]) |}) []
  = [{| method := "POST";
        url := Confluence.API_BASE "https://wiki.example.net/wiki/"
                 +:+ "/content";
        headers := Confluence.HEADERS "cf_token";
        json_kw :=
          Some (VDict
                  ([("type", VStr "page"); ("title", VStr "Home");
                    ("space", VDict [("key", VStr "DOCS")]);
                    ("body", Confluence.storage_body_html "<p>hi</p>")]
                     ++ if opt_truthy (Some "7")
                        then [("ancestors",
                               VList [VDict [("id",
                                              VStr (default "" (Some "7")))]])]
                        else [])) |}].
Proof.
  assert (A : answered
                (always {| ok := true; status_code := 200; text := "{...}";
                           json := Some (VDict [("id", VStr "99");
                                                ("_links", VNone)]) |}) []
                {| method := "POST";
                   url := Confluence.API_BASE "https://wiki.example.net/wiki/"
                            +:+ "/content";
                   headers := Confluence.HEADERS "cf_token";
                   json_kw :=
                     Some (VDict
                             ([("type", VStr "page"); ("title", VStr "Home");
                               ("space", VDict [("key", VStr "DOCS")]);
                               ("body",
                                Confluence.storage_body_html "<p>hi</p>")]
                                ++ if opt_truthy (Some "7")
                                   then [("ancestors",
                                          VList [VDict
                                                   [("id",
                                                     VStr (default ""
                                                             (Some "7")))]])]
                                   else [])) |}
                (VDict [("id", VStr "99"); ("_links", VNone)])).
  { answered_by {| ok := true; status_code := 200; text := "{...}";
                   json := Some (VDict [("id", VStr "99");
                                        ("_links", VNone)]) |}. }
  destruct (@create_page_result example_lib "https://wiki.example.net/wiki/"
              "cf_token" "DOCS" "Home" "<p>hi</p>" (Some "7") _ []
              [("id", VStr "99"); ("_links", VNone)] A)
    as (Hissued & _ & _ & Hbad).
  split; [|exact Hissued].
  apply (Hbad VNone eq_refl). discriminate.
Defined.

(** ** The weekly digest *)

Section Digests.
Context `{PyLib}.

Lemma digest_lines_cons x items lines :
  digest_lines (x :: items) = Ok lines ->
  exists line rest, lines = ("- " +:+ line) :: rest.
Proof.
  cbn [digest_lines].
  destruct (Py.getitem x "title") as [t|]; [|done].
  destruct (Py.getitem x "number") as [n|]; [|done].
  destruct (digest_lines items) as [rest|]; [|done].
  intros [= <-]. eauto.
Qed.

Lemma digest_section_part v items lines placeholder :
  Py.iter v = Ok items -> digest_lines items = Ok lines ->
  digest_section v placeholder = Ok (digest_part items lines placeholder).
Proof.
  intros Hi Hl. unfold digest_section. rewrite Hi, Hl.
  destruct items as [|x items].
  - cbn in Hl. now injection Hl as <-.
  - destruct (digest_lines_cons _ _ _ Hl) as (line & rest & ->).
    cbn [digest_part]. now destruct rest.
Qed.


End Digests.


(** ** The file-push pipeline on any number of files *)

Section Pipeline.
Context `{PyLib}.
Variable token : string.

Local Abbreviation create_blobs := (GithubServer.create_blobs token).
Local Abbreviation blob_create := (GithubServer.blob_create token).
Local Abbreviation blob_of :=
  (fun (owner repo : string) (f : gmap string string) =>
     GithubServer.blob_create token owner repo (default "" (f !! "content"))).

(** The blob loop over a run of complete files, on a compliant upstream:
    one blob request per file, one tree entry per file, in order. *)
Lemma create_blobs_app_ok up owner repo pre rest :
  git_compliant up -> Forall complete_file pre ->
  forall acc log,
  exists entries,
    create_blobs owner repo (pre ++ rest) acc up log
    = create_blobs owner repo rest (acc ++ entries) up
        (log ++ map (blob_of owner repo) pre) /\
    map (fun e => Py.getitem e "path") entries
    = map (fun f => Ok (VStr (default "" (f !! "path")))) pre.
Proof.
  intros Hup Hpre. induction Hpre as [|f pre [[c Hc] [p Hp]] _ IH];
    intros acc log.
  - exists []. now rewrite !app_nil_r.
  - destruct (Hup log (blob_create owner repo c)) as (blob & A & (s & Hs) & _).
    destruct (IH (acc ++ [GithubServer.tree_entry p s])
                (log ++ [blob_create owner repo c])) as (entries & E & Hpaths).
    exists (GithubServer.tree_entry p s :: entries). split.
    + cbn [app]. rewrite (GithubServerProps.create_blobs_cons_ok token
                            up log owner repo f (pre ++ rest) acc c p blob s
                            Hc A Hp Hs).
      rewrite E. cbn [map]. rewrite Hc. cbn [from_option id].
      now rewrite <- !app_assoc.
    + cbn [map]. rewrite Hpaths, Hp. reflexivity.
Qed.



End Pipeline.

Lemma always_git_ok_answered log q : answered (always git_ok) log q git_object.
Proof. answered_by git_ok. Qed.

Lemma always_git_ok_compliant : git_compliant (always git_ok).
Proof.
  intros log q. exists git_object. split; [answered_by git_ok|].
  repeat split; repeat eexists; reflexivity.
Qed.

Lemma example_files_complete : Forall complete_file [file_a; file_b].
Proof. repeat constructor; eexists; reflexivity. Qed.



(** ** Creating a branch *)

Section Branches.
Context `{PyLib}.
Variable token : string.

Lemma github_request_log_eq method url kw up log r log' :
  GithubServer.github_request token method url kw up log = (r, log') ->
  log' = log ++ [{| method := method; url := url;
                    headers := GithubServer.HEADERS token; json_kw := kw |}].
Proof.
  unfold GithubServer.github_request, bind, requests_request.
  destruct (up log _) as [resp|e]; [|now intros [= _ <-]].
  destruct (ok resp); cbn [negb]; [|now intros [= _ <-]].
  destruct (negb _); now intros [= _ <-].
Qed.

(** X22. [create_branch] of [server.py] makes the new branch start where
    the base branch is: the POST that creates the ref carries exactly the
    [object.sha] the GET of the base ref returned, under the name
    "refs/heads/" followed by the new branch's name.  When the answer to
    the GET has no [object] the tool raises [KeyError] and the POST is
    not issued. *)
Theorem create_branch_starts_at_base_head owner repo new_branch base_branch r
    up log ref_data :
  readonly_marker r = false ->
  answered up log (GithubServer.ref_fetch token owner repo base_branch)
    ref_data ->
  (forall obj sha,
      Py.getitem ref_data "object" = Ok obj -> Py.getitem obj "sha" = Ok sha ->
      issued (GithubServer.create_branch token owner repo new_branch
                base_branch (Some r)) up log
      = [GithubServer.ref_fetch token owner repo base_branch;
         {| method := "POST";
            url := GithubServer.BASE_URL +:+ "/repos/" +:+ owner +:+ "/"
                     +:+ repo +:+ "/git/refs";
            headers := GithubServer.HEADERS token;
            json_kw := Some (VDict [("ref",
                                     VStr ("refs/heads/" +:+ new_branch));
                                    ("sha", sha)]) |}]) /\
  (forall e,
      Py.getitem ref_data "object" = Raise e ->
      GithubServer.create_branch token owner repo new_branch base_branch
        (Some r) up log
      = (Raise e, log ++ [GithubServer.ref_fetch token owner repo
                            base_branch])).
Proof.
  intros Hro A. split.
  - intros obj sha G1 G2. unfold issued, GithubServer.create_branch. cbv zeta.
    step ltac:(apply GithubServerProps.check_readonly_pass; exact Hro).
    step ltac:(apply GithubServerProps.github_request_answered; exact A).
    step ltac:(apply lift_ok; exact G1).
    step ltac:(apply lift_ok; exact G2).
    unfold bind at 1.
    destruct (GithubServer.github_request token "POST" _ _ up _)
      as [[resp|e] l] eqn:E;
      apply github_request_log_eq in E as ->;
      rewrite <- app_assoc; cbn [app ret snd]; now rewrite drop_app_length.
  - intros e G1. unfold GithubServer.create_branch. cbv zeta.
    step ltac:(apply GithubServerProps.check_readonly_pass; exact Hro).
    step ltac:(apply GithubServerProps.github_request_answered; exact A).
    now step_raise ltac:(unfold lift; now rewrite G1).
Qed.

End Branches.

Lemma create_branch_starts_at_base_head_witness :
  issued (GithubServer.create_branch "ghp_token" "octo" "site" "feature"
            "main" (Some plain_request)) (always git_ok) []
  = [GithubServer.ref_fetch "ghp_token" "octo" "site" "main";
     {| method := "POST";
        url := GithubServer.BASE_URL +:+ "/repos/" +:+ "octo" +:+ "/"
                 +:+ "site" +:+ "/git/refs";
        headers := GithubServer.HEADERS "ghp_token";
        json_kw := Some (VDict [("ref", VStr ("refs/heads/" +:+ "feature"));
                                ("sha", VStr "abc123")]) |}].
Proof.
  apply (proj1 (create_branch_starts_at_base_head "ghp_token" "octo" "site"
                  "feature" "main" plain_request (always git_ok) []
                  git_object eq_refl (always_git_ok_answered _ _))
           _ _ eq_refl eq_refl).
Defined.

(** C5 does not hold as the specification states it: when the fetched
    page carries no version number that can be used, the error is not
    always "Could not determine current version number".  A [version]
    that is [null] makes the lookup itself raise [AttributeError]; a
    number given as the string "three" passes the truth test and makes
    [version + 1] raise [TypeError]; in both runs only the GET is issued.
    A number given as [true] passes the truth test too, and the PUT is
    issued with version 2. *)
Lemma update_page_undetermined_version_other_outcomes :
  Confluence.confluence_update_page (H := example_lib)
    "https://wiki.example.net/wiki/" "cf_token" "42" None (Some "<p>x</p>")
    false
    (always {| ok := true; status_code := 200; text := "{...}";
               json := Some (VDict [("id", VStr "42"); ("title", VStr "Home");
                                    ("version", VNone)]) |}) []
  = (Raise (AttributeError "get"),
     [Confluence.version_fetch "https://wiki.example.net/wiki/" "cf_token"
        "42"]) /\
  Confluence.confluence_update_page (H := example_lib)
    "https://wiki.example.net/wiki/" "cf_token" "42" None (Some "<p>x</p>")
    false
    (always {| ok := true; status_code := 200; text := "{...}";
               json := Some (VDict [("id", VStr "42"); ("title", VStr "Home");
                                    ("version",
                                     VDict [("number", VStr "three")])]) |})
    []
  = (Raise TypeError,
     [Confluence.version_fetch "https://wiki.example.net/wiki/" "cf_token"
        "42"]) /\
  Confluence.confluence_update_page (H := example_lib)
    "https://wiki.example.net/wiki/" "cf_token" "42" None None false
    (scripted
       [{| ok := true; status_code := 200; text := "{...}";
           json := Some (VDict [("id", VStr "42"); ("title", VStr "Home");
                                ("version",
                                 VDict [("number", VBool true)])]) |}]
       page_id_only) []
  = (Ok (VDict [("message", VStr "Page updated"); ("id", VStr "42");
                ("title", VNone); ("version", VNone)]),
     [Confluence.version_fetch "https://wiki.example.net/wiki/" "cf_token"
        "42";
      Confluence.page_put "https://wiki.example.net/wiki/" "cf_token" "42"
        [("id", VStr "42"); ("type", VStr "page"); ("title", VStr "Home");
         ("version", VDict [("number", VInt 2);
                            ("minorEdit", VBool false)])]]) /\
  Raise (AttributeError "get")
  <> @Raise value
       (RuntimeError
          "Could not determine current version number for the page.").
Proof. repeat split; try reflexivity. discriminate. Qed.
